(** * EComBackend: the authentication and session-token core

    A shallow embedding of the token service (access / refresh tokens, the
    refresh-token registry and the access-token blacklist, both kept in
    Redis), of the OTP service, of the credential middleware and of the
    refresh flow, followed by the properties the specification states about
    them.

    Sources embedded here:
      - src/common/services/redis.service.js   (the Redis wrapper)
      - src/common/services/token.service.js   (second half of the same file)
      - src/common/services/otp.service.js     (unnamed/part_014)
      - src/modules/user/user.middleware.js
      - src/modules/auth/auth.service.js, auth.controller.js

    Two external libraries are used by that code and are modelled, not
    translated: [jsonwebtoken] (module [Jwt], a symbolic model of HS256
    tokens) and the Redis server (module [Redis], a key space with expiry
    times, string values and hashes). *)

From Stdlib Require Import ZArith Lia Ascii String DecimalString DecimalZ.
From stdpp Require Import base option list strings gmap fin_maps.

Local Open Scope string_scope.
Local Open Scope Z_scope.

(** ** JavaScript values the code relies on *)

Module Js.

(** [!!s] for a value that is a string or [undefined]: the empty string
    and [undefined] are falsy. *)
Definition truthy (o : option string) : bool :=
  match o with
  | Some s => negb (String.eqb s "")
  | None => false
  end.

(** [a || b] on such values. *)
Definition or (a b : option string) : option string :=
  if truthy a then a else b.

(** A value inside a template literal: [`${x}`]. *)
Definition template (o : option string) : string :=
  match o with
  | Some s => s
  | None => "undefined"
  end.

(** [String(n)] / [n.toString()] for an integer. *)
Definition number_to_string (n : Z) : string :=
  NilZero.string_of_int (Z.to_int n).

Definition is_digit (a : ascii) : bool :=
  (48 <=? nat_of_ascii a)%nat && (nat_of_ascii a <=? 57)%nat.

Definition is_space (a : ascii) : bool :=
  let n := nat_of_ascii a in
  (n =? 32)%nat || ((9 <=? n)%nat && (n <=? 13)%nat).

Fixpoint skip_spaces (s : string) : string :=
  match s with
  | String a r => if is_space a then skip_spaces r else s
  | EmptyString => s
  end.

Fixpoint take_digits (s : string) : string :=
  match s with
  | String a r => if is_digit a then String a (take_digits r) else ""
  | EmptyString => ""
  end.

(** [parseInt(s)] in base 10: leading white space, an optional sign, then
    the longest run of digits; [None] is [NaN].  The value is the exact
    integer.  The code's [parseInt] returns a double, which is that integer
    up to 2^53 in absolute value and the nearest double beyond; and, called
    without a radix, it reads a text that starts with [0x] in base 16.  The
    statements below keep to counters written by [incr] for limits of at
    most 2^53, or do not depend on the value. *)
Definition parseInt (s : string) : option Z :=
  let s1 := skip_spaces s in
  let '(neg, s2) :=
    match s1 with
    | String "-" r => (true, r)
    | String "+" r => (false, r)
    | _ => (false, s1)
    end in
  match take_digits s2 with
  | EmptyString => None
  | ds =>
      match NilEmpty.uint_of_string ds with
      | Some d => Some (if neg then - Z.of_uint d else Z.of_uint d)
      | None => None
      end
  end.

End Js.

(** ** The [jsonwebtoken] library, symbolically

    A token is kept as the payload it carries together with the key its
    HS256 signature was computed with; a string that is not a JWT at all is
    [Malformed].  Two tokens are the same string exactly when they are the
    same value of this type. *)

Module Jwt.

(** The [user] object the callers embed: [{ id, role, avatarUrl, email }]
    (a Mongoose document serialises with [_id]). *)
Record user_obj := UserObj {
  u_id : option string;
  u__id : option string;
  u_role : option string;
  u_avatarUrl : option string;
  u_email : option string
}.

(** [user] is documented as "the user id or the user information". *)
Inductive js_user :=
  | UObj (o : user_obj)
  | UStr (s : string).

Record payload := Payload {
  p_user : option js_user;
  p_role : option string;
  p_jti : option string;
  p_iat : option Z;
  p_exp : option Z;
  p_isAdmin : bool;
  p_id : option string
}.

Inductive token :=
  | Malformed (s : string)
  | Signed (p : payload) (key : string).

Inductive jwt_error :=
  | JsonWebTokenError (message : string)
  | TokenExpiredError.

Global Instance user_obj_eq_dec : EqDecision user_obj.
Proof. solve_decision. Defined.
Global Instance js_user_eq_dec : EqDecision js_user.
Proof. solve_decision. Defined.
Global Instance payload_eq_dec : EqDecision payload.
Proof. solve_decision. Defined.
Global Instance token_eq_dec : EqDecision token.
Proof. solve_decision. Defined.
Global Instance jwt_error_eq_dec : EqDecision jwt_error.
Proof. solve_decision. Defined.

(** [!token] for the token string. *)
Definition is_empty (t : token) : bool :=
  match t with
  | Malformed s => String.eqb s ""
  | Signed _ _ => false
  end.

(** [jwt.sign(payload, secret, { expiresIn })]: the payload supplies
    [iat]; [exp = iat + expiresIn]. *)
Definition sign (p : payload) (secret : option string) (expiresIn : Z)
  : option token :=
  if Js.truthy secret then
    Some (Signed
            (Payload (p_user p) (p_role p) (p_jti p) (p_iat p)
                     (option_map (λ iat, iat + expiresIn) (p_iat p))
                     (p_isAdmin p) (p_id p))
            (Js.template secret))
  else None.

(** [jwt.decode(token)]: no signature check; [null] when not a JWT. *)
Definition decode (t : token) : option payload :=
  match t with
  | Malformed _ => None
  | Signed p _ => Some p
  end.

(** [jwt.verify(token, secret)] at clock [now] (seconds). *)
Definition verify (t : token) (secret : option string) (now : Z)
  : payload + jwt_error :=
  match t with
  | Malformed s =>
      inr (JsonWebTokenError
             (if String.eqb s "" then "jwt must be provided" else "jwt malformed"))
  | Signed p key =>
      if negb (Js.truthy secret) then
        inr (JsonWebTokenError "secret or public key must be provided")
      else if negb (String.eqb key (Js.template secret)) then
        inr (JsonWebTokenError "invalid signature")
      else
        match p_exp p with
        | Some exp => if exp <=? now then inr TokenExpiredError else inl p
        | None => inl p
        end
  end.

End Jwt.
Export Jwt.

(** ** The Redis server and [redis.service.js]

    The key space maps a key to a value (a string or a hash) and an optional
    expiry instant in milliseconds.  A key whose expiry instant has passed
    is absent for every command. *)

Module Redis.

(** The object [saveRefreshToken] stores. *)
Record tokenData := TokenData {
  td_token : token;
  td_userId : string;
  td_isAdmin : bool;
  td_createdAt : Z;
  td_expiresAt : option Z
}.

(** The object [blacklistAccessToken] stores. *)
Record ledgerRecord := LedgerRecord {
  l_jti : string;
  l_userId : option string;
  l_blacklistedAt : Z
}.

(** A Redis string as [set] writes it: [String(value)] of a primitive, or
    the text [JSON.stringify(value)] of one of the two objects above, kept
    symbolic.  [JSON.parse] of the latter gives the object back; a [Plain]
    string is not the JSON text of an object. *)
Inductive rstring :=
  | Plain (s : string)
  | JsonTokenData (td : tokenData)
  | JsonLedger (l : ledgerRecord).

Inductive rvalue :=
  | RString (s : rstring)
  | RHash (h : gmap string string).

Record entry := Entry {
  e_val : rvalue;
  e_expireAt : option Z
}.

(** [isReady]: whether [ensureConnection] finds the client connected. *)
Record redis := RedisState {
  isReady : bool;
  db : gmap string entry
}.

(** What a [throw] carries: [new Error(message)], an error of
    [jsonwebtoken], an error reply of the server, or a literal
    [{ status, message }] object. *)
Inductive js_error :=
  | Error (message : string)
  | JwtError (e : jwt_error)
  | RedisError (message : string)
  | Thrown (status : Z) (message : string).

Inductive result (A : Type) :=
  | Ok (a : A)
  | Throw (e : js_error).
Global Arguments Ok {A} a.
Global Arguments Throw {A} e.

Global Instance tokenData_eq_dec : EqDecision tokenData.
Proof. solve_decision. Defined.
Global Instance ledgerRecord_eq_dec : EqDecision ledgerRecord.
Proof. solve_decision. Defined.
Global Instance rstring_eq_dec : EqDecision rstring.
Proof. solve_decision. Defined.
Global Instance rvalue_eq_dec : EqDecision rvalue.
Proof. solve_decision. Defined.
Global Instance entry_eq_dec : EqDecision entry.
Proof. solve_decision. Defined.
Global Instance js_error_eq_dec : EqDecision js_error.
Proof. solve_decision. Defined.

(** An [async] function over the store: it returns or throws, and leaves
    the store as the commands that completed made it. *)
Definition M (A : Type) : Type := redis → result A * redis.

Global Instance M_ret : MRet M := λ A a r, (Ok a, r).
Global Instance M_bind : MBind M := λ A B f m r,
  match m r with
  | (Ok a, r') => f a r'
  | (Throw e, r') => (Throw e, r')
  end.

Definition throw {A} (e : js_error) : M A := λ r, (Throw e, r).

(** [try { m } catch (error) { h error }] *)
Definition try_catch {A} (m : M A) (h : js_error → M A) : M A := λ r,
  match m r with
  | (Ok a, r') => (Ok a, r')
  | (Throw e, r') => h e r'
  end.

Definition expired (now : Z) (e : entry) : bool :=
  match e_expireAt e with
  | Some t => t <=? now
  | None => false
  end.

(** The entry a command sees under [k] at instant [now]. *)
Definition live (now : Z) (d : gmap string entry) (k : string) : option entry :=
  match d !! k with
  | Some e => if expired now e then None else Some e
  | None => None
  end.

Definition wrongtype : js_error :=
  RedisError "WRONGTYPE Operation against a key holding the wrong kind of value".

Definition ensureConnection : M unit := λ r,
  if isReady r then (Ok (), r) else (Throw (Error "Redis không sẵn sàng"), r).

Definition modify (f : gmap string entry → gmap string entry) : M unit := λ r,
  (Ok (), RedisState (isReady r) (f (db r))).

Definition read {A} (f : gmap string entry → A) : M A := λ r, (Ok (f (db r)), r).

(** [set(key, value, expiry)]: [expiry] in seconds; a falsy [expiry]
    ([null], [0], [NaN]) stores the key without one. *)
Definition set (now : Z) (key : string) (value : rstring) (expiry : option Z)
  : M unit :=
  _ ← ensureConnection;
  match expiry with
  | Some ex =>
      if ex =? 0 then modify (insert key (Entry (RString value) None))
      else if ex <? 0 then throw (RedisError "ERR invalid expire time in 'set' command")
      else modify (insert key (Entry (RString value) (Some (now + ex * 1000))))
  | None => modify (insert key (Entry (RString value) None))
  end.

(** [get(key, parse)]: the stored string or [null].  With [parse] the
    caller receives [JSON.parse] of it, which the symbolic [rstring]
    already stands for. *)
Definition get (now : Z) (key : string) (parse : bool) : M (option rstring) :=
  _ ← ensureConnection;
  e ← read (λ d, live now d key);
  match e with
  | None => mret None
  | Some (Entry (RString s) _) => mret (Some s)
  | Some (Entry (RHash _) _) => throw wrongtype
  end.

(** [del(key)]: every caller passes one key. *)
Definition del (now : Z) (key : string) : M Z :=
  _ ← ensureConnection;
  e ← read (λ d, live now d key);
  _ ← modify (delete key);
  mret (match e with Some _ => 1 | None => 0 end).

Definition exists_ (now : Z) (key : string) : M bool :=
  _ ← ensureConnection;
  e ← read (λ d, live now d key);
  mret (match e with Some _ => true | None => false end).

(** [expire(key, seconds)] *)
Definition expire (now : Z) (key : string) (seconds : Z) : M bool :=
  _ ← ensureConnection;
  e ← read (λ d, live now d key);
  match e with
  | None => mret false
  | Some (Entry v _) =>
      _ ← (if seconds <=? 0 then modify (delete key)
           else modify (insert key (Entry v (Some (now + seconds * 1000)))));
      mret true
  end.

(** The integer a Redis string holds, for [INCR]. *)
Definition integer_of (s : string) : option Z :=
  option_map Z.of_int (NilZero.int_of_string s).

Definition not_an_integer : js_error :=
  RedisError "ERR value is not an integer or out of range".

(** [incr(key)]: a missing key counts from 0; the expiry is kept.  The
    server keeps the counter within signed 64 bits and refuses an increment
    past 2^63 - 1; the counter here is unbounded, which is the same as long
    as it stays below that. *)
Definition incr (now : Z) (key : string) : M Z :=
  _ ← ensureConnection;
  e ← read (λ d, live now d key);
  match e with
  | None =>
      _ ← modify (insert key (Entry (RString (Plain "1")) None));
      mret 1
  | Some (Entry (RString (Plain s)) ex) =>
      match integer_of s with
      | Some n =>
          _ ← modify (insert key
                 (Entry (RString (Plain (Js.number_to_string (n + 1)))) ex));
          mret (n + 1)
      | None => throw not_an_integer
      end
  | Some (Entry (RString _) _) => throw not_an_integer
  | Some (Entry (RHash _) _) => throw wrongtype
  end.

(** [hSet(key, field, value)] *)
Definition hSet (now : Z) (key field value : string) : M Z :=
  _ ← ensureConnection;
  e ← read (λ d, live now d key);
  match e with
  | None =>
      _ ← modify (insert key (Entry (RHash {[ field := value ]}) None));
      mret 1
  | Some (Entry (RHash h) ex) =>
      _ ← modify (insert key (Entry (RHash (<[ field := value ]> h)) ex));
      mret (match h !! field with Some _ => 0 | None => 1 end)
  | Some (Entry (RString _) _) => throw wrongtype
  end.

(** [hGetAll(key)]: the empty object for a missing key. *)
Definition hGetAll (now : Z) (key : string) : M (gmap string string) :=
  _ ← ensureConnection;
  e ← read (λ d, live now d key);
  match e with
  | None => mret ∅
  | Some (Entry (RHash h) _) => mret h
  | Some (Entry (RString _) _) => throw wrongtype
  end.

(** [hDel(key, field)]: Redis drops a hash that becomes empty. *)
Definition hDel (now : Z) (key field : string) : M Z :=
  _ ← ensureConnection;
  e ← read (λ d, live now d key);
  match e with
  | None => mret 0
  | Some (Entry (RHash h) ex) =>
      _ ← (if decide (delete field h = ∅) then modify (delete key)
           else modify (insert key (Entry (RHash (delete field h)) ex)));
      mret (match h !! field with Some _ => 1 | None => 0 end)
  | Some (Entry (RString _) _) => throw wrongtype
  end.

End Redis.
Export Redis.

(** ** [token.service.js] *)

Module TokenService.

(** The variables of [process.env] the service reads.  An expiry variable
    holds the time span, in seconds, that its configured text denotes. *)
Record process_env := ProcessEnv {
  ACCESS_TOKEN_SECRET : option string;
  ADMIN_ACCESS_TOKEN_SECRET : option string;
  REFRESH_TOKEN_SECRET : option string;
  ADMIN_REFRESH_TOKEN_SECRET : option string;
  ACCESS_TOKEN_EXPIRY : option Z;
  ADMIN_TOKEN_EXPIRY : option Z;
  REFRESH_TOKEN_EXPIRY : option Z;
  ADMIN_REFRESH_TOKEN_EXPIRY : option Z
}.

Definition REFRESH : string := "auth:refresh:".
Definition BLACKLIST : string := "auth:blacklist:".

Definition DEFAULT_ACCESS_TOKEN_TTL : Z := 60 * 60 * 24.
Definition DEFAULT_REFRESH_TOKEN_TTL : Z := 7 * 24 * 60 * 60.
Definition DEFAULT_ADMIN_TOKEN_TTL : Z := 60 * 60.
Definition DEFAULT_ADMIN_REFRESH_TOKEN_TTL : Z := 4 * 60 * 60.

(** [Math.floor(Date.now() / 1000)] *)
Definition seconds (nowMs : Z) : Z := nowMs / 1000.

(** [typeof user === 'object' ? user.role : 'customer'] *)
Definition role_of (user : js_user) : option string :=
  match user with
  | UObj o => u_role o
  | UStr _ => Some "customer"
  end.

(** [auth:refresh:<userId>:<jti>] *)
Definition tokenKey (userId jti : string) : string :=
  REFRESH +:+ userId +:+ ":" +:+ jti.

(** [auth:refresh:<userId>:tokens] *)
Definition userTokensKey (userId : string) : string :=
  REFRESH +:+ userId +:+ ":tokens".

(** [decoded.user?.id || decoded.user?._id] *)
Definition user_id_of (u : option js_user) : option string :=
  match u with
  | Some (UObj o) => Js.or (u_id o) (u__id o)
  | _ => None
  end.

Section with_env.
Context (env : process_env).

Definition generateAccessToken (user : js_user) (isAdmin : bool) (nowMs : Z)
  : option token :=
  let role := role_of user in
  let payload :=
    Payload (Some user) role None (Some (seconds nowMs)) None isAdmin None in
  let secret :=
    if isAdmin
    then Js.or (ADMIN_ACCESS_TOKEN_SECRET env) (ACCESS_TOKEN_SECRET env)
    else ACCESS_TOKEN_SECRET env in
  let expiresIn :=
    if isAdmin
    then default DEFAULT_ADMIN_TOKEN_TTL (ADMIN_TOKEN_EXPIRY env)
    else default DEFAULT_ACCESS_TOKEN_TTL (ACCESS_TOKEN_EXPIRY env) in
  Jwt.sign payload secret expiresIn.

(** [nowMs] is [Date.now()]; [rnd] is [Math.floor(Math.random() * 1000)]. *)
Definition generateRefreshToken (user : js_user) (isAdmin : bool)
    (nowMs rnd : Z) : option token :=
  let role := role_of user in
  let userId :=
    match user with
    | UObj o => Js.or (u_id o) (u__id o)
    | UStr s => Some s
    end in
  let jti :=
    Js.template userId +:+ "-" +:+ Js.number_to_string nowMs
      +:+ "-" +:+ Js.number_to_string rnd in
  let payload :=
    Payload (Some user) role (Some jti) (Some (seconds nowMs)) None isAdmin None in
  let secret :=
    if isAdmin
    then Js.or (ADMIN_REFRESH_TOKEN_SECRET env) (REFRESH_TOKEN_SECRET env)
    else REFRESH_TOKEN_SECRET env in
  let expiresIn :=
    if isAdmin
    then default DEFAULT_ADMIN_REFRESH_TOKEN_TTL (ADMIN_REFRESH_TOKEN_EXPIRY env)
    else default DEFAULT_REFRESH_TOKEN_TTL (REFRESH_TOKEN_EXPIRY env) in
  Jwt.sign payload secret expiresIn.

(** The secret [verifyRefreshToken] checks the signature against. *)
Definition refresh_secret (decoded : payload) : option string :=
  if p_isAdmin decoded
  then Js.or (ADMIN_REFRESH_TOKEN_SECRET env) (REFRESH_TOKEN_SECRET env)
  else REFRESH_TOKEN_SECRET env.

Definition verifyRefreshToken (nowMs : Z) (refreshToken : token) : M payload :=
  try_catch
    (match Jwt.decode refreshToken with
     | None => throw (Error "Invalid refresh token format: missing jti")
     | Some decoded =>
         if negb (Js.truthy (p_jti decoded)) then
           throw (Error "Invalid refresh token format: missing jti")
         else if negb (Js.truthy (user_id_of (p_user decoded))) then
           throw (Error "Invalid refresh token format: missing user ID")
         else
           let userId := Js.template (user_id_of (p_user decoded)) in
           let key := tokenKey userId (Js.template (p_jti decoded)) in
           tokenData ← Redis.get nowMs key true;
           match tokenData with
           | Some (JsonTokenData td) =>
               if decide (td_token td = refreshToken) then
                 match Jwt.verify refreshToken (refresh_secret decoded)
                         (seconds nowMs) with
                 | inl verified => mret verified
                 | inr e => throw (JwtError e)
                 end
               else throw (Error "Refresh token not found or revoked")
           | _ => throw (Error "Refresh token not found or revoked")
           end
     end)
    (λ error,
       match error with
       | JwtError TokenExpiredError => throw (Error "Refresh token has expired")
       | _ => throw error
       end).

End with_env.

(** The [catch] block of [saveRefreshToken] logs and rethrows, so the body
    alone is its behaviour.  A token without [exp] gives [ttl = NaN], here
    [None]: [ttl <= 0] is then false and the record is stored without expiry;
    [hSet] rejects an [undefined] field. *)
Definition saveRefreshToken (nowMs : Z) (userId : string) (refreshToken : token)
    (isAdmin : bool) : M unit :=
  match Jwt.decode refreshToken with
  | None => throw (Error "Invalid refresh token")
  | Some decoded =>
      let expiryTime := p_exp decoded in
      let now := seconds nowMs in
      let ttl := option_map (λ exp, exp - now) expiryTime in
      if (match ttl with Some t => t <=? 0 | None => false end) then
        throw (Error "Token has already expired")
      else
        let key := tokenKey userId (Js.template (p_jti decoded)) in
        let tokenData :=
          TokenData refreshToken userId (isAdmin || p_isAdmin decoded)
                    now expiryTime in
        _ ← Redis.set nowMs key (JsonTokenData tokenData) ttl;
        match p_jti decoded with
        | None => throw (Error "TypeError: invalid hash field")
        | Some jti =>
            _ ← Redis.hSet nowMs (userTokensKey userId) jti
                  (Js.number_to_string now);
            _ ← Redis.expire nowMs (userTokensKey userId)
                  (DEFAULT_REFRESH_TOKEN_TTL * 2);
            mret ()
        end
  end.

Definition revokeRefreshToken (nowMs : Z) (refreshToken : token) : M bool :=
  try_catch
    (match Jwt.decode refreshToken with
     | None => mret false
     | Some decoded =>
         if negb (Js.truthy (p_jti decoded)) then mret false
         else
           let userId := Js.or (user_id_of (p_user decoded)) (p_id decoded) in
           if negb (Js.truthy userId) then mret false
           else
             let jti := Js.template (p_jti decoded) in
             _ ← Redis.del nowMs (tokenKey (Js.template userId) jti);
             _ ← Redis.hDel nowMs (userTokensKey (Js.template userId)) jti;
             mret true
     end)
    (λ _, mret false).

(** [for (const jti of jtiList) await redisService.del(tokenKey)] *)
Fixpoint del_each (nowMs : Z) (userId : string) (jtiList : list string) : M unit :=
  match jtiList with
  | [] => mret ()
  | jti :: rest =>
      _ ← Redis.del nowMs (tokenKey userId jti);
      del_each nowMs userId rest
  end.

(** [hGetAll] never returns a falsy value, so the early [return true] of the
    source is not reached; the order in which the keys are deleted does not
    matter for the resulting store. *)
Definition revokeAllUserRefreshTokens (nowMs : Z) (userId : string) : M bool :=
  try_catch
    (tokenList ← Redis.hGetAll nowMs (userTokensKey userId);
     _ ← del_each nowMs userId (map_to_list tokenList).*1;
     _ ← Redis.del nowMs (userTokensKey userId);
     mret true)
    (λ _, mret false).

Section ledger.
Context (env : process_env).
(** [crypto.createHash('sha256').update(token).digest('hex')] *)
Context (sha256_hex : token → string).

Definition blacklistKey (accessToken : token) : string :=
  BLACKLIST +:+ sha256_hex accessToken.

(** The token is verified with the standard secret first and, when that
    throws, with the admin one. *)
Definition blacklistAccessToken (nowMs : Z) (accessToken : token) : M bool :=
  try_catch
    (let first := Jwt.verify accessToken (ACCESS_TOKEN_SECRET env) (seconds nowMs) in
     let tokenInfo :=
       match first with
       | inl info => inl info
       | inr _ =>
           Jwt.verify accessToken
             (Js.or (ADMIN_ACCESS_TOKEN_SECRET env) (ACCESS_TOKEN_SECRET env))
             (seconds nowMs)
       end in
     match tokenInfo with
     | inr e => throw (JwtError e)
     | inl info =>
         let now := seconds nowMs in
         let ttl := option_map (λ exp, exp - now) (p_exp info) in
         if (match ttl with Some t => t <=? 0 | None => false end) then mret true
         else
           _ ← Redis.set nowMs (blacklistKey accessToken)
                 (JsonLedger
                    (LedgerRecord
                       (if Js.truthy (p_jti info) then Js.template (p_jti info)
                        else "none")
                       (p_id info) now))
                 ttl;
           mret true
     end)
    (λ _, mret false).

Definition isTokenBlacklisted (nowMs : Z) (accessToken : token) : M bool :=
  try_catch
    (Redis.exists_ nowMs (blacklistKey accessToken))
    (λ _, mret false).

End ledger.

End TokenService.
Export TokenService.

(** ** [otp.service.js] *)

Module OtpService.

Definition OTP_EXPIRY_SECONDS : Z := 600.

Definition getOTPRedisKey (userId purpose : string) : string :=
  "otp:" +:+ userId +:+ ":" +:+ purpose.

Definition getRateLimitKey (identifier : string) : string :=
  "otp-ratelimit:" +:+ identifier.

(** [code] is the draw of [crypto.randomInt(100000, 999999)]. *)
Definition generateOTP (code : Z) : string := Js.number_to_string code.

Definition saveOTP (nowMs : Z) (userId purpose : option string) (code : Z)
  : M string :=
  if negb (Js.truthy userId) then throw (Error "ID người dùng là bắt buộc")
  else if negb (Js.truthy purpose) then
    throw (Error "Mục đích sử dụng OTP là bắt buộc")
  else
    let redisKey := getOTPRedisKey (Js.template userId) (Js.template purpose) in
    let otp := generateOTP code in
    try_catch
      (_ ← Redis.set nowMs redisKey (Plain otp) (Some OTP_EXPIRY_SECONDS);
       mret otp)
      (λ _, throw (Error "Không thể lưu mã OTP")).

Definition verifyOTP (nowMs : Z) (userId otp purpose : option string) : M bool :=
  if negb (Js.truthy userId) || negb (Js.truthy otp) || negb (Js.truthy purpose)
  then mret false
  else
    let redisKey := getOTPRedisKey (Js.template userId) (Js.template purpose) in
    try_catch
      (storedOTP ← Redis.get nowMs redisKey false;
       match storedOTP with
       | None => mret false
       | Some stored =>
           if decide (stored = Plain "") then mret false
           else if decide (stored = Plain (Js.template otp)) then
             _ ← Redis.del nowMs redisKey;
             mret true
           else mret false
       end)
      (λ _, mret false).

(** [parseInt(attempts)] where [attempts] is the stored string, or the
    number [0] ([None]) when [get] gave a falsy value. *)
Definition parseInt_attempts (attempts : option rstring) : option Z :=
  match attempts with
  | None => Some 0
  | Some (Plain s) => Js.parseInt s
  | Some _ => None
  end.

(** [got || 0]: [None] stands for the number [0]. *)
Definition or_zero (got : option rstring) : option rstring :=
  match got with
  | Some (Plain "") => None
  | other => other
  end.

Definition checkRateLimit (nowMs : Z) (identifier : string)
    (maxAttempts windowSeconds : Z) : M bool :=
  let key := getRateLimitKey identifier in
  try_catch
    (got ← Redis.get nowMs key false;
     let attempts := or_zero got in
     if (match parseInt_attempts attempts with
         | Some n => maxAttempts <=? n
         | None => false
         end)
     then mret false
     else
       _ ← Redis.incr nowMs key;
       _ ← (match attempts with
            | None => _ ← Redis.expire nowMs key windowSeconds; mret ()
            | Some _ => mret ()
            end);
       mret true)
    (λ _, mret true).

End OtpService.
Export OtpService.

(** ** [user.middleware.js] *)

Module UserMiddleware.

(** The [Authorization] header, by the shapes the extraction tells apart:
    no header, [Bearer <token>] (scheme compared case-insensitively), or
    the token alone. *)
Inductive auth_header :=
  | HAbsent
  | HBearer (t : token)
  | HBare (t : token).

(** [req.user]: [defaultUser = { role: "anon", id: "" }] or the payload
    [jwt.verify] returned. *)
Inductive req_user :=
  | DefaultUser
  | Verified (p : payload).

(** [next()] or [res.status(status).json({ message })]; the 403 answer
    also carries [err.message] of [jsonwebtoken], left out here. *)
Inductive outcome :=
  | Next
  | Respond (status : Z) (message : string).

Record mw_result := MwResult {
  mw_outcome : outcome;
  mw_user : req_user;
  mw_token : option token
}.

Section with_env.
Context (env : process_env) (sha256_hex : token → string).

Definition userMiddleware (nowMs : Z) (authHeader : auth_header) : M mw_result :=
  let header_falsy :=
    match authHeader with
    | HAbsent => true
    | HBare t => Jwt.is_empty t
    | HBearer _ => false
    end in
  if header_falsy then
    mret (MwResult (Respond 401 "No authorization header provided") DefaultUser None)
  else
    let token :=
      match authHeader with
      | HBearer t => t
      | HBare t => t
      | HAbsent => Malformed ""
      end in
    if Jwt.is_empty token then
      mret (MwResult (Respond 401 "No token provided") DefaultUser None)
    else
      isBlacklisted ← isTokenBlacklisted sha256_hex nowMs token;
      if isBlacklisted : bool then
        mret (MwResult (Respond 401 "Token has been revoked") DefaultUser None)
      else
        match Jwt.verify token (ACCESS_TOKEN_SECRET env) (seconds nowMs) with
        | inl user => mret (MwResult Next (Verified user) (Some token))
        | inr TokenExpiredError =>
            mret (MwResult (Respond 401 "Token expired") DefaultUser None)
        | inr (JsonWebTokenError _) =>
            mret (MwResult (Respond 403 "Invalid token") DefaultUser None)
        end.

End with_env.

End UserMiddleware.
Export UserMiddleware.

(** ** The refresh flow: [auth.service.js] and [auth.controller.js] *)

Module Auth.

Inductive body :=
  | Message (message : string)
  | AccessToken (accessToken : token).

Record response := Response {
  status : Z;
  json : body
}.

Section with_env.
Context (env : process_env).

Definition service_handleRefreshToken (nowMs : Z) (refreshToken : option token)
  : M token :=
  match refreshToken with
  | None => throw (Thrown 401 "Refresh token là bắt buộc")
  | Some refreshToken =>
      if Jwt.is_empty refreshToken then
        throw (Thrown 401 "Refresh token là bắt buộc")
      else
        try_catch
          (decoded ← verifyRefreshToken env nowMs refreshToken;
           match p_user decoded with
           | Some (UObj u) =>
               let userInfo :=
                 UObj (UserObj (Js.or (u_id u) (u__id u)) None (u_role u)
                               (u_avatarUrl u) (u_email u)) in
               match generateAccessToken env userInfo (p_isAdmin decoded) nowMs with
               | Some accessToken => mret accessToken
               | None => throw (Error "secretOrPrivateKey must have a value")
               end
           | _ => throw (Error "TypeError: cannot read properties of undefined")
           end)
          (λ _, throw (Thrown 403 "Refresh token không hợp lệ hoặc đã hết hạn"))
  end.

(** [cookie] is [req.cookies.refreshToken]. *)
Definition controller_handleRefreshToken (nowMs : Z) (cookie : option token)
  : redis → response * redis := λ r,
  let missing :=
    match cookie with
    | None => true
    | Some t => Jwt.is_empty t
    end in
  if missing then (Response 401 (Message "Refresh token là bắt buộc"), r)
  else
    match service_handleRefreshToken nowMs cookie r with
    | (Ok accessToken, r') => (Response 200 (AccessToken accessToken), r')
    | (Throw e, r') =>
        (match e with
         | Thrown st msg => Response (if st =? 0 then 500 else st) (Message msg)
         | Error msg => Response 500 (Message msg)
         | RedisError msg => Response 500 (Message msg)
         | JwtError (JsonWebTokenError msg) => Response 500 (Message msg)
         | JwtError TokenExpiredError => Response 500 (Message "jwt expired")
         end, r')
    end.

End with_env.

End Auth.
Export Auth.

(** ** Sequences of calls

    The properties below speak about several calls made one after the
    other; these definitions thread the store through them. *)

Module Scenario.

(** Successive [verifyOTP] attempts [(instant, guess)] against one
    [(userId, purpose)]. *)
Fixpoint guess_all (userId purpose : option string)
    (guesses : list (Z * option string)) (r : redis)
  : list (result bool) * redis :=
  match guesses with
  | [] => ([], r)
  | (nowMs, otp) :: rest =>
      let '(b, r1) := verifyOTP nowMs userId otp purpose r in
      let '(bs, r2) := guess_all userId purpose rest r1 in
      (b :: bs, r2)
  end.



(** What can happen to the store between two calls of interest: a call of
    the token service or of the OTP service, or the connection to the
    server coming up or going down. *)
Inductive event :=
  | SaveRefreshToken (userId : string) (refreshToken : token) (isAdmin : bool)
  | VerifyRefreshToken (refreshToken : token)
  | RevokeRefreshToken (refreshToken : token)
  | RevokeAllUserRefreshTokens (userId : string)
  | BlacklistAccessToken (accessToken : token)
  | IsTokenBlacklisted (accessToken : token)
  | SaveOTP (userId purpose : option string) (code : Z)
  | VerifyOTP (userId otp purpose : option string)
  | CheckRateLimit (identifier : string) (maxAttempts windowSeconds : Z)
  | Connection (ready : bool).

Section with_env.
Context (env : process_env) (sha256_hex : token → string).

Definition exec (nowMs : Z) (ev : event) (r : redis) : redis :=
  match ev with
  | SaveRefreshToken userId t isAdmin => (saveRefreshToken nowMs userId t isAdmin r).2
  | VerifyRefreshToken t => (verifyRefreshToken env nowMs t r).2
  | RevokeRefreshToken t => (revokeRefreshToken nowMs t r).2
  | RevokeAllUserRefreshTokens userId => (revokeAllUserRefreshTokens nowMs userId r).2
  | BlacklistAccessToken t => (blacklistAccessToken env sha256_hex nowMs t r).2
  | IsTokenBlacklisted t => (isTokenBlacklisted sha256_hex nowMs t r).2
  | SaveOTP userId purpose code => (saveOTP nowMs userId purpose code r).2
  | VerifyOTP userId otp purpose => (verifyOTP nowMs userId otp purpose r).2
  | CheckRateLimit identifier maxAttempts windowSeconds =>
      (checkRateLimit nowMs identifier maxAttempts windowSeconds r).2
  | Connection ready => RedisState ready (db r)
  end.

Fixpoint run (events : list (Z * event)) (r : redis) : redis :=
  match events with
  | [] => r
  | (nowMs, ev) :: rest => run rest (exec nowMs ev r)
  end.

End with_env.

(** The subject id and the jti under which the registry files a token:
    the two parts of the key [verifyRefreshToken] looks up. *)
Definition subject_of (t : token) : string :=
  match Jwt.decode t with
  | Some decoded => Js.template (user_id_of (p_user decoded))
  | None => "undefined"
  end.

Definition jti_of (t : token) : string :=
  match Jwt.decode t with
  | Some decoded => Js.template (p_jti decoded)
  | None => "undefined"
  end.

(** The token decodes and carries a jti and a subject id. *)
Definition well_formed (t : token) (decoded : payload) : Prop :=
  Jwt.decode t = Some decoded
  ∧ Js.truthy (p_jti decoded) = true
  ∧ Js.truthy (user_id_of (p_user decoded)) = true.

(** The registry key of a token: [auth:refresh:<subject id>:<jti>]. *)
Definition registry_key (t : token) : string :=
  tokenKey (subject_of t) (jti_of t).

(** The store is reachable and holds, under the token's registry key, a
    live record whose raw token string is the token itself. *)
Definition registry_hit (nowMs : Z) (r : redis) (t : token) : Prop :=
  isReady r = true
  ∧ ∃ td ex,
      live nowMs (db r) (registry_key t) = Some (Entry (RString (JsonTokenData td)) ex)
      ∧ td_token td = t.

(** The three kinds of failure of [verifyRefreshToken]. *)
Definition malformed_error (e : js_error) : Prop :=
  e = Error "Invalid refresh token format: missing jti"
  ∨ e = Error "Invalid refresh token format: missing user ID".

Definition not_found_error : js_error :=
  Error "Refresh token not found or revoked".

(** What the [catch] block of [verifyRefreshToken] rethrows for a failure
    of [jwt.verify]. *)
Definition codec_error (e : jwt_error) : js_error :=
  match e with
  | TokenExpiredError => Error "Refresh token has expired"
  | JsonWebTokenError _ => JwtError e
  end.

(** An event that persists again the record [(userId, jti)]. *)
Definition resaves (userId jti : string) (ev : event) : Prop :=
  match ev with
  | SaveRefreshToken userId' t' _ => userId' = userId ∧ jti_of t' = jti
  | _ => False
  end.

(** The fields of the hash a command sees under [k] at [nowMs]; none if
    [k] holds no hash. *)
Definition hash_at (nowMs : Z) (d : gmap string entry) (k : string)
  : gmap string string :=
  match live nowMs d k with
  | Some (Entry (RHash h) _) => h
  | _ => ∅
  end.

(** [k] holds a record whose raw token string is [t]. *)
Definition registered (d : gmap string entry) (k : string) (t : token) : Prop :=
  ∃ e td, d !! k = Some e ∧ e_val e = RString (JsonTokenData td) ∧ td_token td = t.

(** The request carries the bearer token [t]. *)
Definition carries (authHeader : auth_header) (t : token) : Prop :=
  (authHeader = HBearer t ∨ authHeader = HBare t) ∧ Jwt.is_empty t = false.

(** The store is reachable and holds a live record under the digest of the
    access token. *)
Definition in_ledger (sha256_hex : token → string) (nowMs : Z) (r : redis)
    (t : token) : Prop :=
  isReady r = true
  ∧ is_Some (live nowMs (db r) (blacklistKey sha256_hex t)).

(** The payload carries the identity [user] as issued with flag [isAdmin]. *)
Definition carries_identity (p : payload) (user : js_user) (isAdmin : bool) : Prop :=
  p_user p = Some user ∧ p_role p = role_of user ∧ p_isAdmin p = isAdmin.

(** The secret of the access-token domain a flag selects, as
    [generateAccessToken] and [blacklistAccessToken] select it. *)
Definition access_secret (env : process_env) (isAdmin : bool) : option string :=
  if isAdmin
  then Js.or (ADMIN_ACCESS_TOKEN_SECRET env) (ACCESS_TOKEN_SECRET env)
  else ACCESS_TOKEN_SECRET env.

(** The lifetime, in seconds, [generateAccessToken] gives a token. *)
Definition access_lifetime (env : process_env) (isAdmin : bool) : Z :=
  if isAdmin
  then default DEFAULT_ADMIN_TOKEN_TTL (ADMIN_TOKEN_EXPIRY env)
  else default DEFAULT_ACCESS_TOKEN_TTL (ACCESS_TOKEN_EXPIRY env).

(** The one body every failed refresh is answered with. *)
Definition refresh_rejected : response :=
  Response 403 (Message "Refresh token không hợp lệ hoặc đã hết hạn").

(** [m] leaves the key space in [P] whenever it finds it there. *)
Definition keeps (P : gmap string entry → Prop) {A} (m : M A) : Prop :=
  ∀ r, P (db r) → P (db (m r).2).

End Scenario.
Export Scenario.

(** ** Concrete data used to exercise the properties *)

Module Sample.

Definition env : process_env :=
  ProcessEnv (Some "std-access") (Some "adm-access")
             (Some "std-refresh") (Some "adm-refresh")
             None None None None.

Definition sha256_hex (t : token) : string :=
  match t with
  | Signed p key => "d:" +:+ key +:+ ":" +:+ Js.template (p_role p)
  | Malformed s => "m:" +:+ s
  end.

Definition alice : js_user :=
  UObj (UserObj (Some "u1") None (Some "customer") None (Some "a@x.com")).

Definition t0 : Z := 1700000000000.

Definition empty : redis := RedisState true ∅.

(** Two refresh tokens of the same user, issued one millisecond apart. *)
Definition refresh1 : token :=
  default (Malformed "") (generateRefreshToken env alice false t0 7).
Definition refresh2 : token :=
  default (Malformed "") (generateRefreshToken env alice false (t0 + 1) 7).

Definition access1 : token :=
  default (Malformed "") (generateAccessToken env alice false t0).

(** The store after both refresh tokens were saved. *)
Definition two_sessions : redis :=
  (saveRefreshToken (t0 + 1) "u1" refresh2 false
     (saveRefreshToken t0 "u1" refresh1 false empty).2).2.

(** The payload the first refresh token carries. *)
Definition payload1 : payload :=
  default (Payload None None None None None false None) (Jwt.decode refresh1).

(** The store after the first of them was revoked. *)
Definition after_revoke : redis :=
  (revokeRefreshToken (t0 + 10) refresh1 two_sessions).2.

(** The store after all the tokens of the user were revoked instead. *)
Definition after_revoke_all : redis :=
  (revokeAllUserRefreshTokens (t0 + 10) "u1" two_sessions).2.

(** The store after [blacklistAccessToken] on the access token. *)
Definition after_logout : redis :=
  (blacklistAccessToken env sha256_hex (t0 + 5) access1 empty).2.

(** The store after [saveOTP] for user [u1], purpose [login]. *)
Definition with_code : redis :=
  (saveOTP t0 (Some "u1") (Some "login") 123456 empty).2.

(** What happens to the store after the revocation, in the scenario used
    for revoked tokens. *)
Definition later_events : list (Z * event) :=
  [ (t0 + 20, VerifyRefreshToken refresh1);
    (t0 + 30, SaveRefreshToken "u1" refresh2 false);
    (t0 + 40, CheckRateLimit "a@x.com" 3 600);
    (t0 + 50, Connection false);
    (t0 + 60, Connection true) ].

End Sample.

(** ** [redis.service.js]: the reconnection strategy *)

Module Reconnect.

Definition maxReconnectAttempts : Z := 10.

(** [reconnectStrategy(retries)] reads and updates the module variable
    [reconnectAttempts], which the [ready] event resets to 0.  It returns
    the delay in milliseconds or an [Error] value. *)
Definition reconnectStrategy (reconnectAttempts : Z) (retries : nat)
  : (Z + js_error) * Z :=
  if maxReconnectAttempts <=? reconnectAttempts then
    (inr (Error "Vượt quá số lần thử kết nối lại Redis"), reconnectAttempts)
  else
    (inl (Z.min (2 ^ Z.of_nat retries * 1000) 30000), reconnectAttempts + 1).

(** Successive calls of the strategy, with the [retries] argument of each. *)
Fixpoint reconnect_all (reconnectAttempts : Z) (retries : list nat)
  : list (Z + js_error) * Z :=
  match retries with
  | [] => ([], reconnectAttempts)
  | n :: rest =>
      let '(answer, attempts1) := reconnectStrategy reconnectAttempts n in
      let '(answers, attempts2) := reconnect_all attempts1 rest in
      (answer :: answers, attempts2)
  end.

End Reconnect.
Export Reconnect.

(** ** [user.middleware.js]: the admin variant *)

Module AdminMiddleware.

Section with_env.
Context (env : process_env) (sha256_hex : token → string).

(** [adminMiddleware] runs [userMiddleware] with a callback in place of
    [next]; the callback sees [req.user] and [req.token] as [userMiddleware]
    set them.  The outer [catch] answers 500; what [req.user] holds then is
    not tracked, the anonymous user stands for it. *)
Definition adminMiddleware (nowMs : Z) (authHeader : auth_header) : M mw_result :=
  try_catch
    (res ← userMiddleware env sha256_hex nowMs authHeader;
     match mw_outcome res with
     | Respond _ _ => mret res
     | Next =>
         let is_admin :=
           match mw_user res with
           | Verified p => bool_decide (p_role p = Some "admin")
           | DefaultUser => false
           end in
         if is_admin then
           if Js.truthy (ADMIN_ACCESS_TOKEN_SECRET env) then
             match
               Jwt.verify (default (Malformed "") (mw_token res))
                 (ADMIN_ACCESS_TOKEN_SECRET env) (seconds nowMs)
             with
             | inl adminUser => mret (MwResult Next (Verified adminUser) (mw_token res))
             | inr _ =>
                 mret (MwResult (Respond 403 "Invalid admin token")
                                (mw_user res) (mw_token res))
             end
           else mret res
         else
           mret (MwResult (Respond 403 "Admin privileges required")
                          (mw_user res) (mw_token res))
     end)
    (λ _, mret (MwResult (Respond 500 "Authentication error") DefaultUser None)).

End with_env.

End AdminMiddleware.
Export AdminMiddleware.

(** ** Logout: [auth.service.js] and [auth.controller.js] *)

Module Logout.

Section with_env.
Context (env : process_env) (sha256_hex : token → string).

(** [if (x)] for an optional token string. *)
Definition present (t : option token) : bool :=
  match t with
  | Some t => negb (Jwt.is_empty t)
  | None => false
  end.

Definition service_handleLogout (nowMs : Z) (userId : option string)
    (accessToken refreshToken : option token) : M unit :=
  try_catch
    (_ ← (if present accessToken then
            _ ← blacklistAccessToken env sha256_hex nowMs
                  (default (Malformed "") accessToken);
            mret ()
          else mret ());
     if present refreshToken then
       _ ← revokeRefreshToken nowMs (default (Malformed "") refreshToken);
       mret ()
     else if Js.truthy userId then
       _ ← revokeAllUserRefreshTokens nowMs (Js.template userId);
       mret ()
     else mret ())
    (λ _, throw (Thrown 500 "Lỗi khi đăng xuất")).

(** [req.user && req.user.id] *)
Definition req_user_id (u : req_user) : option string :=
  match u with
  | DefaultUser => Some ""
  | Verified p => p_id p
  end.

(** The route is [router.post("/sign-out", userMiddleware, handleLogout)]:
    [user] and [token] are [req.user] and [req.token] as [userMiddleware]
    left them; the two cookies are [refreshToken] and [adminRefreshToken].
    Both cookies are cleared before the answer. *)
Definition controller_handleLogout (nowMs : Z) (user : req_user)
    (token refreshCookie adminRefreshCookie : option token)
  : redis → response * redis := λ r,
  let userId := req_user_id user in
  let refreshToken :=
    if present refreshCookie then refreshCookie else adminRefreshCookie in
  match service_handleLogout nowMs userId token refreshToken r with
  | (Ok _, r') => (Response 200 (Message "Đăng xuất thành công"), r')
  | (Throw e, r') =>
      (match e with
       | Thrown st msg => Response (if st =? 0 then 500 else st) (Message msg)
       | Error msg => Response 500 (Message msg)
       | RedisError msg => Response 500 (Message msg)
       | JwtError (JsonWebTokenError msg) => Response 500 (Message msg)
       | JwtError TokenExpiredError => Response 500 (Message "jwt expired")
       end, r')
  end.

End with_env.

End Logout.
Export Logout.

(** ** [password.validator.js] and the controller that calls it *)

Module Password.

(** A password as JavaScript sees it: its UTF-16 code units, which
    [length] counts and the regular expressions match one by one. *)
Definition code_units := list Z.

Definition is_letter (c : Z) : bool :=
  ((65 <=? c) && (c <=? 90)) || ((97 <=? c) && (c <=? 122)).

Definition is_number (c : Z) : bool := (48 <=? c) && (c <=? 57).

(** [/[a-zA-Z]/.test(password)] *)
Definition has_letter (password : code_units) : bool :=
  existsb is_letter password.

(** [/[0-9]|[^a-zA-Z0-9]/.test(password)] *)
Definition has_number_or_symbol (password : code_units) : bool :=
  existsb (λ c, is_number c || negb (is_letter c || is_number c)) password.

(** [passwordSchema.safeParse(password).success] for a string. *)
Definition validatePassword (password : code_units) : bool :=
  (8 <=? Z.of_nat (length password))
  && has_letter password && has_number_or_symbol password.

(** [!newPassword] *)
Definition blank (password : option code_units) : bool :=
  match password with
  | Some (_ :: _) => false
  | _ => true
  end.

Section reset.
(** [otpService.resetPassword(email, otp, newPassword)], which looks the
    user up in the database, is taken as given. *)
Context (resetPassword : string → string → code_units → M bool).

(** [resetPassword] of [auth.controller.js]; the answer to a password
    the check turns down also carries [field: "newPassword"], left out
    here. *)
Definition controller_resetPassword (email otp : option string)
    (newPassword : option code_units) : redis → response * redis := λ r,
  if negb (Js.truthy email) || negb (Js.truthy otp) || blank newPassword
  then (Response 400 (Message "Email, mã OTP và mật khẩu mới là bắt buộc"), r)
  else if validatePassword (default [] newPassword)
  then (Response 400 (Message "Mật khẩu không hợp lệ"), r)
  else
    match resetPassword (Js.template email) (Js.template otp)
            (default [] newPassword) r with
    | (Ok true, r') => (Response 200 (Message "Đặt lại mật khẩu thành công"), r')
    | (Ok false, r') =>
        (Response 400 (Message "Mã OTP không hợp lệ hoặc đã hết hạn"), r')
    | (Throw _, r') =>
        (Response 500 (Message "Có lỗi xảy ra khi đặt lại mật khẩu"), r')
    end.

End reset.

End Password.
Export Password.

(** ** Sending one-time codes: [otp.service.js] and [auth.controller.js] *)

Module OtpDelivery.

(** The fields of a [User] document the OTP flows read; [doc__id] is
    [user._id.toString()]. *)
Record user_doc := UserDoc {
  doc__id : string;
  doc_email : option string;
  doc_phoneNumber : option string
}.

(** [error.message] *)
Definition error_message (e : js_error) : string :=
  match e with
  | Error message => message
  | RedisError message => message
  | Thrown _ message => message
  | JwtError (JsonWebTokenError message) => message
  | JwtError TokenExpiredError => "jwt expired"
  end.

(** An awaited call that does not touch the store: it returns or throws. *)
Definition lift {A} (x : result A) : M A := λ r, (x, r).

Section with_world.
(** What lies outside the store, with the outcome it has during the
    request: [OtpEmailValidationSchema.parse] and
    [OtpPhoneNumberValidationSchema.parse] on a string (they throw a
    [ZodError] on a mismatch), the two [User.findOne] queries for a
    registered user, and [mailService.sendOTPEmail]. *)
Context (parseEmail parsePhone : string → result string)
        (findByEmail : string → result (option user_doc))
        (findByEmailOrPhone : string → string → result (option user_doc))
        (sendOTPEmail : string → string → string → result unit).

Definition sendOTPByEmail (email otp purpose : string) : M bool :=
  try_catch
    (_ ← lift (sendOTPEmail email otp purpose); mret true)
    (λ _, throw (Error "Không thể gửi email chứa mã OTP")).

Definition sendOTPBySMS (phoneNumber otp purpose : string) : M bool :=
  mret true.

(** [x || ''] *)
Definition or_empty (x : option string) : string :=
  if Js.truthy x then Js.template x else "".

(** [code] is the draw [generateOTP] makes inside [saveOTP]. *)
Definition service_sendLoginOTP (nowMs : Z) (email phoneNumber : option string)
    (code : Z) : M unit :=
  if negb (Js.truthy email) && negb (Js.truthy phoneNumber) then
    throw (Error "Email hoặc số điện thoại là bắt buộc")
  else
    try_catch
      (validEmail ← (if Js.truthy email
                     then v ← lift (parseEmail (Js.template email)); mret (Some v)
                     else mret None);
       validPhone ← (if negb (Js.truthy email)
                     then v ← lift (parsePhone (Js.template phoneNumber));
                          mret (Some v)
                     else mret None);
       if negb (Js.truthy validEmail) && negb (Js.truthy validPhone) then
         throw (Error "Email hoặc số điện thoại không hợp lệ")
       else
         user ← lift (findByEmailOrPhone (or_empty validEmail) (or_empty validPhone));
         match user with
         | None => throw (Error "Không tìm thấy người dùng")
         | Some user =>
             otp ← saveOTP nowMs (Some (doc__id user)) (Some "login") code;
             if Js.truthy email && Js.truthy (doc_email user) then
               _ ← sendOTPByEmail (Js.template (doc_email user)) otp "login";
               mret ()
             else if Js.truthy phoneNumber && Js.truthy (doc_phoneNumber user) then
               _ ← sendOTPBySMS (Js.template (doc_phoneNumber user)) otp "login";
               mret ()
             else throw (Error "Không có phương thức liên hệ phù hợp")
         end)
      (λ _, throw (Error "Không thể gửi mã OTP đăng nhập")).

Definition service_sendPasswordResetOTP (nowMs : Z) (email : option string)
    (code : Z) : M unit :=
  if negb (Js.truthy email) then throw (Error "Email là bắt buộc")
  else
    try_catch
      (validEmail ← lift (parseEmail (Js.template email));
       user ← lift (findByEmail validEmail);
       match user with
       | None => throw (Error "Không tìm thấy người dùng với email này")
       | Some user =>
           otp ← saveOTP nowMs (Some (doc__id user)) (Some "reset_password") code;
           _ ← sendOTPByEmail (Js.template email) otp "reset_password";
           mret ()
       end)
      (λ _, throw (Error "Không thể gửi mã OTP đặt lại mật khẩu")).

(** The controllers of [auth.controller.js]; the 200 answers also carry
    [expiresIn: 600], left out here. *)
Definition controller_sendLoginOTP (nowMs : Z) (email phoneNumber : option string)
    (code : Z) : redis → response * redis := λ r,
  if negb (Js.truthy email) && negb (Js.truthy phoneNumber) then
    (Response 400 (Message "Email hoặc số điện thoại là bắt buộc"), r)
  else
    let identifier := Js.template (Js.or email phoneNumber) in
    let body :=
      withinLimit ← checkRateLimit nowMs identifier 3 600;
      if withinLimit : bool then
        _ ← service_sendLoginOTP nowMs email phoneNumber code;
        mret (Response 200 (Message "Mã OTP đã được gửi thành công"))
      else
        mret (Response 429
                (Message "Quá nhiều yêu cầu. Vui lòng thử lại sau 10 phút.")) in
    match body r with
    | (Ok answer, r') => (answer, r')
    | (Throw error, r') =>
        (if String.eqb (error_message error) "Không tìm thấy người dùng"
         then Response 404 (Message (error_message error))
         else Response 500 (Message "Có lỗi xảy ra khi gửi mã OTP"), r')
    end.

Definition controller_sendPasswordResetOTP (nowMs : Z) (email : option string)
    (code : Z) : redis → response * redis := λ r,
  if negb (Js.truthy email) then (Response 400 (Message "Email là bắt buộc"), r)
  else
    let body :=
      withinLimit ← checkRateLimit nowMs (Js.template email) 2 1800;
      if withinLimit : bool then
        _ ← service_sendPasswordResetOTP nowMs email code;
        mret (Response 200 (Message "Mã OTP đặt lại mật khẩu đã được gửi"))
      else
        mret (Response 429
                (Message "Quá nhiều yêu cầu đặt lại mật khẩu. Vui lòng thử lại sau.")) in
    match body r with
    | (Ok answer, r') => (answer, r')
    | (Throw error, r') =>
        (if String.eqb (error_message error)
              "Không tìm thấy người dùng với email này"
         then Response 200 (Message "Nếu email tồn tại, mã OTP sẽ được gửi")
         else Response 500 (Message "Có lỗi xảy ra khi gửi mã OTP"), r')
    end.

End with_world.

End OtpDelivery.
Export OtpDelivery.

(** ** Notions the further properties are stated with *)

Module Notions.

(** The lifetime, in seconds, [generateRefreshToken] gives a token. *)
Definition refresh_lifetime (env : process_env) (isAdmin : bool) : Z :=
  if isAdmin
  then default DEFAULT_ADMIN_REFRESH_TOKEN_TTL (ADMIN_REFRESH_TOKEN_EXPIRY env)
  else default DEFAULT_REFRESH_TOKEN_TTL (REFRESH_TOKEN_EXPIRY env).

(** The key [k] holds no string at [nowMs], so that the hash commands on
    it are not refused. *)
Definition no_string_at (nowMs : Z) (r : redis) (k : string) : Prop :=
  ∀ s ex, live nowMs (db r) k ≠ Some (Entry (RString s) ex).

(** The token carries no [exp], or one that [nowMs] has not reached. *)
Definition unexpired (nowMs : Z) (t : token) : Prop :=
  ∀ p exp, Jwt.decode t = Some p → p_exp p = Some exp → seconds nowMs < exp.

End Notions.
Export Notions.

(** ** Further concrete data *)

Module Fixtures.
Import Sample.

(** A deployment whose refresh tokens live thirty days. *)
Definition env_long : process_env :=
  ProcessEnv (Some "std-access") (Some "adm-access")
             (Some "std-refresh") (Some "adm-refresh")
             None None (Some (30 * 24 * 60 * 60)) None.

Definition long_refresh : token :=
  default (Malformed "") (generateRefreshToken env_long alice false t0 7).

(** An administrator and the access token an admin sign-in gives them. *)
Definition root : js_user :=
  UObj (UserObj (Some "a1") None (Some "admin") None (Some "root@x.com")).

Definition admin_access : token :=
  default (Malformed "") (generateAccessToken env root true t0).

(** A refresh token issued for a bare user id. *)
Definition bare_refresh : token :=
  default (Malformed "") (generateRefreshToken env (UStr "u1") false t0 7).

(** The payload of the access token [access1]. *)
Definition access_payload1 : payload :=
  default (Payload None None None None None false None) (Jwt.decode access1).

(** A store that cannot be reached, holding what [after_logout] holds. *)
Definition unreachable : redis := RedisState false (db after_logout).

(** The store after [long_refresh] was saved on the empty one, and after
    all the tokens of its user were revoked fifteen days later. *)
Definition long_saved : redis :=
  (saveRefreshToken t0 "u1" long_refresh false empty).2.

Definition long_after_revoke_all : redis :=
  (revokeAllUserRefreshTokens (t0 + 15 * 86400000) "u1" long_saved).2.

(** The payload [long_refresh] carries. *)
Definition long_payload : payload :=
  default (Payload None None None None None false None) (Jwt.decode long_refresh).

(** A world in which every address parses, the user is found and the mail
    goes out; and one in which nobody is registered. *)
Definition parse_any (s : string) : result string := Ok s.

Definition alice_doc : user_doc := UserDoc "u1" (Some "a@x.com") None.

Definition find_alice (email phoneNumber : string) : result (option user_doc) :=
  Ok (Some alice_doc).

Definition mail_ok (email otp purpose : string) : result unit := Ok ().

(** The password [abcdefg1] as code units. *)
Definition good_password : code_units := [97; 98; 99; 100; 101; 102; 103; 49].

(** A reset service that accepts every request. *)
Definition reset_ok (email otp : string) (password : code_units) : M bool :=
  mret true.

End Fixtures.

(** * Properties *)

(** ** Decimal texts *)

Section decimal_facts.



Lemma to_int_not_nil n :
  Z.to_int n ≠ Decimal.Pos Decimal.Nil ∧ Z.to_int n ≠ Decimal.Neg Decimal.Nil.
Proof.
  destruct n as [|p|p]; simpl; split; try discriminate;
    intros [= H]; exact (DecimalPos.Unsigned.to_uint_nonnil p H).
Qed.

Lemma integer_of_number_to_string n :
  integer_of (Js.number_to_string n) = Some n.
Proof.
  unfold integer_of, Js.number_to_string.
  destruct (to_int_not_nil n) as [H1 H2].
  rewrite NilZero.isi by assumption. simpl. f_equal. apply DecimalZ.of_to.
Qed.


Lemma number_to_string_nonempty n : Js.number_to_string n ≠ "".
Proof.
  intros H. pose proof (integer_of_number_to_string n) as Hi.
  rewrite H in Hi. discriminate.
Qed.

End decimal_facts.

(** ** Running the store monad *)

Ltac unfold_store :=
  unfold Redis.get, Redis.set, Redis.del, Redis.exists_, Redis.expire,
    Redis.incr, Redis.hSet, Redis.hGetAll, Redis.hDel, ensureConnection,
    read, modify, throw, try_catch, mbind, M_bind, mret, M_ret in *.

Ltac simp_store :=
  cbn -[or_zero Js.parseInt integer_of Js.number_to_string live Z.mul Z.add] in *.

Lemma truthy_Some s : Js.truthy (Some s) = true ↔ s ≠ "".
Proof.
  simpl. destruct (String.eqb_spec s ""); simpl; split; congruence.
Qed.

Lemma live_lookup now d k e :
  d !! k = Some e → expired now e = false → live now d k = Some e.
Proof. intros H1 H2. unfold live. by rewrite H1, H2. Qed.

Lemma live_delete now d k : live now (delete k d) k = None.
Proof. unfold live. by rewrite lookup_delete_eq. Qed.

(** ** One-time codes *)

Section otp.

Lemma verifyOTP_returns nowMs userId otp purpose r :
  ∃ b r', verifyOTP nowMs userId otp purpose r = (Ok b, r').
Proof.
  unfold verifyOTP. destruct (_ || _); [by eexists _, _|].
  destruct r as [[] d]; unfold_store; simpl; [|by eexists _, _].
  destruct (live _ _ _) as [[[s|h] ex]|]; try by eexists _, _.
  repeat case_decide; by eexists _, _.
Qed.

Lemma verifyOTP_false_unchanged nowMs userId otp purpose r r' :
  verifyOTP nowMs userId otp purpose r = (Ok false, r') → r' = r.
Proof.
  unfold verifyOTP. destruct (_ || _); [by intros [= <-]|].
  destruct r as [[] d]; unfold_store; simpl; [|by intros [= <-]].
  destruct (live _ _ _) as [[[s|h] ex]|]; try by intros [= <-].
  repeat case_decide; by intros [= <-].
Qed.

Lemma verifyOTP_mismatch nowMs userId otp purpose code ex r :
  db r !! getOTPRedisKey userId purpose = Some (Entry (RString (Plain code)) ex) →
  otp ≠ Some code →
  verifyOTP nowMs (Some userId) otp (Some purpose) r = (Ok false, r).
Proof.
  intros Hk Hne. unfold verifyOTP. destruct (_ || _) eqn:Hc; [done|].
  destruct r as [[] d]; unfold_store; simpl in *; [|done].
  unfold live. rewrite Hk. destruct (expired _ _); [done|].
  case_decide; [done|]. case_decide as Heq; [|done].
  destruct otp as [o|]; simpl in *; [congruence|].
  by rewrite orb_true_r in Hc.
Qed.


Lemma guess_all_mismatch userId purpose code ex guesses r :
  db r !! getOTPRedisKey userId purpose = Some (Entry (RString (Plain code)) ex) →
  Forall (λ g, g.2 ≠ Some code) guesses →
  guess_all (Some userId) (Some purpose) guesses r
  = (replicate (length guesses) (Ok false), r).
Proof.
  intros Hk. induction 1 as [|[t g] gs Hg _ IH]; [done|].
  simpl. rewrite (verifyOTP_mismatch _ _ _ _ _ _ _ Hk Hg), IH. done.
Qed.

Lemma verifyOTP_match nowMs userId purpose code ex r :
  isReady r = true →
  db r !! getOTPRedisKey userId purpose = Some (Entry (RString (Plain code)) ex) →
  expired nowMs (Entry (RString (Plain code)) ex) = false →
  userId ≠ "" → purpose ≠ "" → code ≠ "" →
  verifyOTP nowMs (Some userId) (Some code) (Some purpose) r
  = (Ok true, RedisState true (delete (getOTPRedisKey userId purpose) (db r))).
Proof.
  intros Hr Hk Hex Hu Hp Hc. unfold verifyOTP.
  apply truthy_Some in Hu, Hp, Hc. rewrite Hu, Hp, Hc. simpl.
  destruct r as [ready d]; simpl in *; subst ready. unfold_store; simpl.
  rewrite (live_lookup _ _ _ _ Hk Hex).
  case_decide as H1; [injection H1 as ->; by apply truthy_Some in Hc|].
  case_decide; done.
Qed.

(** C8. One-time codes are single-use: when a call of [verifyOTP]
    succeeds, the stored code is gone, and a second call with the same
    user id, code and purpose returns [false], at whatever instant it is
    made. *)
Theorem otp_single_use nowMs1 nowMs2 userId otp purpose r r1 :
  verifyOTP nowMs1 userId otp purpose r = (Ok true, r1) →
  db r1 !! getOTPRedisKey (Js.template userId) (Js.template purpose) = None
  ∧ verifyOTP nowMs2 userId otp purpose r1 = (Ok false, r1).
Proof.
  unfold verifyOTP. destruct (_ || _); [done|].
  destruct r as [[] d]; unfold_store; simpl; [|done].
  destruct (live _ _ _) as [[[s|h] ex]|]; try done.
  case_decide; [done|]. case_decide; [|done].
  intros [= <-]. simpl. split; [apply lookup_delete_eq|].
  by rewrite live_delete.
Qed.

(** C10. A failed verification does not consume the code: however many
    non-matching guesses are made, each returns [false] and the store is
    left as it was, so that the correct code, presented while the entry is
    alive, is still accepted. *)
Theorem otp_wrong_guesses_keep_code nowMs userId purpose code ex guesses r :
  isReady r = true →
  db r !! getOTPRedisKey userId purpose = Some (Entry (RString (Plain code)) ex) →
  expired nowMs (Entry (RString (Plain code)) ex) = false →
  userId ≠ "" → purpose ≠ "" → code ≠ "" →
  Forall (λ g, g.2 ≠ Some code) guesses →
  ∃ r',
    guess_all (Some userId) (Some purpose) guesses r
    = (replicate (length guesses) (Ok false), r')
    ∧ r' = r
    ∧ (verifyOTP nowMs (Some userId) (Some code) (Some purpose) r').1 = Ok true.
Proof.
  intros Hr Hk Hex Hu Hp Hc Hg. exists r. split; [|split; [done|]].
  - by eapply guess_all_mismatch.
  - by erewrite verifyOTP_match.
Qed.

End otp.


(** ** The OTP request counter *)

Section rate_limit.
Context (identifier : string) (maxAttempts : nat) (windowSeconds : Z).

Local Abbreviation key := (getRateLimitKey identifier).







End rate_limit.

(** ** Tokens *)

Lemma classic_wf t :
  (∃ decoded, well_formed t decoded) ∨ ¬ (∃ decoded, well_formed t decoded).
Proof.
  unfold well_formed. destruct (Jwt.decode t) as [decoded|].
  - destruct (Js.truthy (p_jti decoded)) eqn:Hj;
      [destruct (Js.truthy (user_id_of (p_user decoded))) eqn:Hu|].
    + left. by exists decoded.
    + right. intros (d & [= <-] & _ & ?). congruence.
    + right. intros (d & [= <-] & ? & _). congruence.
  - right. by intros (d & ? & _).
Qed.

Lemma verify_inl t secret now p :
  Jwt.verify t secret now = inl p → ∀ decoded, Jwt.decode t = Some decoded →
  Js.truthy secret = true ∧ p = decoded.
Proof.
  destruct t as [s|q key]; simpl; [done|].
  destruct (Js.truthy secret); simpl; [|done].
  destruct (String.eqb key _); simpl; [|done].
  intros H decoded [= <-]. split; [done|].
  destruct (p_exp q) as [ex|]; [destruct (ex <=? now)|]; congruence.
Qed.

(** [jwt.verify] accepts exactly the tokens signed with the secret it is
    given and not yet expired. *)
Lemma verify_inl_iff t secret now p :
  Jwt.verify t secret now = inl p
  ↔ Js.truthy secret = true ∧ t = Signed p (Js.template secret)
    ∧ ∀ exp, p_exp p = Some exp → now < exp.
Proof.
  destruct t as [s|q key]; simpl; [by split; [|intros (_ & ? & _)]|].
  destruct (Js.truthy secret); simpl; [|by split; [|intros (? & _)]].
  destruct (String.eqb_spec key (Js.template secret)) as [->|Hne]; simpl.
  - split.
    + intros H. assert (q = p) as ->.
      { destruct (p_exp q) as [ex|]; [destruct (ex <=? now)|]; congruence. }
      split; [done|]. split; [done|]. intros exp Hexp. rewrite Hexp in H.
      destruct (Z.leb_spec exp now); [done|lia].
    + intros (_ & [= ->] & Hexp). destruct (p_exp p) as [ex|]; [|done].
      specialize (Hexp ex eq_refl). by destruct (Z.leb_spec ex now); [lia|].
  - split; [done|]. intros (_ & [= _ ?] & _). done.
Qed.

(** ** The refresh-token registry: verification *)

Section verify.
Context (env : process_env).

Lemma well_formed_key t decoded :
  Jwt.decode t = Some decoded →
  registry_key t
  = tokenKey (Js.template (user_id_of (p_user decoded))) (Js.template (p_jti decoded)).
Proof. intros H. unfold registry_key, subject_of, jti_of. by rewrite H. Qed.

Lemma verifyRefreshToken_malformed nowMs t r :
  (¬ ∃ decoded, well_formed t decoded) →
  ∃ e, verifyRefreshToken env nowMs t r = (Throw e, r) ∧ malformed_error e.
Proof.
  intros Hwf. unfold verifyRefreshToken, malformed_error.
  destruct (Jwt.decode t) as [decoded|] eqn:Hd; unfold_store; [|by eauto].
  destruct (Js.truthy (p_jti decoded)) eqn:Hj; simpl; [|by eauto].
  destruct (Js.truthy (user_id_of (p_user decoded))) eqn:Hu; simpl; [|by eauto].
  destruct Hwf. by exists decoded.
Qed.

(** The outcome once the token is well formed: the registry lookup, then
    the codec. *)
Lemma verifyRefreshToken_well_formed nowMs t decoded r :
  well_formed t decoded →
  verifyRefreshToken env nowMs t r
  = if isReady r then
      match live nowMs (db r) (registry_key t) with
      | Some (Entry (RString (JsonTokenData td)) _) =>
          if decide (td_token td = t) then
            match Jwt.verify t (refresh_secret env decoded) (seconds nowMs) with
            | inl verified => (Ok verified, r)
            | inr e => (Throw (codec_error e), r)
            end
          else (Throw not_found_error, r)
      | Some (Entry (RHash _) _) => (Throw wrongtype, r)
      | _ => (Throw not_found_error, r)
      end
    else (Throw (Error "Redis không sẵn sàng"), r).
Proof.
  intros (Hd & Hj & Hu). rewrite (well_formed_key _ _ Hd).
  unfold verifyRefreshToken. rewrite Hd, Hj, Hu. simpl.
  destruct r as [[] d]; unfold_store; simpl; [|done].
  destruct (live _ _ _) as [[[[s|td|l]|h] ex]|]; simpl; try done.
  case_decide; [|done].
  by destruct (Jwt.verify _ _ _) as [v|[m|]].
Qed.

(** C1. [verifyRefreshToken] returns a payload exactly when the token is
    well formed (it decodes, with a jti and a subject id), the registry
    holds a live record under its key whose raw token string is the
    presented token, and the signature verifies, unexpired, under the
    secret selected by the token's [isAdmin] flag.  The payload returned
    is the one the token carries and the store is not modified.  Otherwise
    it throws: a malformed-token error when the token is not well formed,
    the not-found-or-revoked error when the registry has no such record,
    and the codec's own error, different from both, when only the
    signature check fails. *)
Theorem verifyRefreshToken_iff nowMs t r :
  (∀ verified,
     (∃ r', verifyRefreshToken env nowMs t r = (Ok verified, r'))
     ↔ ∃ decoded,
         well_formed t decoded ∧ registry_hit nowMs r t
         ∧ Jwt.verify t (refresh_secret env decoded) (seconds nowMs) = inl verified)
  ∧ (∀ verified r',
       verifyRefreshToken env nowMs t r = (Ok verified, r') →
       r' = r ∧ Jwt.decode t = Some verified)
  ∧ ((¬ ∃ decoded, well_formed t decoded) →
     ∃ e, verifyRefreshToken env nowMs t r = (Throw e, r) ∧ malformed_error e)
  ∧ (∀ decoded,
       well_formed t decoded → isReady r = true →
       (∀ h ex, live nowMs (db r) (registry_key t) ≠ Some (Entry (RHash h) ex)) →
       ¬ registry_hit nowMs r t →
       verifyRefreshToken env nowMs t r = (Throw not_found_error, r))
  ∧ (∀ decoded e,
       well_formed t decoded → registry_hit nowMs r t →
       Jwt.verify t (refresh_secret env decoded) (seconds nowMs) = inr e →
       verifyRefreshToken env nowMs t r = (Throw (codec_error e), r)
       ∧ codec_error e ≠ not_found_error ∧ ¬ malformed_error (codec_error e)).
Proof.
  split; [|split; [|split; [|split]]].
  - intros verified. split.
    + intros [r' Hrun].
      destruct (classic_wf t) as [[decoded Hwf]|Hno].
      * exists decoded. rewrite (verifyRefreshToken_well_formed _ _ _ _ Hwf) in Hrun.
        destruct (isReady r) eqn:Hr; [|done].
        destruct (live _ _ _) as [[[[s|td|l]|h] ex]|] eqn:Hl; try done.
        case_decide; [|done].
        destruct (Jwt.verify _ _ _) as [v|e] eqn:Hv; [|done].
        injection Hrun as -> ->. split; [done|]. split; [|done].
        split; eauto.
      * destruct (verifyRefreshToken_malformed nowMs t r Hno) as (e & He & _).
        congruence.
    + intros (decoded & Hwf & (Hr & td & ex & Hl & Htd) & Hv).
      exists r. rewrite (verifyRefreshToken_well_formed _ _ _ _ Hwf), Hr, Hl.
      rewrite decide_True by done. by rewrite Hv.
  - intros verified r' Hrun.
    destruct (classic_wf t) as [[decoded Hwf]|Hno].
    + rewrite (verifyRefreshToken_well_formed _ _ _ _ Hwf) in Hrun.
      destruct (isReady r); [|done].
      destruct (live _ _ _) as [[[[s|td|l]|h] ex]|]; try done.
      case_decide; [|done].
      destruct (Jwt.verify _ _ _) as [v|e] eqn:Hv; [|done].
      injection Hrun as -> ->. split; [done|].
      destruct Hwf as (Hd & _).
      destruct (verify_inl _ _ _ _ Hv _ Hd) as [_ ->]. done.
    + destruct (verifyRefreshToken_malformed nowMs t r Hno) as (e & He & _).
      congruence.
  - apply verifyRefreshToken_malformed.
  - intros decoded Hwf Hr Hnh Hmiss.
    rewrite (verifyRefreshToken_well_formed _ _ _ _ Hwf), Hr.
    destruct (live _ _ _) as [[[[s|td|l]|h] ex]|] eqn:Hl; try done.
    + case_decide; [|done]. destruct Hmiss. split; [done|]. eauto.
    + by destruct (Hnh h ex).
  - intros decoded e Hwf (Hr & td & ex & Hl & Htd) Hv.
    rewrite (verifyRefreshToken_well_formed _ _ _ _ Hwf), Hr, Hl.
    rewrite decide_True by done. rewrite Hv.
    split; [done|]. unfold malformed_error, not_found_error.
    destruct e; simpl; split; try discriminate; intros [?|?]; discriminate.
Qed.

End verify.

(** ** Registry keys *)

Section keys.

Lemma app_nil (s : string) : "" +:+ s = s.
Proof. reflexivity. Qed.

Lemma app_cons c (a s : string) : String c a +:+ s = String c (a +:+ s).
Proof. reflexivity. Qed.

Lemma length_app (a b : string) :
  String.length (a +:+ b) = (String.length a + String.length b)%nat.
Proof. induction a; rewrite ?app_nil, ?app_cons; simpl; congruence. Qed.

Lemma app_inj_r (a b s : string) : a +:+ s = b +:+ s → a = b.
Proof.
  revert b. induction a as [|c a IH]; intros [|c' b] H;
    rewrite ?app_nil, ?app_cons in H.
  - done.
  - apply (f_equal String.length) in H. simpl in H. rewrite length_app in H. lia.
  - apply (f_equal String.length) in H. simpl in H. rewrite length_app in H. lia.
  - injection H as -> H. f_equal. by apply IH.
Qed.

Lemma tokenKey_inj_jti userId jti jti' :
  tokenKey userId jti = tokenKey userId jti' → jti = jti'.
Proof.
  unfold tokenKey. intros H.
  by repeat (apply (inj (String.app _)) in H).
Qed.

Lemma tokenKey_inj_user userId userId' jti :
  tokenKey userId jti = tokenKey userId' jti → userId = userId'.
Proof.
  unfold tokenKey. intros H. apply (inj (String.app _)) in H.
  by apply app_inj_r in H.
Qed.

Lemma tokenKey_not_index userId jti :
  jti ≠ "tokens" → tokenKey userId jti ≠ userTokensKey userId.
Proof.
  unfold tokenKey, userTokensKey. intros Hne H.
  do 2 apply (inj (String.app _)) in H. by injection H.
Qed.

Lemma dashed_not_tokens (a b : string) : a +:+ "-" +:+ b ≠ "tokens".
Proof.
  intros H.
  do 7 (destruct a as [|? a]; rewrite ?app_nil, ?app_cons in H;
        [discriminate|]; try discriminate; injection H as _ H).
Qed.

(** Every jti that [generateRefreshToken] makes differs from the name of
    the index field. *)
Lemma generated_jti env user isAdmin nowMs rnd t :
  generateRefreshToken env user isAdmin nowMs rnd = Some t →
  ∃ decoded jti,
    Jwt.decode t = Some decoded ∧ p_jti decoded = Some jti
    ∧ jti ≠ "tokens" ∧ jti ≠ ""
    ∧ p_user decoded = Some user ∧ p_id decoded = None.
Proof.
  unfold generateRefreshToken, Jwt.sign.
  destruct (Js.truthy _); [|done]. intros [= <-]. simpl.
  eexists _, _. repeat split; [apply dashed_not_tokens|].
  intros H. destruct (Js.template _); discriminate.
Qed.



Lemma live_delete_ne now d k k' : k ≠ k' → live now (delete k d) k' = live now d k'.
Proof. intros. unfold live. by rewrite lookup_delete_ne. Qed.

Lemma live_insert_ne now d k k' e :
  k ≠ k' → live now (<[k := e]> d) k' = live now d k'.
Proof. intros. unfold live. by rewrite lookup_insert_ne. Qed.

Lemma live_Some now d k e : live now d k = Some e → d !! k = Some e.
Proof. unfold live. destruct (d !! k) as [e'|]; [|done]. by destruct (expired _ _). Qed.

End keys.

(** ** Revoking one refresh token *)

Section revoke.

(** The two commands of [revokeRefreshToken], on any two distinct keys. *)
Lemma del_hDel_frame nowMs key index jti r :
  key ≠ index →
  ∃ b r',
    try_catch
      (_ ← Redis.del nowMs key; _ ← Redis.hDel nowMs index jti; mret true)
      (λ _, mret false) r = (Ok b, r')
    ∧ (∀ k, k ≠ key → k ≠ index → db r' !! k = db r !! k)
    ∧ (∀ field, field ≠ jti →
         hash_at nowMs (db r') index !! field = hash_at nowMs (db r) index !! field)
    ∧ (b = true → db r' !! key = None ∧ hash_at nowMs (db r') index !! jti = None)
    ∧ (isReady r = true →
       (∀ s ex, live nowMs (db r) index ≠ Some (Entry (RString s) ex)) →
       b = true).
Proof.
  intros Hki. destruct r as [[] d]; unfold_store; cbn -[live].
  2:{ exists false, (RedisState false d). by repeat split. }
  rewrite live_delete_ne by done.
  assert (Hview : hash_at nowMs (delete key d) index = hash_at nowMs d index)
    by (unfold hash_at; by rewrite live_delete_ne).
  destruct (live nowMs d index) as [[[s|h] ex]|] eqn:Hl; cbn -[live].
  - exists false, (RedisState true (delete key d)). cbn [db].
    split; [done|]. split; [by intros; rewrite lookup_delete_ne|].
    split; [by rewrite Hview|]. split; [done|].
    intros _ H. by destruct (H s ex).
  - assert (Hold : hash_at nowMs d index = h) by (unfold hash_at; by rewrite Hl).
    case_decide as Hem; cbn -[live].
    + set (d' := delete index (delete key d)).
      assert (Hv' : hash_at nowMs d' index = ∅)
        by (unfold hash_at, d'; by rewrite live_delete).
      exists true, (RedisState true d'). cbn [db].
      split; [done|]. split; [by intros; unfold d'; rewrite !lookup_delete_ne|].
      split.
      { intros f Hfne. rewrite Hv', Hold, lookup_empty.
        by rewrite <- (lookup_delete_ne h jti f), Hem, lookup_empty. }
      split; [|done]. intros _. split; [|by rewrite Hv'].
      unfold d'. by rewrite lookup_delete_ne, lookup_delete_eq.
    + set (d' := <[index := Entry (RHash (delete jti h)) ex]> (delete key d)).
      assert (Hv' : hash_at nowMs d' index = delete jti h).
      { assert (Hex : expired nowMs (Entry (RHash (delete jti h)) ex) = false).
        { unfold live in Hl. destruct (d !! index) as [e|]; [|done].
          destruct (expired nowMs e) eqn:He; [done|].
          injection Hl as ->. exact He. }
        unfold hash_at, d', live. by rewrite lookup_insert_eq, Hex. }
      exists true, (RedisState true d'). cbn [db].
      split; [done|].
      split; [by intros; unfold d'; rewrite lookup_insert_ne, lookup_delete_ne|].
      split; [by intros f Hfne; rewrite Hv', Hold, lookup_delete_ne|].
      split; [|done]. intros _. split; [|by rewrite Hv', lookup_delete_eq].
      unfold d'. by rewrite lookup_insert_ne, lookup_delete_eq.
  - exists true, (RedisState true (delete key d)). cbn [db].
    split; [done|]. split; [by intros; rewrite lookup_delete_ne|].
    split; [by rewrite Hview|]. split; [|done].
    intros _. split; [apply lookup_delete_eq|].
    rewrite Hview. unfold hash_at. by rewrite Hl.
Qed.


(** C5. Revoking an issued refresh token touches two keys only: the
    record filed under its (subject id, jti) and the subject's index hash.
    When the revocation goes through, that record and that jti's field of
    the index are gone.  Every other key of the store, and every other
    field of the index, is as before; in particular the record and the
    index field of any other token issued to the same subject. *)
Theorem revoke_removes_exactly_its_record
    env user isAdmin issuedMs rnd t nowMs r :
  generateRefreshToken env user isAdmin issuedMs rnd = Some t →
  let userId := Js.template (user_id_of (Some user)) in
  let jti := jti_of t in
  let index := userTokensKey userId in
  ∃ b r',
    revokeRefreshToken nowMs t r = (Ok b, r')
    ∧ (∀ k, k ≠ tokenKey userId jti → k ≠ index → db r' !! k = db r !! k)
    ∧ (∀ field, field ≠ jti →
         hash_at nowMs (db r') index !! field = hash_at nowMs (db r) index !! field)
    ∧ (b = true →
         db r' !! tokenKey userId jti = None
         ∧ hash_at nowMs (db r') index !! jti = None)
    ∧ (isReady r = true → Js.truthy (user_id_of (Some user)) = true →
       (∀ s ex, live nowMs (db r) index ≠ Some (Entry (RString s) ex)) →
       b = true)
    ∧ (∀ env' isAdmin' issuedMs' rnd' t',
         generateRefreshToken env' user isAdmin' issuedMs' rnd' = Some t' →
         jti_of t' ≠ jti →
         db r' !! tokenKey userId (jti_of t') = db r !! tokenKey userId (jti_of t')
         ∧ hash_at nowMs (db r') index !! jti_of t'
           = hash_at nowMs (db r) index !! jti_of t').
Proof.
  intros Hgen userId jti index.
  destruct (generated_jti _ _ _ _ _ _ Hgen)
    as (decoded & j & Hd & Hj & Htok & Hne & Hu & Hid).
  assert (Hjti : jti = j) by (unfold jti, jti_of; by rewrite Hd, Hj).
  assert (Hki : tokenKey userId jti ≠ index)
    by (apply tokenKey_not_index; congruence).
  assert (Hsib : ∀ r' : redis,
    (∀ k, k ≠ tokenKey userId jti → k ≠ index → db r' !! k = db r !! k) →
    (∀ field, field ≠ jti →
       hash_at nowMs (db r') index !! field = hash_at nowMs (db r) index !! field) →
    ∀ env' isAdmin' issuedMs' rnd' t',
      generateRefreshToken env' user isAdmin' issuedMs' rnd' = Some t' →
      jti_of t' ≠ jti →
      db r' !! tokenKey userId (jti_of t') = db r !! tokenKey userId (jti_of t')
      ∧ hash_at nowMs (db r') index !! jti_of t'
        = hash_at nowMs (db r) index !! jti_of t').
  { intros r' Hk Hf env' isAdmin' issuedMs' rnd' t' Hgen' Hdiff.
    destruct (generated_jti _ _ _ _ _ _ Hgen')
      as (decoded' & j' & Hd' & Hj' & Htok' & _).
    assert (jti_of t' = j') as Hj'' by (unfold jti_of; by rewrite Hd', Hj').
    split; [|by apply Hf].
    apply Hk.
    - by intros H%tokenKey_inj_jti.
    - apply tokenKey_not_index. congruence. }
  unfold revokeRefreshToken. rewrite Hd, Hj, Hu, Hid.
  apply truthy_Some in Hne. rewrite Hne. cbn [negb].
  destruct (Js.truthy (user_id_of (Some user))) eqn:Hut.
  2:{ unfold Js.or. rewrite Hut. unfold_store. cbn.
      exists false, r. repeat split; first [done | by apply Hsib]. }
  unfold Js.or. rewrite Hut. cbn [negb Js.template]. rewrite Hut.
  destruct (del_hDel_frame nowMs (tokenKey userId j) index j r)
    as (b & r' & Hrun & Hk & Hf & Hgone & Hb); [congruence|].
  subst j. exists b, r'.
  split; [|split; [done|split; [done|split; [done|split; [|by apply Hsib]]]]].
  - rewrite <- Hrun. done.
  - intros Hr _ Hns. by apply Hb.
Qed.

End revoke.

(** ** What the services never do: file a token they were not given *)

Section keeps.
Context (k : string) (t : token).

Local Abbreviation unregistered := (λ d : gmap string entry, ¬ registered d k t).

Lemma unregistered_absent d : d !! k = None → unregistered d.
Proof. intros H (e & td & He & _). congruence. Qed.

Lemma unregistered_insert k' v ex d :
  (k' = k → ∀ td, v = RString (JsonTokenData td) → td_token td ≠ t) →
  unregistered d → unregistered (<[k' := Entry v ex]> d).
Proof.
  intros Hv Hd (e & td & He & Hval & Htd).
  destruct (decide (k' = k)) as [->|Hne].
  - rewrite lookup_insert_eq in He. injection He as <-.
    by apply (Hv eq_refl td).
  - rewrite lookup_insert_ne in He by done. apply Hd. by exists e, td.
Qed.

Lemma unregistered_delete k' d : unregistered d → unregistered (delete k' d).
Proof.
  intros Hd (e & td & He & Hval & Htd).
  destruct (decide (k' = k)) as [->|Hne].
  - by rewrite lookup_delete_eq in He.
  - rewrite lookup_delete_ne in He by done. apply Hd. by exists e, td.
Qed.

Lemma keeps_ret {A} (a : A) : keeps unregistered (mret a).
Proof. by intros r. Qed.

Lemma keeps_throw {A} e : keeps unregistered (@throw A e).
Proof. by intros r. Qed.

Lemma keeps_bind {A B} (m : M A) (f : A → M B) :
  keeps unregistered m → (∀ a, keeps unregistered (f a)) →
  keeps unregistered (m ≫= f).
Proof.
  intros Hm Hf r Hr. unfold mbind, M_bind. specialize (Hm r Hr).
  destruct (m r) as [[a|e] r1]; [by apply Hf|done].
Qed.

Lemma keeps_try_catch {A} (m : M A) h :
  keeps unregistered m → (∀ e, keeps unregistered (h e)) →
  keeps unregistered (try_catch m h).
Proof.
  intros Hm Hh r Hr. unfold try_catch. specialize (Hm r Hr).
  destruct (m r) as [[a|e] r1]; [done|by apply Hh].
Qed.

Lemma keeps_ensure : keeps unregistered ensureConnection.
Proof. intros r Hr. unfold ensureConnection. by destruct (isReady r). Qed.

Lemma keeps_read {A} (f : gmap string entry → A) : keeps unregistered (read f).
Proof. by intros r. Qed.

Lemma keeps_delete k' : keeps unregistered (modify (delete k')).
Proof. intros r Hr. by apply unregistered_delete. Qed.

Lemma keeps_insert k' v ex :
  (k' = k → ∀ td, v = RString (JsonTokenData td) → td_token td ≠ t) →
  keeps unregistered (modify (insert k' (Entry v ex))).
Proof. intros Hv r Hr. by apply unregistered_insert. Qed.

Ltac keeps_step :=
  match goal with
  | |- keeps _ (mret _) => apply keeps_ret
  | |- keeps _ (throw _) => apply keeps_throw
  | |- keeps _ (mbind _ _) => apply keeps_bind; [|intros ?]
  | |- keeps _ (try_catch _ _) => apply keeps_try_catch; [|intros ?]
  | |- keeps _ ensureConnection => apply keeps_ensure
  | |- keeps _ (read _) => apply keeps_read
  | |- keeps _ (modify (delete _)) => apply keeps_delete
  | |- keeps _ (modify (insert _ _)) =>
      apply keeps_insert; intros _ ? ?; discriminate
  | |- keeps _ (match ?x with _ => _ end) => destruct x
  end.

Ltac keeps_auto := repeat keeps_step.

Lemma keeps_get now key parse : keeps unregistered (Redis.get now key parse).
Proof. unfold Redis.get. keeps_auto. Qed.

Lemma keeps_del now key : keeps unregistered (Redis.del now key).
Proof. unfold Redis.del. keeps_auto. Qed.

Lemma keeps_exists now key : keeps unregistered (Redis.exists_ now key).
Proof. unfold Redis.exists_. keeps_auto. Qed.

Lemma keeps_incr now key : keeps unregistered (Redis.incr now key).
Proof. unfold Redis.incr. keeps_auto. Qed.

Lemma keeps_hSet now key field value :
  keeps unregistered (Redis.hSet now key field value).
Proof. unfold Redis.hSet. keeps_auto. Qed.

Lemma keeps_hGetAll now key : keeps unregistered (Redis.hGetAll now key).
Proof. unfold Redis.hGetAll. keeps_auto. Qed.

Lemma keeps_hDel now key field : keeps unregistered (Redis.hDel now key field).
Proof. unfold Redis.hDel. keeps_auto. Qed.

Lemma keeps_set now key v expiry :
  (key = k → ∀ td, v = JsonTokenData td → td_token td ≠ t) →
  keeps unregistered (Redis.set now key v expiry).
Proof.
  intros Hv. unfold Redis.set.
  assert (∀ ex, keeps unregistered (modify (insert key (Entry (RString v) ex)))).
  { intros ex. apply keeps_insert. intros -> td [= ->]. by apply Hv. }
  repeat first [done | keeps_step].
Qed.

(** [expire] writes back the value it has just read. *)
Lemma keeps_expire now key secs : keeps unregistered (Redis.expire now key secs).
Proof.
  intros [[] d] Hd; unfold Redis.expire; unfold_store; cbn -[live]; [|done].
  destruct (live now d key) as [[v ex]|] eqn:Hl; cbn -[live]; [|done].
  destruct (secs <=? 0); cbn -[live].
  - by apply unregistered_delete.
  - apply unregistered_insert; [|done].
    intros -> td ->. intros Htd. apply Hd.
    apply live_Some in Hl. by eexists _, td.
Qed.


Ltac keeps_service :=
  repeat first
    [ apply keeps_get | apply keeps_del | apply keeps_exists | apply keeps_incr
    | apply keeps_hSet | apply keeps_hGetAll | apply keeps_hDel
    | apply keeps_expire
    | apply keeps_set; intros _ ? ?; discriminate
    | progress cbv zeta
    | keeps_step ].

Section services.
Context (env : process_env) (sha256_hex : token → string).

Lemma keeps_verifyRefreshToken now t' :
  keeps unregistered (verifyRefreshToken env now t').
Proof. unfold verifyRefreshToken. keeps_service. Qed.

Lemma keeps_revokeRefreshToken now t' :
  keeps unregistered (revokeRefreshToken now t').
Proof. unfold revokeRefreshToken. keeps_service. Qed.

Lemma keeps_del_each now userId jtiList :
  keeps unregistered (del_each now userId jtiList).
Proof. induction jtiList; simpl; keeps_service. done. Qed.

Lemma keeps_revokeAllUserRefreshTokens now userId :
  keeps unregistered (revokeAllUserRefreshTokens now userId).
Proof.
  unfold revokeAllUserRefreshTokens.
  repeat first [apply keeps_del_each | keeps_service].
Qed.

Lemma keeps_blacklistAccessToken now t' :
  keeps unregistered (blacklistAccessToken env sha256_hex now t').
Proof. unfold blacklistAccessToken. keeps_service. Qed.

Lemma keeps_isTokenBlacklisted now t' :
  keeps unregistered (isTokenBlacklisted sha256_hex now t').
Proof. unfold isTokenBlacklisted. keeps_service. Qed.

Lemma keeps_saveOTP now userId purpose code :
  keeps unregistered (saveOTP now userId purpose code).
Proof. unfold saveOTP. keeps_service. Qed.

Lemma keeps_verifyOTP now userId otp purpose :
  keeps unregistered (verifyOTP now userId otp purpose).
Proof. unfold verifyOTP. keeps_service. Qed.

Lemma keeps_checkRateLimit now identifier maxAttempts windowSeconds :
  keeps unregistered (checkRateLimit now identifier maxAttempts windowSeconds).
Proof. unfold checkRateLimit. keeps_service. Qed.

(** [saveRefreshToken] files the token it is given, under the user id it
    is given and the jti the token carries. *)
Lemma keeps_saveRefreshToken now userId t' isAdmin :
  (tokenKey userId (jti_of t') = k → t' ≠ t) →
  keeps unregistered (saveRefreshToken now userId t' isAdmin).
Proof.
  intros Hother. unfold saveRefreshToken.
  destruct (Jwt.decode t') as [decoded|] eqn:Hd; [|keeps_service].
  assert (Hj : jti_of t' = Js.template (p_jti decoded))
    by (unfold jti_of; by rewrite Hd).
  cbv zeta. destruct (match option_map _ _ with Some _ => _ | None => _ end);
    [keeps_service|].
  apply keeps_bind; [|intros ?; keeps_service].
  apply keeps_set. intros Hk td [= <-]. simpl. apply Hother. by rewrite Hj.
Qed.

End services.

End keeps.

(** ** Revoked refresh tokens *)

Section revoked.
Context (env : process_env) (sha256_hex : token → string).

Local Abbreviation unregistered t :=
  (λ d : gmap string entry, ¬ registered d (registry_key t) t).

Lemma exec_keeps t now ev r :
  ¬ resaves (subject_of t) (jti_of t) ev →
  unregistered t (db r) → unregistered t (db (exec env sha256_hex now ev r)).
Proof.
  intros Hev Hr. destruct ev; simpl; try done.
  - apply keeps_saveRefreshToken; [|done].
    intros Hk ->. apply Hev. simpl. split; [|done].
    by apply tokenKey_inj_user in Hk.
  - by apply keeps_verifyRefreshToken.
  - by apply keeps_revokeRefreshToken.
  - by apply keeps_revokeAllUserRefreshTokens.
  - by apply keeps_blacklistAccessToken.
  - by apply keeps_isTokenBlacklisted.
  - by apply keeps_saveOTP.
  - by apply keeps_verifyOTP.
  - by apply keeps_checkRateLimit.
Qed.

Lemma run_keeps t events : ∀ r,
  Forall (λ ev, ¬ resaves (subject_of t) (jti_of t) ev.2) events →
  unregistered t (db r) → unregistered t (db (run env sha256_hex events r)).
Proof.
  induction events as [|[now ev] events IH]; intros r Hall Hr; [done|].
  apply Forall_cons in Hall as [Hev Hall]. simpl.
  apply IH; [done|]. by apply exec_keeps.
Qed.

(** Without a record of its own in the registry, a token does not verify. *)
Lemma unregistered_fails t now r :
  unregistered t (db r) → ∃ e, verifyRefreshToken env now t r = (Throw e, r).
Proof.
  intros Hr. destruct (classic_wf t) as [[decoded Hwf]|Hno].
  - rewrite (verifyRefreshToken_well_formed _ _ _ _ _ Hwf).
    destruct (isReady r); [|by eauto].
    destruct (live _ _ _) as [[[[s|td|l]|h] ex]|] eqn:Hl; try by eauto.
    case_decide as Htd; [|by eauto].
    destruct Hr. apply live_Some in Hl. by eexists _, td.
  - destruct (verifyRefreshToken_malformed env now t r Hno) as (e & He & _).
    eauto.
Qed.

(** A token that is not well formed has no subject id or no jti to be
    verified with. *)
Lemma malformed_fails t now r :
  (¬ ∃ decoded, well_formed t decoded) →
  ∃ e, verifyRefreshToken env now t r = (Throw e, r).
Proof.
  intros Hno.
  destruct (verifyRefreshToken_malformed env now t r Hno) as (e & He & _). eauto.
Qed.

Lemma revokeRefreshToken_unregisters t now r0 r :
  (∃ decoded, well_formed t decoded) →
  revokeRefreshToken now t r0 = (Ok true, r) → unregistered t (db r).
Proof.
  intros (decoded & Hd & Hj & Hu).
  unfold registry_key, subject_of, jti_of, revokeRefreshToken. rewrite Hd, Hj.
  unfold Js.or. rewrite Hu. cbn [negb]. rewrite Hu. cbn [negb].
  generalize (tokenKey (Js.template (user_id_of (p_user decoded)))
                (Js.template (p_jti decoded))) as key.
  generalize (userTokensKey (Js.template (user_id_of (p_user decoded)))) as index.
  generalize (Js.template (p_jti decoded)) as jti.
  intros jti index key.
  destruct r0 as [[] d]; unfold_store; cbn -[live]; [|done].
  assert (Habs : ¬ registered (delete key d) key t)
    by apply unregistered_absent, lookup_delete_eq.
  destruct (live now (delete key d) index) as [[[s|h] ex]|]; cbn -[live].
  - done.
  - case_decide; cbn -[live]; intros [= <-]; cbn [db].
    + by apply unregistered_delete.
    + apply unregistered_insert; [|done]. by intros _ ? ?.
  - by intros [= <-].
Qed.

Lemma del_each_ready now userId jtiList : ∀ d,
  ∃ d', del_each now userId jtiList (RedisState true d) = (Ok (), RedisState true d').
Proof.
  induction jtiList as [|j l IH]; intros d; simpl; [by eexists|].
  unfold_store. cbn -[live del_each]. apply IH.
Qed.

Lemma del_each_unregisters t now jtiList : ∀ d,
  jti_of t ∈ jtiList →
  unregistered t (db (del_each now (subject_of t) jtiList (RedisState true d)).2).
Proof.
  induction jtiList as [|j l IH]; intros d Hin; [by apply elem_of_nil in Hin|].
  apply elem_of_cons in Hin as [<-|Hin]; simpl.
  - unfold Redis.del at 1. unfold_store. cbn -[live del_each].
    apply keeps_del_each. cbn [db].
    apply unregistered_absent, lookup_delete_eq.
  - unfold Redis.del at 1. unfold_store. cbn -[live del_each]. by apply IH.
Qed.

Lemma revokeAll_unregisters t now r0 r :
  revokeAllUserRefreshTokens now (subject_of t) r0 = (Ok true, r) →
  is_Some (hash_at now (db r0) (userTokensKey (subject_of t)) !! jti_of t) →
  unregistered t (db r).
Proof.
  unfold revokeAllUserRefreshTokens, hash_at.
  destruct r0 as [[] d]; unfold Redis.hGetAll; unfold_store;
    cbn -[live del_each]; [|done].
  destruct (live now d _) as [[[s|h] ex]|]; cbn -[live del_each];
    [done| |by intros _ [? ?]].
  intros Hrun [v Hv].
  assert (Hin : jti_of t ∈ (map_to_list h).*1).
  { apply list_elem_of_fmap. exists (jti_of t, v). split; [done|].
    by apply elem_of_map_to_list. }
  pose proof (del_each_unregisters t now _ d Hin) as Hun.
  destruct (del_each_ready now (subject_of t) (map_to_list h).*1 d) as [d' Hd'].
  rewrite Hd' in Hrun, Hun. cbn -[live] in Hrun, Hun.
  injection Hrun as <-. cbn [db]. by apply unregistered_delete.
Qed.

(** The two index commands of [saveRefreshToken]: the field is added and the
    hash is given a new expiry, unless the key holds a string. *)
Lemma index_update now index jti v secs d :
  0 < secs →
  (_ ← Redis.hSet now index jti v; _ ← Redis.expire now index secs; mret ())
    (RedisState true d)
  = match live now d index with
    | Some (Entry (RString _) _) => (Throw wrongtype, RedisState true d)
    | _ =>
        (Ok (),
         RedisState true
           (<[index := Entry (RHash (<[jti := v]> (hash_at now d index)))
                             (Some (now + secs * 1000))]> d))
    end.
Proof.
  intros Hsecs. unfold Redis.hSet, Redis.expire, hash_at. unfold_store.
  cbn -[live Z.mul].
  assert (Hfresh : ∀ e, expired now e = false →
            live now (<[index := e]> d) index = Some e).
  { intros e He. unfold live. by rewrite lookup_insert_eq, He. }
  destruct (live now d index) as [[[s|h] ex]|] eqn:Hl; cbn -[live Z.mul]; [done|..].
  - rewrite Hfresh.
    + cbn -[live Z.mul]. destruct (Z.leb_spec secs 0); [lia|].
      cbn -[live Z.mul]. by rewrite insert_insert_eq.
    + unfold live in Hl. destruct (d !! index) as [e|]; [|done].
      destruct (expired now e) eqn:He; [done|]. injection Hl as ->. exact He.
  - rewrite Hfresh by done.
    cbn -[live Z.mul]. destruct (Z.leb_spec secs 0); [lia|].
    cbn -[live Z.mul]. rewrite insert_insert_eq. by rewrite insert_empty.
Qed.

(** What [saveRefreshToken] leaves behind when it returns: the token's
    record, and its jti listed in the index of the user it was saved for. *)
Lemma saveRefreshToken_lists_jti now userId t isAdmin r r' :
  saveRefreshToken now userId t isAdmin r = (Ok (), r') →
  registered (db r') (tokenKey userId (jti_of t)) t
  ∧ is_Some (hash_at now (db r') (userTokensKey userId) !! jti_of t).
Proof.
  unfold saveRefreshToken, jti_of.
  destruct (Jwt.decode t) as [decoded|]; [|done].
  destruct (match option_map _ _ with Some _ => _ | None => _ end) eqn:Httl; [done|].
  destruct (p_jti decoded) as [jti|] eqn:Hj; cbn [Js.template].
  2:{ unfold mbind, M_bind, throw. by destruct (Redis.set _ _ _ _ r) as [[[]|?] ?]. }
  generalize (tokenKey userId jti) as key.
  generalize (userTokensKey userId) as index. intros index key.
  set (td := TokenData _ _ _ _ _).
  assert (Hset : ∃ ex,
            expired now (Entry (RString (JsonTokenData td)) ex) = false
            ∧ Redis.set now key (JsonTokenData td)
                (option_map (λ exp, exp - seconds now) (p_exp decoded)) r
              = if isReady r
                then (Ok (), RedisState true
                               (<[key := Entry (RString (JsonTokenData td)) ex]> (db r)))
                else (Throw (Error "Redis không sẵn sàng"), r)).
  { destruct r as [[] d]; unfold Redis.set; unfold_store; cbn -[live];
      [|by exists None].
    destruct (option_map _ _) as [ex|]; [|by exists None].
    destruct (ex =? 0); [by exists None|].
    destruct (Z.ltb_spec ex 0).
    - simpl in Httl. destruct (Z.leb_spec ex 0); [done|lia].
    - eexists. split; [|done]. unfold expired. cbn [e_expireAt].
      destruct (Z.leb_spec (now + ex * 1000) now); [|done].
      simpl in Httl. destruct (Z.leb_spec ex 0); [done|lia]. }
  destruct Hset as (ex & Hex & Hset). unfold mbind at 1, M_bind at 1. rewrite Hset.
  destruct (isReady r); [|done]. clear Hset.
  set (d1 := <[key := _]> (db r)).
  pose proof (index_update now index jti (Js.number_to_string (seconds now))
                (DEFAULT_REFRESH_TOKEN_TTL * 2) d1 eq_refl) as Hidx.
  unfold mbind, M_bind in *.
  destruct (Redis.hSet now index jti _ (RedisState true d1)) as [[n|e] r1] eqn:Hh.
  2:{ done. }
  cbn -[live Z.mul d1] in Hidx |- *.
  destruct (Redis.expire now index _ r1) as [[b|e] r2] eqn:He; [|done].
  cbn -[live Z.mul d1] in Hidx |- *. intros [= <-].
  destruct (live now d1 index) as [[[s|h] ex1]|] eqn:Hl1; [done|..];
    injection Hidx as ->; cbn [db].
  all: assert (Hne : index ≠ key)
         by (intros ->; unfold d1, live in Hl1; rewrite lookup_insert_eq, Hex in Hl1;
             done).
  all: split;
    [ exists (Entry (RString (JsonTokenData td)) ex), td;
      split; [|done]; unfold d1; by rewrite lookup_insert_ne, lookup_insert_eq
    | unfold hash_at at 1, live; rewrite lookup_insert_eq; unfold expired;
      cbn [e_expireAt e_val];
      destruct (Z.leb_spec (now + DEFAULT_REFRESH_TOKEN_TTL * 2 * 1000) now);
      [unfold DEFAULT_REFRESH_TOKEN_TTL in *; lia|];
      rewrite lookup_insert_eq; by eexists ].
Qed.

(** X28. Once a refresh token has been revoked -- by [revokeRefreshToken]
    on it, or by [revokeAllUserRefreshTokens] on its subject while the
    subject's index lists its jti -- [verifyRefreshToken] fails for it at
    every later instant and whatever the services do to the store in
    between, as long as no [saveRefreshToken] files the same
    (subject id, jti) again; hence the refresh flow yields no access
    token.  Nothing is assumed about the signature or the expiry of the
    token.  ([saveRefreshToken_lists_jti]: saving a token is what lists its
    jti in the index.) *)
Theorem revoked_token_never_verifies t now0 r0 r events now :
  (revokeRefreshToken now0 t r0 = (Ok true, r)
   ∨ (revokeAllUserRefreshTokens now0 (subject_of t) r0 = (Ok true, r)
      ∧ is_Some (hash_at now0 (db r0) (userTokensKey (subject_of t)) !! jti_of t))) →
  Forall (λ ev, ¬ resaves (subject_of t) (jti_of t) ev.2) events →
  (∃ e r', verifyRefreshToken env now t (run env sha256_hex events r) = (Throw e, r'))
  ∧ (∃ e r',
       service_handleRefreshToken env now (Some t) (run env sha256_hex events r)
       = (Throw e, r')).
Proof.
  intros Hrev Hall.
  assert (Hv : ∃ e,
    verifyRefreshToken env now t (run env sha256_hex events r)
    = (Throw e, run env sha256_hex events r)).
  { destruct (classic_wf t) as [Hwf|Hno]; [|by apply malformed_fails].
    apply unregistered_fails, run_keeps; [done|].
    destruct Hrev as [Hone|[Hall' Hidx]].
    - by eapply revokeRefreshToken_unregisters.
    - by eapply revokeAll_unregisters. }
  destruct Hv as [e Hv]. split; [by eauto|].
  unfold service_handleRefreshToken.
  destruct (Jwt.is_empty t); [by unfold throw; eauto|].
  unfold try_catch, mbind, M_bind, throw. rewrite Hv. eauto.
Qed.

End revoked.

(** ** Revoking all the tokens of a user, after the index has expired *)

Section revoke_all_gap.
Import Sample Fixtures.

(** C2 (the code falls short of it). [saveRefreshToken] gives the index of
    a user a life of twice the default refresh lifetime, fourteen days,
    whereas a token lives as long as [REFRESH_TOKEN_EXPIRY] says.  With a
    lifetime of thirty days: the token is issued and saved; fifteen days
    later [revokeAllUserRefreshTokens] for its user finds no index, deletes
    nothing and returns [true]; and a day after that [verifyRefreshToken]
    still accepts the token and the refresh endpoint answers 200 with a
    new access token. *)
Lemma revoke_all_leaves_long_lived_token :
  generateRefreshToken env_long alice false t0 7 = Some long_refresh
  ∧ subject_of long_refresh = "u1"
  ∧ saveRefreshToken t0 "u1" long_refresh false empty = (Ok (), long_saved)
  ∧ revokeAllUserRefreshTokens (t0 + 15 * 86400000) "u1" long_saved
    = (Ok true, long_after_revoke_all)
  ∧ verifyRefreshToken env_long (t0 + 16 * 86400000) long_refresh
      long_after_revoke_all
    = (Ok long_payload, long_after_revoke_all)
  ∧ status (controller_handleRefreshToken env_long (t0 + 16 * 86400000)
              (Some long_refresh) long_after_revoke_all).1 = 200.
Proof. vm_compute. by repeat split. Qed.

End revoke_all_gap.

(** ** The credential middleware *)

Section middleware.
Context (env : process_env) (sha256_hex : token → string).

Lemma isTokenBlacklisted_spec nowMs t r :
  isTokenBlacklisted sha256_hex nowMs t r
  = (Ok (if isReady r
         then match live nowMs (db r) (blacklistKey sha256_hex t) with
              | Some _ => true
              | None => false
              end
         else false), r).
Proof.
  unfold isTokenBlacklisted. destruct r as [[] d]; unfold_store; cbn -[live]; [|done].
  by destruct (live _ _ _).
Qed.

Lemma in_ledger_true nowMs t r :
  in_ledger sha256_hex nowMs r t →
  isTokenBlacklisted sha256_hex nowMs t r = (Ok true, r).
Proof.
  intros [Hr [e He]]. by rewrite isTokenBlacklisted_spec, Hr, He.
Qed.

Lemma not_in_ledger_false nowMs t r :
  ¬ in_ledger sha256_hex nowMs r t →
  isTokenBlacklisted sha256_hex nowMs t r = (Ok false, r).
Proof.
  intros Hno. rewrite isTokenBlacklisted_spec.
  destruct (isReady r) eqn:Hr; [|done].
  destruct (live _ _ _) as [e|] eqn:He; [|done].
  destruct Hno. split; [done|]. rewrite He. by eexists.
Qed.

Lemma userMiddleware_token nowMs authHeader t r :
  carries authHeader t →
  userMiddleware env sha256_hex nowMs authHeader r
  = (isBlacklisted ← isTokenBlacklisted sha256_hex nowMs t;
     if isBlacklisted : bool then
       mret (MwResult (Respond 401 "Token has been revoked") DefaultUser None)
     else
       match Jwt.verify t (ACCESS_TOKEN_SECRET env) (seconds nowMs) with
       | inl user => mret (MwResult Next (Verified user) (Some t))
       | inr TokenExpiredError =>
           mret (MwResult (Respond 401 "Token expired") DefaultUser None)
       | inr (JsonWebTokenError _) =>
           mret (MwResult (Respond 403 "Invalid token") DefaultUser None)
       end) r.
Proof.
  intros [[-> | ->] Ht]; unfold userMiddleware; by rewrite Ht.
Qed.

(** C3, as the code has it. For a request that carries a bearer token:
    when the store is reachable and holds the token's digest the middleware
    answers 401 and attaches the anonymous user, whatever the signature
    check would have said, which is not consulted; otherwise -- the digest
    is not there, or the store cannot be reached and [isTokenBlacklisted]
    answers [false] -- an expired token is answered 401, any
    other verification failure 403, both with the anonymous user, and a
    token that verifies lets the request through with the verified payload
    and the raw token attached. *)
Theorem middleware_checks_blacklist_first nowMs authHeader t r :
  carries authHeader t →
  (in_ledger sha256_hex nowMs r t →
   userMiddleware env sha256_hex nowMs authHeader r
   = (Ok (MwResult (Respond 401 "Token has been revoked") DefaultUser None), r))
  ∧ (¬ in_ledger sha256_hex nowMs r t →
     Jwt.verify t (ACCESS_TOKEN_SECRET env) (seconds nowMs) = inr TokenExpiredError →
     userMiddleware env sha256_hex nowMs authHeader r
     = (Ok (MwResult (Respond 401 "Token expired") DefaultUser None), r))
  ∧ (∀ message,
       ¬ in_ledger sha256_hex nowMs r t →
       Jwt.verify t (ACCESS_TOKEN_SECRET env) (seconds nowMs)
       = inr (JsonWebTokenError message) →
       userMiddleware env sha256_hex nowMs authHeader r
       = (Ok (MwResult (Respond 403 "Invalid token") DefaultUser None), r))
  ∧ (∀ user,
       ¬ in_ledger sha256_hex nowMs r t →
       Jwt.verify t (ACCESS_TOKEN_SECRET env) (seconds nowMs) = inl user →
       userMiddleware env sha256_hex nowMs authHeader r
       = (Ok (MwResult Next (Verified user) (Some t)), r)).
Proof.
  intros Hc. rewrite (userMiddleware_token _ _ _ _ Hc).
  unfold mbind, M_bind. repeat split.
  - intros Hin. by rewrite in_ledger_true.
  - intros Hno Hv. by rewrite not_in_ledger_false, Hv.
  - intros message Hno Hv. by rewrite not_in_ledger_false, Hv.
  - intros user Hno Hv. by rewrite not_in_ledger_false, Hv.
Qed.

End middleware.

Section middleware_outage.
Import Sample Fixtures.

(** C3 as stated does not hold: with the digest of the token in the ledger
    and the store out of reach, the request is let through. *)
Lemma blacklisted_token_passes_while_store_is_down :
  is_Some (live (t0 + 10) (db unreachable) (blacklistKey sha256_hex access1))
  ∧ isReady unreachable = false
  ∧ userMiddleware env sha256_hex (t0 + 10) (HBearer access1) unreachable
    = (Ok (MwResult Next (Verified access_payload1) (Some access1)), unreachable)
  ∧ ∀ user token,
      (userMiddleware env sha256_hex (t0 + 10) (HBearer access1) unreachable).1
      ≠ Ok (MwResult (Respond 401 "Token has been revoked") user token).
Proof.
  vm_compute. split; [by eexists|]. split; [done|]. split; [done|].
  intros user token. discriminate.
Qed.

End middleware_outage.

(** ** Access tokens and their two signing domains *)

Section codec.
Context (env : process_env).

(** C4. With both access-token secrets configured and different, a token
    made by [generateAccessToken] verifies, until it expires, under the
    secret of the domain its [isAdmin] flag selects, and the payload that
    comes back carries the identity it was issued for; under the secret of
    the other domain it fails with an invalid signature. *)
Theorem access_token_round_trip user (isAdmin : bool) standard admin issuedMs nowMs :
  ACCESS_TOKEN_SECRET env = Some standard → standard ≠ "" →
  ADMIN_ACCESS_TOKEN_SECRET env = Some admin → admin ≠ "" →
  admin ≠ standard →
  seconds nowMs < seconds issuedMs + access_lifetime env isAdmin →
  ∃ t,
    generateAccessToken env user isAdmin issuedMs = Some t
    ∧ (∃ p,
         Jwt.verify t (access_secret env isAdmin) (seconds nowMs) = inl p
         ∧ carries_identity p user isAdmin)
    ∧ Jwt.verify t (access_secret env (negb isAdmin)) (seconds nowMs)
      = inr (JsonWebTokenError "invalid signature").
Proof.
  intros Hs Hs0 Ha Ha0 Hne Hlive.
  assert (Hts : Js.truthy (Some standard) = true) by by apply truthy_Some.
  assert (Hta : Js.truthy (Some admin) = true) by by apply truthy_Some.
  assert (Hsa : String.eqb standard admin = false)
    by (apply String.eqb_neq; congruence).
  assert (Has : String.eqb admin standard = false) by by apply String.eqb_neq.
  unfold generateAccessToken, access_secret, access_lifetime, Jwt.sign in *.
  rewrite Hs, Ha. unfold Js.or. rewrite Hta.
  destruct isAdmin; cbn [negb]; rewrite ?Hta, ?Hts; eexists; (split; [done|]);
    cbn -[Z.add seconds String.eqb]; rewrite ?Hta, ?Hts, ?String.eqb_refl, ?Hsa, ?Has;
    cbn -[Z.add seconds];
    match goal with
    | |- context [(?a <=? ?b)] => destruct (Z.leb_spec a b); [lia|]
    end;
    apply String.eqb_neq in Hs0, Ha0; rewrite Hs0, Ha0; cbn [negb];
    (split; [|done]); eexists; by split.
Qed.

End codec.

(** ** Fresh jti values *)

Section jti.
Import Sample.

(** C6 (the code falls short of it). The jti is made of the user id, the
    millisecond clock and a draw among 1000 values: two calls for the same
    user in the same millisecond with the same draw return tokens with the
    same jti, hence the same registry key, even when the tokens differ. *)
Lemma generateRefreshToken_jti_collision :
  ∃ ta tb tc,
    generateRefreshToken env alice false t0 7 = Some ta
    ∧ generateRefreshToken env alice false t0 7 = Some tb
    ∧ generateRefreshToken env alice true t0 7 = Some tc
    ∧ jti_of ta = jti_of tb
    ∧ ta ≠ tc ∧ jti_of ta = jti_of tc ∧ registry_key ta = registry_key tc.
Proof.
  eexists _, _, _. repeat split; try reflexivity. vm_compute. discriminate.
Qed.

End jti.

(** ** The refresh flow at the HTTP boundary *)

Section refresh_flow.
Context (env : process_env).

(** C7, as the code has it. Whatever makes [verifyRefreshToken] fail --
    an expired token, a revoked one, a malformed one, a bad signature --
    the refresh endpoint answers 403 with one fixed message, which holds
    neither a secret nor a token; 401 is the answer only when no refresh
    token is presented. *)
Theorem refresh_failure_is_forbidden nowMs t r e r' :
  Jwt.is_empty t = false →
  verifyRefreshToken env nowMs t r = (Throw e, r') →
  controller_handleRefreshToken env nowMs (Some t) r = (refresh_rejected, r')
  ∧ status refresh_rejected = 403
  ∧ controller_handleRefreshToken env nowMs None r
    = (Response 401 (Message "Refresh token là bắt buộc"), r).
Proof.
  intros Ht Hv. split; [|done].
  unfold controller_handleRefreshToken, service_handleRefreshToken.
  rewrite Ht. unfold try_catch, mbind, M_bind, throw. by rewrite Hv.
Qed.

End refresh_flow.

(** ** The properties on concrete data *)

Section examples.
Import Sample.

(** C7 as stated does not hold: the refresh of a revoked token is answered
    403, not 401. *)
Lemma refresh_of_revoked_token_is_403 :
  verifyRefreshToken env (t0 + 20) refresh1 after_revoke
  = (Throw not_found_error, after_revoke)
  ∧ status (controller_handleRefreshToken env (t0 + 20) (Some refresh1) after_revoke).1
    = 403
  ∧ status (controller_handleRefreshToken env (t0 + 20) (Some refresh1) after_revoke).1
    ≠ 401.
Proof. vm_compute. repeat split; discriminate. Qed.

Lemma refresh_failure_is_forbidden_witness :
  controller_handleRefreshToken env (t0 + 20) (Some refresh1) after_revoke
  = (refresh_rejected, after_revoke)
  ∧ status refresh_rejected = 403
  ∧ controller_handleRefreshToken env (t0 + 20) None after_revoke
    = (Response 401 (Message "Refresh token là bắt buộc"), after_revoke).
Proof.
  apply (refresh_failure_is_forbidden env (t0 + 20) refresh1 after_revoke
           not_found_error after_revoke); vm_compute; reflexivity.
Defined.

Lemma otp_single_use_witness :
  db empty !! getOTPRedisKey "u1" "login" = None
  ∧ verifyOTP (t0 + 2000) (Some "u1") (Some "123456") (Some "login") empty
    = (Ok false, empty).
Proof.
  apply (otp_single_use (t0 + 1000) (t0 + 2000) (Some "u1") (Some "123456")
           (Some "login") with_code empty).
  vm_compute. reflexivity.
Defined.

Lemma otp_wrong_guesses_keep_code_witness :
  ∃ r',
    guess_all (Some "u1") (Some "login")
      [(t0 + 1, Some "000000"); (t0 + 2, None); (t0 + 3, Some "123457")] with_code
    = (replicate 3 (Ok false), r')
    ∧ r' = with_code
    ∧ (verifyOTP (t0 + 5000) (Some "u1") (Some "123456") (Some "login") r').1
      = Ok true.
Proof.
  apply (otp_wrong_guesses_keep_code (t0 + 5000) "u1" "login" "123456"
           (Some (t0 + 600000))
           [(t0 + 1, Some "000000"); (t0 + 2, None); (t0 + 3, Some "123457")]
           with_code);
    try (vm_compute; reflexivity); try discriminate.
  repeat constructor; discriminate.
Defined.



Lemma verifyRefreshToken_iff_witness :
  ∃ decoded,
    well_formed refresh1 decoded
    ∧ registry_hit (t0 + 2) two_sessions refresh1
    ∧ Jwt.verify refresh1 (refresh_secret env decoded) (seconds (t0 + 2))
      = inl payload1.
Proof.
  apply (proj1 (proj1 (verifyRefreshToken_iff env (t0 + 2) refresh1 two_sessions)
                  payload1)).
  exists two_sessions. vm_compute. reflexivity.
Defined.

Lemma revoked_token_never_verifies_witness :
  ((∃ e r',
      verifyRefreshToken env (t0 + 100) refresh1
        (run env sha256_hex later_events after_revoke) = (Throw e, r'))
   ∧ (∃ e r',
        service_handleRefreshToken env (t0 + 100) (Some refresh1)
          (run env sha256_hex later_events after_revoke) = (Throw e, r')))
  ∧ ((∃ e r',
        verifyRefreshToken env (t0 + 100) refresh2
          (run env sha256_hex [] after_revoke_all) = (Throw e, r'))
     ∧ (∃ e r',
          service_handleRefreshToken env (t0 + 100) (Some refresh2)
            (run env sha256_hex [] after_revoke_all) = (Throw e, r'))).
Proof.
  split.
  - apply (revoked_token_never_verifies env sha256_hex refresh1 (t0 + 10)
             two_sessions after_revoke later_events (t0 + 100)).
    + left. vm_compute. reflexivity.
    + repeat constructor; simpl; try tauto.
      intros [_ H]. vm_compute in H. discriminate.
  - apply (revoked_token_never_verifies env sha256_hex refresh2 (t0 + 10)
             two_sessions after_revoke_all [] (t0 + 100)).
    + right. split; [vm_compute; reflexivity|]. vm_compute. by eexists.
    + constructor.
Defined.

Lemma middleware_checks_blacklist_first_witness :
  userMiddleware env sha256_hex (t0 + 10) (HBearer access1) after_logout
  = (Ok (MwResult (Respond 401 "Token has been revoked") DefaultUser None),
     after_logout).
Proof.
  apply (middleware_checks_blacklist_first env sha256_hex (t0 + 10)
           (HBearer access1) access1 after_logout).
  - split; [by left|]. vm_compute. reflexivity.
  - split; [reflexivity|]. vm_compute. by eexists.
Defined.

Lemma access_token_round_trip_witness :
  ∃ t,
    generateAccessToken env alice true t0 = Some t
    ∧ (∃ p,
         Jwt.verify t (access_secret env true) (seconds (t0 + 1000)) = inl p
         ∧ carries_identity p alice true)
    ∧ Jwt.verify t (access_secret env (negb true)) (seconds (t0 + 1000))
      = inr (JsonWebTokenError "invalid signature").
Proof.
  apply (access_token_round_trip env alice true "std-access" "adm-access"
           t0 (t0 + 1000)); try reflexivity; discriminate.
Defined.

Lemma revoke_removes_exactly_its_record_witness :
  ∃ b r',
    revokeRefreshToken (t0 + 10) refresh1 two_sessions = (Ok b, r')
    ∧ (∀ k, k ≠ tokenKey "u1" (jti_of refresh1) → k ≠ userTokensKey "u1" →
         db r' !! k = db two_sessions !! k)
    ∧ db r' !! tokenKey "u1" (jti_of refresh2)
      = db two_sessions !! tokenKey "u1" (jti_of refresh2).
Proof.
  destruct (revoke_removes_exactly_its_record env alice false t0 7 refresh1
              (t0 + 10) two_sessions eq_refl)
    as (b & r' & Hrun & Hframe & _ & _ & _ & Hsibling).
  exists b, r'. split; [exact Hrun|]. split; [exact Hframe|].
  apply (Hsibling env false (t0 + 1) 7 refresh2 eq_refl).
  vm_compute. discriminate.
Defined.

End examples.
(** * Further properties of the code *)

(** ** Reconnecting to the server *)

Section reconnect.

Lemma reconnect_all_spec retries : ∀ attempts,
  0 ≤ attempts →
  (reconnect_all attempts retries).2
  = Z.min maxReconnectAttempts (attempts + Z.of_nat (length retries))
    ∨ (maxReconnectAttempts < attempts
       ∧ (reconnect_all attempts retries).2 = attempts).
Proof.
  unfold maxReconnectAttempts.
  induction retries as [|n rest IH]; intros attempts Ha; simpl.
  - destruct (decide (attempts ≤ 10)); [left|right]; lia.
  - unfold reconnectStrategy, maxReconnectAttempts.
    destruct (Z.leb_spec 10 attempts).
    + destruct (reconnect_all attempts rest) as [answers a2] eqn:E.
      specialize (IH attempts Ha). rewrite E in IH. simpl in *.
      destruct IH as [IH|IH]; [left|right]; lia.
    + destruct (reconnect_all (attempts + 1) rest) as [answers a2] eqn:E.
      specialize (IH (attempts + 1) ltac:(lia)). rewrite E in IH. simpl in *.
      destruct IH as [IH|IH]; [left|lia]. lia.
Qed.

Lemma reconnect_all_lookup retries : ∀ attempts (i : nat) answer,
  (reconnect_all attempts retries).1 !! i = Some answer →
  if attempts + Z.of_nat i <? maxReconnectAttempts then
    ∃ delay, answer = inl delay ∧ 1000 ≤ delay ≤ 30000
  else answer = inr (Error "Vượt quá số lần thử kết nối lại Redis").
Proof.
  unfold maxReconnectAttempts.
  induction retries as [|n rest IH]; intros attempts i answer; simpl; [done|].
  unfold reconnectStrategy, maxReconnectAttempts.
  destruct (Z.leb_spec 10 attempts) as [Hge|Hlt].
  - destruct (reconnect_all attempts rest) as [answers a2] eqn:E. simpl.
    destruct i as [|i]; simpl.
    + intros [= <-]. destruct (Z.ltb_spec (attempts + Z.of_nat 0) 10); [lia|done].
    + intros Hi. specialize (IH attempts i answer). rewrite E in IH.
      specialize (IH Hi).
      destruct (Z.ltb_spec (attempts + Z.of_nat i) 10); [lia|].
      destruct (Z.ltb_spec (attempts + Z.of_nat (S i)) 10); [lia|done].
  - destruct (reconnect_all (attempts + 1) rest) as [answers a2] eqn:E. simpl.
    destruct i as [|i]; simpl.
    + intros [= <-]. destruct (Z.ltb_spec (attempts + Z.of_nat 0) 10); [|lia].
      eexists; split; [done|].
      assert (0 < 2 ^ Z.of_nat n) by (apply Z.pow_pos_nonneg; lia). lia.
    + intros Hi. specialize (IH (attempts + 1) i answer). rewrite E in IH.
      specialize (IH Hi).
      replace (attempts + Z.of_nat (S i)) with (attempts + 1 + Z.of_nat i) by lia. done.
Qed.

(** X1. Counted from a fresh connection, the first ten calls of the
    reconnection strategy each answer with a delay between one and thirty
    seconds, every later call answers with the error, and the attempt
    counter never passes ten. *)
Theorem reconnectStrategy_gives_up_after_ten retries :
  (reconnect_all 0 retries).2 = Z.min 10 (Z.of_nat (length retries))
  ∧ length (reconnect_all 0 retries).1 = length retries
  ∧ ∀ (i : nat) answer,
      (reconnect_all 0 retries).1 !! i = Some answer →
      if (i <? 10)%nat then ∃ delay, answer = inl delay ∧ 1000 ≤ delay ≤ 30000
      else answer = inr (Error "Vượt quá số lần thử kết nối lại Redis").
Proof.
  split; [|split].
  - destruct (reconnect_all_spec retries 0 ltac:(lia)) as [H|[H _]].
    + rewrite H. unfold maxReconnectAttempts. f_equal.
    + unfold maxReconnectAttempts in H. lia.
  - generalize 0. induction retries as [|n rest IH]; intros a; simpl; [done|].
    destruct (reconnectStrategy a n) as [x a1].
    specialize (IH a1). destruct (reconnect_all a1 rest). simpl in *. by rewrite IH.
  - intros i answer Hi. apply reconnect_all_lookup in Hi.
    unfold maxReconnectAttempts in Hi.
    destruct (Nat.ltb_spec i 10), (Z.ltb_spec (0 + Z.of_nat i) 10); first [done | lia].
Qed.

End reconnect.

(** ** The password policy *)

Section password.

Lemma existsb_In {A} (f : A → bool) l :
  existsb f l = true ↔ ∃ x, x ∈ l ∧ f x = true.
Proof.
  rewrite existsb_exists. split; intros (x & Hx & Hf); exists x; split;
    first [done | by apply list_elem_of_In].
Qed.

Lemma number_or_symbol_not_letter c :
  is_number c || negb (is_letter c || is_number c) = negb (is_letter c).
Proof.
  unfold is_number, is_letter.
  repeat match goal with
         | |- context [?a <=? ?b] => destruct (Z.leb_spec a b)
         end; simpl; first [reflexivity | lia].
Qed.

(** X2. A password passes the policy exactly when it has at least eight
    code units, one of them a letter of [a-zA-Z] and one of them not such a
    letter. *)
Theorem validatePassword_spec password :
  validatePassword password = true
  ↔ (8 ≤ length password)%nat
    ∧ (∃ c, c ∈ password ∧ is_letter c = true)
    ∧ (∃ c, c ∈ password ∧ is_letter c = false).
Proof.
  unfold validatePassword, has_letter, has_number_or_symbol.
  rewrite !andb_true_iff, !existsb_In, Z.leb_le.
  split.
  - intros [[H1 H2] (c & Hc & Hf)]. split; [lia|]. split; [done|].
    exists c. split; [done|].
    rewrite number_or_symbol_not_letter in Hf. by destruct (is_letter c).
  - intros (H1 & H2 & c & Hc & Hf). split; [split; [lia|done]|].
    exists c. split; [done|].
    rewrite number_or_symbol_not_letter. by rewrite Hf.
Qed.

(** X3. The password check of the reset controller is inverted.  A
    request whose new password passes the policy is answered 400 and never
    reaches the reset service, so the store is left as it was; and whenever
    the controller answers 200, the password it handed to the service had
    failed the policy. *)
Theorem resetPassword_policy_check_is_inverted
    (resetPassword : string → string → code_units → M bool) email otp r :
  (∀ password,
     validatePassword password = true →
     ∃ message,
       controller_resetPassword resetPassword email otp (Some password) r
       = (Response 400 (Message message), r))
  ∧ (∀ newPassword body r',
       controller_resetPassword resetPassword email otp newPassword r
       = (Response 200 body, r') →
       ∃ password,
         newPassword = Some password
         ∧ validatePassword password = false
         ∧ resetPassword (Js.template email) (Js.template otp) password r
           = (Ok true, r')).
Proof.
  split.
  - intros password Hv. unfold controller_resetPassword.
    destruct (negb (Js.truthy email) || negb (Js.truthy otp) || blank (Some password));
      [by eexists|].
    simpl. rewrite Hv. by eexists.
  - intros newPassword body r'. unfold controller_resetPassword.
    destruct (negb (Js.truthy email) || negb (Js.truthy otp) || blank newPassword)
      eqn:Hblank; [done|].
    destruct newPassword as [password|];
      [|by rewrite !orb_true_r in Hblank].
    cbn [default id]. destruct (validatePassword password) eqn:Hv; [done|].
    destruct (resetPassword _ _ _ r) as [[[]|e] r1] eqn:Hrun; [|done..].
    intros [= _ <-]. by exists password.
Qed.

End password.

(** ** The admin gate *)

Section admin_gate.
Context (env : process_env) (sha256_hex : token → string).

(** [userMiddleware] never throws and never writes; when it calls [next],
    [req.user] is what [jwt.verify] returned for [req.token] under the
    standard secret. *)
Lemma userMiddleware_returns nowMs authHeader r :
  ∃ res,
    userMiddleware env sha256_hex nowMs authHeader r = (Ok res, r)
    ∧ (∀ st message, mw_outcome res = Respond st message → st = 401 ∨ st = 403)
    ∧ (mw_outcome res = Next →
       ∃ p t,
         res = MwResult Next (Verified p) (Some t)
         ∧ Jwt.verify t (ACCESS_TOKEN_SECRET env) (seconds nowMs) = inl p).
Proof.
  assert (Hanswer : ∀ st message (res : mw_result),
            st = 401 ∨ st = 403 →
            res = MwResult (Respond st message) DefaultUser None →
            (∀ st message, mw_outcome res = Respond st message → st = 401 ∨ st = 403)
            ∧ (mw_outcome res = Next →
               ∃ p t,
                 res = MwResult Next (Verified p) (Some t)
                 ∧ Jwt.verify t (ACCESS_TOKEN_SECRET env) (seconds nowMs) = inl p)).
  { intros st message res Hst ->. split; [by intros ? ? [= <- _]|done]. }
  unfold userMiddleware.
  destruct (match authHeader with HAbsent => _ | _ => _ end);
    [eexists; split; [done|]; eapply Hanswer; [|done]; by left|].
  set (t := match authHeader with HAbsent => _ | _ => _ end). clearbody t.
  destruct (Jwt.is_empty t);
    [eexists; split; [done|]; eapply Hanswer; [|done]; by left|].
  unfold mbind, M_bind. rewrite isTokenBlacklisted_spec.
  destruct (if isReady r then _ else _);
    [eexists; split; [done|]; eapply Hanswer; [|done]; by left|].
  destruct (Jwt.verify t _ _) as [p|[m|]] eqn:Hv.
  - eexists. split; [done|]. split; [done|]. intros _. by exists p, t.
  - eexists; split; [done|]; eapply Hanswer; [|done]; by right.
  - eexists; split; [done|]; eapply Hanswer; [|done]; by left.
Qed.

(** X4. When a separate admin secret is configured, [adminMiddleware] lets
    no request through, whatever the token: [userMiddleware] has already
    accepted the token under the standard secret, so the second
    verification, under the admin secret, cannot succeed. *)
Theorem adminMiddleware_blocks_with_separate_secret nowMs authHeader r admin :
  ADMIN_ACCESS_TOKEN_SECRET env = Some admin → admin ≠ "" →
  ACCESS_TOKEN_SECRET env ≠ Some admin →
  ∃ res st message,
    adminMiddleware env sha256_hex nowMs authHeader r = (Ok res, r)
    ∧ mw_outcome res = Respond st message
    ∧ (st = 401 ∨ st = 403).
Proof.
  intros Hadm Hne Hstd. unfold adminMiddleware, try_catch, mbind, M_bind.
  destruct (userMiddleware_returns nowMs authHeader r) as (res & -> & Hst & Hnext).
  destruct (mw_outcome res) as [|st msg] eqn:Ho.
  - destruct (Hnext eq_refl) as (p & t & -> & Hv). cbn [mw_user mw_token].
    destruct (bool_decide _); [|by eexists _, _, _; split; [done|]; split; [done|]; right].
    rewrite Hadm. apply truthy_Some in Hne as Ht.
    destruct (Js.truthy (Some admin)) eqn:Ht'; [clear Ht|done]. cbn [default].
    apply verify_inl_iff in Hv as (Hts & -> & _).
    destruct (ACCESS_TOKEN_SECRET env) as [s|] eqn:Hs; [|done].
    cbn [default id Jwt.verify Js.template]. rewrite Ht'. cbn [negb].
    destruct (String.eqb_spec s admin) as [->|_]; [done|]. cbn [negb].
    eexists _, _, _; split; [done|]; split; [done|]; by right.
  - exists res, st, msg. split; [done|]. split; [done|]. by eapply Hst.
Qed.

(** X5. [adminMiddleware] is [userMiddleware] made stricter.  It never
    throws, never writes and never answers 500; a request [userMiddleware]
    rejects gets that very answer; it calls [next] only for a request
    [userMiddleware] lets through with the role [admin]; and when no admin
    secret is configured that is also sufficient. *)
Theorem adminMiddleware_refines_userMiddleware nowMs authHeader r :
  ∃ ures res,
    userMiddleware env sha256_hex nowMs authHeader r = (Ok ures, r)
    ∧ adminMiddleware env sha256_hex nowMs authHeader r = (Ok res, r)
    ∧ (∀ message, mw_outcome res ≠ Respond 500 message)
    ∧ (mw_outcome ures ≠ Next → res = ures)
    ∧ (mw_outcome res = Next →
       ∃ p t, ures = MwResult Next (Verified p) (Some t)
              ∧ p_role p = Some "admin")
    ∧ (Js.truthy (ADMIN_ACCESS_TOKEN_SECRET env) = false →
       ∀ p t, ures = MwResult Next (Verified p) (Some t) →
              p_role p = Some "admin" → res = ures).
Proof.
  unfold adminMiddleware, try_catch, mbind, M_bind.
  destruct (userMiddleware_returns nowMs authHeader r) as (ures & -> & H500 & Hnext).
  exists ures.
  destruct (mw_outcome ures) as [|st msg] eqn:Ho.
  - destruct (Hnext eq_refl) as (p & t & -> & Hv). cbn [mw_user mw_token default id].
    destruct (bool_decide_reflect (p_role p = Some "admin")) as [Hrole|Hrole].
    + destruct (Js.truthy (ADMIN_ACCESS_TOKEN_SECRET env)) eqn:Hadm.
      * destruct (Jwt.verify t (ADMIN_ACCESS_TOKEN_SECRET env) _) as [q|e] eqn:Hq.
        -- eexists. split; [done|]. split; [done|]. split; [done|].
           split; [done|]. split; [by eauto|]. done.
        -- eexists. split; [done|]. split; [done|]. split; [done|].
           split; [done|]. split; done.
      * eexists. split; [done|]. split; [done|]. split; [done|].
        split; [done|]. split; [by eauto|]. done.
    + eexists. split; [done|]. split; [done|]. split; [done|].
      split; [done|]. split; [done|]. intros _ p' t' [= <- <-]. done.
  - exists ures. split; [done|]. split; [done|]. rewrite Ho.
    split; [by intros m [= -> _]; destruct (H500 _ _ eq_refl)|]. split; [done|]. split; [done|].
    intros _ p t ->. done.
Qed.

(** X6. When a separate admin secret is configured, an access token
    issued with the admin flag is signed with it, and [userMiddleware],
    which verifies under the standard secret only, refuses it: 403
    "Invalid token", or 401 if the token is in the ledger. *)
Theorem admin_token_is_refused_by_userMiddleware
    user issuedMs t nowMs authHeader r admin :
  ADMIN_ACCESS_TOKEN_SECRET env = Some admin → admin ≠ "" →
  ACCESS_TOKEN_SECRET env ≠ Some admin →
  generateAccessToken env user true issuedMs = Some t →
  carries authHeader t →
  userMiddleware env sha256_hex nowMs authHeader r
  = (Ok (MwResult
           (if isReady r
               && bool_decide (is_Some (live nowMs (db r) (blacklistKey sha256_hex t)))
            then Respond 401 "Token has been revoked"
            else Respond 403 "Invalid token")
           DefaultUser None), r).
Proof.
  intros Hadm Hne Hstd Hgen Hcar.
  rewrite (userMiddleware_token _ _ _ _ _ _ Hcar).
  unfold mbind, M_bind. rewrite isTokenBlacklisted_spec.
  assert (Hled : (if isReady r
                  then match live nowMs (db r) (blacklistKey sha256_hex t) with
                       | Some _ => true | None => false end
                  else false)
                 = isReady r
                   && bool_decide (is_Some (live nowMs (db r)
                                              (blacklistKey sha256_hex t)))).
  { destruct (isReady r); [|done]. cbn [andb].
    destruct (live _ _ _); [by rewrite bool_decide_true|].
    rewrite bool_decide_false; [done|]. by intros [? ?]. }
  rewrite Hled. destruct (_ && _); [done|].
  revert Hgen. unfold generateAccessToken, Jwt.sign, Js.or. rewrite Hadm.
  apply truthy_Some in Hne as Ht. rewrite Ht. rewrite Ht.
  intros [= <-]. cbn [Jwt.verify Js.template].
  destruct (Js.truthy (ACCESS_TOKEN_SECRET env)) eqn:Hs; cbn [negb]; [|done].
  destruct (ACCESS_TOKEN_SECRET env) as [s|]; [|done]. cbn [Js.template].
  destruct (String.eqb_spec admin s) as [->|_]; [done|]. done.
Qed.

End admin_gate.

(** ** Saving refresh tokens *)

Section registry.
Context (env : process_env).

Lemma generated_exp user isAdmin issuedMs rnd t :
  generateRefreshToken env user isAdmin issuedMs rnd = Some t →
  ∃ decoded,
    Jwt.decode t = Some decoded
    ∧ p_exp decoded = Some (seconds issuedMs + refresh_lifetime env isAdmin)
    ∧ carries_identity decoded user isAdmin
    ∧ Js.truthy (refresh_secret env decoded) = true
    ∧ t = Signed decoded (Js.template (refresh_secret env decoded)).
Proof.
  unfold generateRefreshToken, Jwt.sign, refresh_secret, refresh_lifetime.
  destruct (Js.truthy _) eqn:Hs; [|done]. intros [= <-].
  eexists. split; [done|]. cbn [p_exp p_isAdmin option_map].
  split; [by destruct isAdmin|]. split; [done|]. split; [done|]. done.
Qed.

(** What [saveRefreshToken] writes on a reachable store for a token that
    has not expired: the record, which expires with the token, and the
    index entry, which expires after twice the default lifetime. *)
Lemma saveRefreshToken_ready saveMs userId t flag decoded jti exp d :
  Jwt.decode t = Some decoded → p_jti decoded = Some jti →
  p_exp decoded = Some exp → seconds saveMs < exp →
  tokenKey userId jti ≠ userTokensKey userId →
  no_string_at saveMs (RedisState true d) (userTokensKey userId) →
  saveRefreshToken saveMs userId t flag (RedisState true d)
  = (Ok (),
     RedisState true
       (<[userTokensKey userId :=
            Entry (RHash (<[jti := Js.number_to_string (seconds saveMs)]>
                            (hash_at saveMs d (userTokensKey userId))))
                  (Some (saveMs + DEFAULT_REFRESH_TOKEN_TTL * 2 * 1000))]>
          (<[tokenKey userId jti :=
               Entry (RString (JsonTokenData
                        (TokenData t userId (flag || p_isAdmin decoded)
                                   (seconds saveMs) (Some exp))))
                     (Some (saveMs + (exp - seconds saveMs) * 1000))]> d))).
Proof.
  intros Hd Hj He Hlt Hne Hidx. unfold saveRefreshToken.
  rewrite Hd, He, Hj. cbn [option_map Js.template].
  destruct (Z.leb_spec (exp - seconds saveMs) 0); [lia|].
  generalize dependent (tokenKey userId jti). intros key Hne.
  generalize dependent (userTokensKey userId). intros index Hidx Hne.
  set (td := TokenData _ _ _ _ _).
  set (d1 := <[key := Entry (RString (JsonTokenData td))
                        (Some (saveMs + (exp - seconds saveMs) * 1000))]> d).
  assert (Hset : Redis.set saveMs key (JsonTokenData td)
                   (Some (exp - seconds saveMs)) (RedisState true d)
                 = (Ok (), RedisState true d1)).
  { unfold Redis.set. unfold_store. cbn -[live Z.mul].
    destruct (Z.eqb_spec (exp - seconds saveMs) 0); [lia|].
    by destruct (Z.ltb_spec (exp - seconds saveMs) 0); [lia|]. }
  unfold mbind at 1, M_bind at 1. rewrite Hset. cbv beta iota.
  rewrite index_update by done.
  unfold hash_at.
  replace (live saveMs d1 index) with (live saveMs d index)
    by (symmetry; by apply live_insert_ne).
  destruct (live saveMs d index) as [[[s|h] ex]|] eqn:Hl; [|done..].
  by destruct (Hidx s ex).
Qed.

Lemma issued_refresh_token user isAdmin issuedMs rnd t :
  generateRefreshToken env user isAdmin issuedMs rnd = Some t →
  Js.truthy (user_id_of (Some user)) = true →
  ∃ decoded jti,
    well_formed t decoded
    ∧ p_jti decoded = Some jti ∧ jti_of t = jti
    ∧ subject_of t = Js.template (user_id_of (Some user))
    ∧ p_exp decoded = Some (seconds issuedMs + refresh_lifetime env isAdmin)
    ∧ carries_identity decoded user isAdmin
    ∧ (∀ now,
         Jwt.verify t (refresh_secret env decoded) now
         = if seconds issuedMs + refresh_lifetime env isAdmin <=? now
           then inr TokenExpiredError else inl decoded)
    ∧ ∀ userId, tokenKey userId jti ≠ userTokensKey userId.
Proof.
  intros Hgen Hid.
  destruct (generated_jti _ _ _ _ _ _ Hgen) as (decoded & jti & Hd & Hj & Hnt & Hne & Hu & _).
  destruct (generated_exp _ _ _ _ _ Hgen) as (decoded' & Hd' & He & Hc & Hs & Ht).
  assert (decoded' = decoded) as -> by congruence.
  exists decoded, jti. split.
  { split; [done|]. rewrite Hj, Hu. split; [by apply truthy_Some|done]. }
  split; [done|]. split; [by unfold jti_of; rewrite Hd, Hj|].
  split; [by unfold subject_of; rewrite Hd, Hu|].
  split; [done|]. split; [done|]. split.
  - intros now. rewrite Ht at 1. cbn [Jwt.verify]. rewrite Hs. cbn [negb].
    rewrite String.eqb_refl. cbn [negb]. by rewrite He.
  - intros userId. by apply tokenKey_not_index.
Qed.

(** X7. A token [generateRefreshToken] issued, saved on a reachable store
    before it expired, is accepted by [verifyRefreshToken] at every instant
    up to its expiry, and the payload returned is the one it was issued
    with. *)
Theorem saved_refresh_token_verifies
    user isAdmin flag issuedMs rnd t saveMs nowMs r :
  generateRefreshToken env user isAdmin issuedMs rnd = Some t →
  Js.truthy (user_id_of (Some user)) = true →
  isReady r = true →
  no_string_at saveMs r (userTokensKey (subject_of t)) →
  seconds saveMs < seconds issuedMs + refresh_lifetime env isAdmin →
  seconds nowMs < seconds issuedMs + refresh_lifetime env isAdmin →
  ∃ r' decoded,
    saveRefreshToken saveMs (subject_of t) t flag r = (Ok (), r')
    ∧ verifyRefreshToken env nowMs t r' = (Ok decoded, r')
    ∧ Jwt.decode t = Some decoded
    ∧ carries_identity decoded user isAdmin.
Proof.
  intros Hgen Hid Hready Hidx Hsave Hnow.
  destruct (issued_refresh_token _ _ _ _ _ Hgen Hid)
    as (decoded & jti & Hwf & Hj & Hjti & Hsub & He & Hc & Hv & Hkey).
  destruct r as [ready d]. cbn in Hready. subst ready.
  pose proof Hwf as (Hd & _ & _).
  eexists _, decoded. split.
  { eapply saveRefreshToken_ready; try done. }
  rewrite (verifyRefreshToken_well_formed _ _ _ _ _ Hwf). cbn [isReady db].
  unfold registry_key. rewrite Hjti.
  unfold live. rewrite lookup_insert_ne by (by apply not_eq_sym).
  rewrite lookup_insert_eq. unfold expired. cbn [e_expireAt].
  set (exp := seconds issuedMs + refresh_lifetime env isAdmin) in *.
  clearbody exp. unfold seconds in *.
  destruct (Z.leb_spec (saveMs + (exp - saveMs / 1000) * 1000) nowMs) as [Hle|_];
    [exfalso; clear -Hle Hsave Hnow; Z.div_mod_to_equations; lia|].
  cbn [td_token]. rewrite decide_True by done. rewrite Hv.
  destruct (Z.leb_spec exp (nowMs / 1000)); [lia|]. done.
Qed.

(** X8. The record of a saved token expires with the token: from one
    second after the token's expiry on, [verifyRefreshToken] no longer
    finds it and reports the token as not found or revoked. *)
Theorem saved_refresh_token_lapses
    user isAdmin flag issuedMs rnd t saveMs nowMs r :
  generateRefreshToken env user isAdmin issuedMs rnd = Some t →
  Js.truthy (user_id_of (Some user)) = true →
  isReady r = true →
  no_string_at saveMs r (userTokensKey (subject_of t)) →
  seconds saveMs < seconds issuedMs + refresh_lifetime env isAdmin →
  seconds issuedMs + refresh_lifetime env isAdmin + 1 ≤ seconds nowMs →
  ∃ r',
    saveRefreshToken saveMs (subject_of t) t flag r = (Ok (), r')
    ∧ live nowMs (db r') (registry_key t) = None
    ∧ verifyRefreshToken env nowMs t r' = (Throw not_found_error, r').
Proof.
  intros Hgen Hid Hready Hidx Hsave Hnow.
  destruct (issued_refresh_token _ _ _ _ _ Hgen Hid)
    as (decoded & jti & Hwf & Hj & Hjti & Hsub & He & Hc & Hv & Hkey).
  destruct r as [ready d]. cbn in Hready. subst ready.
  pose proof Hwf as (Hd & _ & _).
  eexists. split.
  { eapply saveRefreshToken_ready; try done. }
  rewrite (verifyRefreshToken_well_formed _ _ _ _ _ Hwf). cbn [isReady db].
  unfold registry_key. rewrite Hjti.
  unfold live. rewrite lookup_insert_ne by (by apply not_eq_sym).
  rewrite lookup_insert_eq. unfold expired. cbn [e_expireAt].
  set (exp := seconds issuedMs + refresh_lifetime env isAdmin) in *.
  clearbody exp. unfold seconds in *.
  destruct (Z.leb_spec (saveMs + (exp - saveMs / 1000) * 1000) nowMs) as [_|Hle];
    [done|exfalso; clear -Hle Hsave Hnow; Z.div_mod_to_equations; lia].
Qed.

(** X9. The index of a user expires two default lifetimes after the last
    save, however long the tokens live.  For a token whose configured
    lifetime is longer, [revokeAllUserRefreshTokens] called after that
    reports success and yet leaves the token's record in place:
    [verifyRefreshToken] still accepts the token. *)
Theorem revokeAll_misses_long_lived_token
    user isAdmin flag issuedMs rnd t saveMs revokeMs nowMs r :
  generateRefreshToken env user isAdmin issuedMs rnd = Some t →
  Js.truthy (user_id_of (Some user)) = true →
  isReady r = true →
  no_string_at saveMs r (userTokensKey (subject_of t)) →
  seconds saveMs < seconds issuedMs + refresh_lifetime env isAdmin →
  saveMs + DEFAULT_REFRESH_TOKEN_TTL * 2 * 1000 ≤ revokeMs →
  seconds nowMs < seconds issuedMs + refresh_lifetime env isAdmin →
  ∃ r1 r2 decoded,
    saveRefreshToken saveMs (subject_of t) t flag r = (Ok (), r1)
    ∧ revokeAllUserRefreshTokens revokeMs (subject_of t) r1 = (Ok true, r2)
    ∧ verifyRefreshToken env nowMs t r2 = (Ok decoded, r2).
Proof.
  intros Hgen Hid Hready Hidx Hsave Hrev Hnow.
  destruct (issued_refresh_token _ _ _ _ _ Hgen Hid)
    as (decoded & jti & Hwf & Hj & Hjti & Hsub & He & Hc & Hv & Hkey).
  destruct r as [ready d]. cbn in Hready. subst ready.
  pose proof Hwf as (Hd & _ & _).
  eexists _, _, decoded. split.
  { eapply saveRefreshToken_ready; try done. }
  specialize (Hkey (subject_of t)).
  set (d1 := <[tokenKey (subject_of t) jti := _]> d).
  set (e := Entry (RHash _) _).
  assert (Hgone : live revokeMs (<[userTokensKey (subject_of t) := e]> d1)
                    (userTokensKey (subject_of t)) = None).
  { unfold live. rewrite lookup_insert_eq. unfold expired, e. cbn [e_expireAt].
    by destruct (Z.leb_spec (saveMs + DEFAULT_REFRESH_TOKEN_TTL * 2 * 1000) revokeMs);
      [|lia]. }
  split.
  { unfold revokeAllUserRefreshTokens, Redis.hGetAll. unfold_store.
    cbn -[live del_each]. rewrite Hgone. cbn -[live del_each].
    rewrite map_to_list_empty. cbn -[live]. reflexivity. }
  rewrite (verifyRefreshToken_well_formed _ _ _ _ _ Hwf). cbn [isReady db].
  unfold registry_key. rewrite Hjti.
  unfold live. rewrite lookup_delete_ne by (by apply not_eq_sym).
  rewrite lookup_insert_ne by (by apply not_eq_sym).
  unfold d1. rewrite lookup_insert_eq. unfold expired. cbn [e_expireAt].
  set (exp := seconds issuedMs + refresh_lifetime env isAdmin) in *.
  clearbody exp. unfold seconds in *.
  destruct (Z.leb_spec (saveMs + (exp - saveMs / 1000) * 1000) nowMs) as [Hle|_];
    [exfalso; clear -Hle Hsave Hnow; Z.div_mod_to_equations; lia|].
  cbn [td_token]. rewrite decide_True by done. rewrite Hv.
  destruct (Z.leb_spec exp (nowMs / 1000)); [lia|]. done.
Qed.

End registry.

(** ** Revocation *)

Section revocation.

Lemma expired_mono now1 now2 e :
  now1 ≤ now2 → expired now1 e = true → expired now2 e = true.
Proof.
  unfold expired. destruct (e_expireAt e) as [x|]; [|done].
  intros Hle. destruct (Z.leb_spec x now1), (Z.leb_spec x now2); first [done | lia].
Qed.

Lemma live_None_mono now1 now2 d k :
  now1 ≤ now2 → live now1 d k = None → live now2 d k = None.
Proof.
  unfold live. intros Hle. destruct (d !! k) as [e|]; [|done].
  destruct (expired now1 e) eqn:He; [|done].
  by rewrite (expired_mono _ _ _ Hle He).
Qed.

Lemma del_hDel_again now1 now2 key index jti r r1 :
  now1 ≤ now2 →
  try_catch
    (_ ← Redis.del now1 key; _ ← Redis.hDel now1 index jti; mret true)
    (λ _, mret false) r = (Ok true, r1) →
  try_catch
    (_ ← Redis.del now2 key; _ ← Redis.hDel now2 index jti; mret true)
    (λ _, mret false) r1 = (Ok true, r1).
Proof.
  intros Hle. destruct r as [[] d]; unfold_store; cbn -[live]; [|done].
  destruct (live now1 (delete key d) index) as [[[s|h] ex]|] eqn:Hl; cbn -[live].
  - done.
  - apply live_Some in Hl as Hlook.
    assert (Hne : key ≠ index).
    { intros ->. by rewrite lookup_delete_eq in Hlook. }
    case_decide as Hempty; cbn -[live]; intros [= <-]; cbn -[live].
    + rewrite (delete_id (delete index _) key)
        by (by rewrite lookup_delete_ne, lookup_delete_eq).
      by rewrite live_delete.
    + rewrite (delete_id (<[index := _]> _) key)
        by (by rewrite lookup_insert_ne, lookup_delete_eq).
      unfold live at 1. rewrite lookup_insert_eq.
      destruct (expired now2 _); cbn -[live]; [done|].
      rewrite delete_delete_eq. rewrite decide_False by done. cbn -[live].
      by rewrite insert_insert_eq.
  - intros [= <-]. cbn -[live]. rewrite delete_delete_eq.
    by rewrite (live_None_mono _ _ _ _ Hle Hl).
Qed.

(** X10. Revoking a refresh token twice is revoking it once: after a
    successful [revokeRefreshToken], a second call on the same token at a
    later instant succeeds again and leaves the store exactly as the first
    left it. *)
Theorem revokeRefreshToken_idempotent now1 now2 t r r1 :
  now1 ≤ now2 →
  revokeRefreshToken now1 t r = (Ok true, r1) →
  revokeRefreshToken now2 t r1 = (Ok true, r1).
Proof.
  intros Hle. unfold revokeRefreshToken.
  destruct (Jwt.decode t) as [decoded|]; [|done].
  destruct (negb (Js.truthy (p_jti decoded))); [done|].
  destruct (negb (Js.truthy (Js.or _ _))); [done|].
  by apply del_hDel_again.
Qed.

Lemma del_each_spec now userId jtiList : ∀ d,
  ∃ d',
    del_each now userId jtiList (RedisState true d) = (Ok (), RedisState true d')
    ∧ (∀ jti, jti ∈ jtiList → d' !! tokenKey userId jti = None)
    ∧ (∀ k, (∀ jti, jti ∈ jtiList → k ≠ tokenKey userId jti) → d' !! k = d !! k).
Proof.
  induction jtiList as [|j l IH]; intros d.
  - exists d. split; [done|]. split; [|done]. intros jti Hin.
    by apply elem_of_nil in Hin.
  - destruct (IH (delete (tokenKey userId j) d)) as (d' & Hrun & Hgone & Hframe).
    exists d'. split; [|split].
    + simpl. unfold Redis.del at 1. unfold_store. cbn -[live del_each]. exact Hrun.
    + intros jti Hin. apply elem_of_cons in Hin as [->|Hin]; [|by apply Hgone].
      destruct (decide (j ∈ l)) as [Hjl|Hjl]; [by apply Hgone|].
      rewrite Hframe; [apply lookup_delete_eq|].
      intros jti Hin Heq. apply tokenKey_inj_jti in Heq. by subst.
    + intros k Hk. rewrite Hframe.
      * apply lookup_delete_ne, not_eq_sym, Hk, elem_of_cons. by left.
      * intros jti Hin. apply Hk, elem_of_cons. by right.
Qed.

(** X11. On a reachable store whose index key holds no string,
    [revokeAllUserRefreshTokens] succeeds and removes exactly the user's
    index and the records of the jtis the index lists; every other key is
    left as it was. *)
Theorem revokeAll_removes_listed_records now userId r :
  isReady r = true →
  no_string_at now r (userTokensKey userId) →
  ∃ r',
    revokeAllUserRefreshTokens now userId r = (Ok true, r')
    ∧ isReady r' = true
    ∧ db r' !! userTokensKey userId = None
    ∧ (∀ jti, is_Some (hash_at now (db r) (userTokensKey userId) !! jti) →
         db r' !! tokenKey userId jti = None)
    ∧ (∀ k, k ≠ userTokensKey userId →
         (∀ jti, is_Some (hash_at now (db r) (userTokensKey userId) !! jti) →
            k ≠ tokenKey userId jti) →
         db r' !! k = db r !! k).
Proof.
  intros Hready Hidx. destruct r as [ready d]. cbn in Hready. subst ready.
  unfold no_string_at in Hidx. cbn [db] in *.
  unfold revokeAllUserRefreshTokens, hash_at, Redis.hGetAll.
  generalize dependent (userTokensKey userId). intros index Hidx.
  unfold try_catch. unfold mbind at 1, M_bind at 1.
  unfold_store. cbn -[live del_each].
  assert (Hlist : ∀ (h : gmap string string) jti,
            jti ∈ (map_to_list h).*1 ↔ is_Some (h !! jti)).
  { intros h jti. rewrite list_elem_of_fmap. split.
    - intros ([j v] & -> & Hin). apply elem_of_map_to_list in Hin. by eexists.
    - intros [v Hv]. exists (jti, v). split; [done|]. by apply elem_of_map_to_list. }
  destruct (live now d index) as [[[s|h] ex]|] eqn:Hl; cbn -[live del_each].
  - by destruct (Hidx s ex).
  - destruct (del_each_spec now userId (map_to_list h).*1 d)
      as (d' & -> & Hgone & Hframe).
    cbn -[live]. eexists. split; [done|]. cbn [isReady db].
    split; [done|]. split; [apply lookup_delete_eq|]. split.
    + intros jti Hin. destruct (decide (index = tokenKey userId jti)) as [->|Hne].
      * apply lookup_delete_eq.
      * rewrite lookup_delete_ne by done. by apply Hgone, Hlist.
    + intros k Hk Hkeys. rewrite lookup_delete_ne by done. apply Hframe.
      intros jti Hin. by apply Hkeys, Hlist.
  - rewrite map_to_list_empty. cbn -[live]. eexists. split; [done|].
    cbn [isReady db]. split; [done|]. split; [apply lookup_delete_eq|]. split.
    + intros jti [v Hv]. by rewrite lookup_empty in Hv.
    + intros k Hk _. by rewrite lookup_delete_ne.
Qed.

(** X12. A refresh token issued for a user given as a bare id string, which
    [generateRefreshToken] accepts, is never accepted by
    [verifyRefreshToken]: the payload has no [user.id] to look the record
    up with. *)
Theorem bare_id_refresh_token_never_verifies env userId isAdmin issuedMs rnd t nowMs r :
  generateRefreshToken env (UStr userId) isAdmin issuedMs rnd = Some t →
  verifyRefreshToken env nowMs t r
  = (Throw (Error "Invalid refresh token format: missing user ID"), r).
Proof.
  intros Hgen.
  destruct (generated_jti _ _ _ _ _ _ Hgen) as (decoded & jti & Hd & Hj & _ & Hne & Hu & _).
  unfold verifyRefreshToken, try_catch, throw. rewrite Hd, Hj, Hu.
  apply truthy_Some in Hne. rewrite Hne. done.
Qed.

End revocation.

(** ** The ledger of revoked access tokens *)

Section ledger_facts.
Context (env : process_env) (sha256_hex : token → string).

(** The payload [blacklistAccessToken] obtains: the token verified under
    the standard secret or, failing that, under the admin one. *)
Lemma blacklistAccessToken_run nowMs t r :
  blacklistAccessToken env sha256_hex nowMs t r
  = match
      match Jwt.verify t (ACCESS_TOKEN_SECRET env) (seconds nowMs) with
      | inl info => inl info
      | inr _ =>
          Jwt.verify t
            (Js.or (ADMIN_ACCESS_TOKEN_SECRET env) (ACCESS_TOKEN_SECRET env))
            (seconds nowMs)
      end
    with
    | inl info =>
        if isReady r then
          (Ok true,
           RedisState true
             (<[blacklistKey sha256_hex t :=
                  Entry (RString (JsonLedger
                           (LedgerRecord
                              (if Js.truthy (p_jti info)
                               then Js.template (p_jti info) else "none")
                              (p_id info) (seconds nowMs))))
                        (option_map
                           (λ exp, nowMs + (exp - seconds nowMs) * 1000)
                           (p_exp info))]> (db r)))
        else (Ok false, r)
    | inr _ => (Ok false, r)
    end.
Proof.
  unfold blacklistAccessToken.
  set (info := match Jwt.verify t (ACCESS_TOKEN_SECRET env) _ with
               | inl i => inl i | inr _ => _ end).
  assert (Hexp : ∀ p exp, info = inl p → p_exp p = Some exp → seconds nowMs < exp).
  { intros p exp. unfold info.
    destruct (Jwt.verify t (ACCESS_TOKEN_SECRET env) _) as [q|e] eqn:Hv.
    - intros [= ->] He. apply verify_inl_iff in Hv as (_ & _ & Hlt). by apply Hlt.
    - intros Hv2 He. apply verify_inl_iff in Hv2 as (_ & _ & Hlt). by apply Hlt. }
  destruct info as [p|e]; [|done].
  destruct (p_exp p) as [exp|] eqn:He; cbn [option_map].
  - specialize (Hexp p exp eq_refl He).
    destruct (Z.leb_spec (exp - seconds nowMs) 0); [lia|].
    destruct r as [[] d]; unfold Redis.set; unfold_store; cbn -[live Z.mul]; [|done].
    destruct (Z.eqb_spec (exp - seconds nowMs) 0); [lia|].
    by destruct (Z.ltb_spec (exp - seconds nowMs) 0); [lia|].
  - by destruct r as [[] d].
Qed.

(** X13. [blacklistAccessToken] never throws.  It reports success exactly
    when the store is reachable and the token verifies, at that instant,
    under the standard or the admin secret -- so an expired or foreign
    token is never recorded.  It writes at most the ledger key of the
    token, and nothing at all when it reports failure. *)
Theorem blacklistAccessToken_outcome nowMs t r :
  ∃ b r',
    blacklistAccessToken env sha256_hex nowMs t r = (Ok b, r')
    ∧ (b = true
       ↔ isReady r = true
         ∧ ∃ info,
             Jwt.verify t (ACCESS_TOKEN_SECRET env) (seconds nowMs) = inl info
             ∨ Jwt.verify t
                 (Js.or (ADMIN_ACCESS_TOKEN_SECRET env) (ACCESS_TOKEN_SECRET env))
                 (seconds nowMs) = inl info)
    ∧ (b = false → r' = r)
    ∧ (b = true → in_ledger sha256_hex nowMs r' t)
    ∧ (∀ k, k ≠ blacklistKey sha256_hex t → db r' !! k = db r !! k).
Proof.
  rewrite blacklistAccessToken_run.
  destruct (Jwt.verify t (ACCESS_TOKEN_SECRET env) _) as [p|e] eqn:Hv1.
  2: destruct (Jwt.verify t (Js.or _ _) _) as [p|e2] eqn:Hv2.
  3:{ eexists _, _. split; [done|]. split.
      { split; [done|]. by intros (_ & info & [?|?]). }
      done. }
  all: assert (Hexp : ∀ exp, p_exp p = Some exp → seconds nowMs < exp)
         by (first [apply verify_inl_iff in Hv1 as (_ & _ & Hlt)
                   |apply verify_inl_iff in Hv2 as (_ & _ & Hlt)]; exact Hlt).
  all: destruct (isReady r) eqn:Hr;
         [|eexists _, _; split; [done|]; split; [split; [done|by intros [? _]]|done]].
  all: eexists _, _; split; [done|]; split; [split; [|done]; intros _; split; [done|];
         exists p; first [by left | by right]|]; split; [done|]; split;
         [|by intros k Hk; cbn [db]; rewrite lookup_insert_ne].
  all: intros _; split; [done|]; cbn [db]; unfold live; rewrite lookup_insert_eq;
         unfold expired; cbn [e_expireAt];
         destruct (p_exp p) as [exp|]; [|done]; cbn [option_map];
         specialize (Hexp exp eq_refl);
         by destruct (Z.leb_spec (nowMs + (exp - seconds nowMs) * 1000) nowMs); [lia|].
Qed.

(** What a successful [blacklistAccessToken] leaves behind. *)
Lemma blacklistAccessToken_true nowMs t r r' :
  blacklistAccessToken env sha256_hex nowMs t r = (Ok true, r') →
  ∃ p v,
    Jwt.decode t = Some p
    ∧ isReady r' = true
    ∧ db r' !! blacklistKey sha256_hex t
      = Some (Entry v (option_map (λ exp, nowMs + (exp - seconds nowMs) * 1000)
                                  (p_exp p))).
Proof.
  rewrite blacklistAccessToken_run.
  set (info := match Jwt.verify t (ACCESS_TOKEN_SECRET env) _ with
               | inl i => inl i | inr _ => _ end).
  assert (Hdec : ∀ p, info = inl p → Jwt.decode t = Some p).
  { intros p. unfold info.
    destruct (Jwt.verify t (ACCESS_TOKEN_SECRET env) _) as [q|e] eqn:Hv.
    - intros [= ->]. apply verify_inl_iff in Hv as (_ & -> & _). done.
    - intros Hv2. apply verify_inl_iff in Hv2 as (_ & -> & _). done. }
  destruct info as [p|e]; [|done]. specialize (Hdec p eq_refl).
  destruct (isReady r); [|done]. intros [= <-]. cbn [isReady db].
  eexists p, _. split; [done|]. split; [done|]. by rewrite lookup_insert_eq.
Qed.

(** A ledger entry written for a token keeps [userMiddleware] from ever
    letting the token through on a reachable store. *)
Lemma ledger_entry_rejects nowMs laterMs authHeader t p v r :
  isReady r = true →
  Jwt.decode t = Some p →
  db r !! blacklistKey sha256_hex t
  = Some (Entry v (option_map (λ exp, nowMs + (exp - seconds nowMs) * 1000)
                              (p_exp p))) →
  carries authHeader t →
  (∃ st message,
     userMiddleware env sha256_hex laterMs authHeader r
     = (Ok (MwResult (Respond st message) DefaultUser None), r)
     ∧ (st = 401 ∨ st = 403))
  ∧ (unexpired laterMs t →
     userMiddleware env sha256_hex laterMs authHeader r
     = (Ok (MwResult (Respond 401 "Token has been revoked") DefaultUser None), r)).
Proof.
  intros Hr Hdec Hkey Hcar.
  rewrite (userMiddleware_token _ _ _ _ _ _ Hcar).
  unfold mbind, M_bind. rewrite isTokenBlacklisted_spec, Hr.
  unfold live. rewrite Hkey. unfold expired. cbn [e_expireAt].
  destruct (p_exp p) as [exp|] eqn:He; cbn [option_map].
  2:{ split; [|done]. eexists _, _. split; [done|]. by left. }
  destruct (Z.leb_spec (nowMs + (exp - seconds nowMs) * 1000) laterMs) as [Hle|Hgt].
  - assert (Hlate : exp ≤ seconds laterMs).
    { unfold seconds in *. clear -Hle. Z.div_mod_to_equations. lia. }
    split.
    + destruct (Jwt.verify t _ _) as [q|[m|]] eqn:Hv.
      * exfalso. apply verify_inl_iff in Hv as (_ & Ht & Hlt).
        rewrite Ht in Hdec. injection Hdec as ->.
        specialize (Hlt exp He). lia.
      * eexists _, _. split; [done|]. by right.
      * eexists _, _. split; [done|]. by left.
    + intros Hun. specialize (Hun p exp Hdec He). lia.
  - split; [|done]. eexists _, _. split; [done|]. by left.
Qed.

(** X14. Once [blacklistAccessToken] has succeeded for a token,
    [userMiddleware] never lets a request with that token through again,
    at whatever instant: while the token has not expired the answer is
    401 "Token has been revoked". *)
Theorem blacklisted_token_is_rejected nowMs laterMs authHeader t r r' :
  blacklistAccessToken env sha256_hex nowMs t r = (Ok true, r') →
  carries authHeader t →
  (∃ st message,
     userMiddleware env sha256_hex laterMs authHeader r'
     = (Ok (MwResult (Respond st message) DefaultUser None), r')
     ∧ (st = 401 ∨ st = 403))
  ∧ (unexpired laterMs t →
     userMiddleware env sha256_hex laterMs authHeader r'
     = (Ok (MwResult (Respond 401 "Token has been revoked") DefaultUser None), r')).
Proof.
  intros Hrun Hcar.
  destruct (blacklistAccessToken_true _ _ _ _ Hrun) as (p & v & Hdec & Hr & Hkey).
  by eapply ledger_entry_rejects.
Qed.

(** X15. While the store is unreachable the ledger is not consulted:
    [userMiddleware] lets every request through whose token verifies,
    whatever the store holds -- a token that was revoked included. *)
Theorem userMiddleware_fails_open nowMs authHeader t user r :
  isReady r = false →
  carries authHeader t →
  Jwt.verify t (ACCESS_TOKEN_SECRET env) (seconds nowMs) = inl user →
  userMiddleware env sha256_hex nowMs authHeader r
  = (Ok (MwResult Next (Verified user) (Some t)), r).
Proof.
  intros Hr Hcar Hv. rewrite (userMiddleware_token _ _ _ _ _ _ Hcar).
  unfold mbind, M_bind. rewrite isTokenBlacklisted_spec, Hr, Hv. done.
Qed.

End ledger_facts.

(** ** Refresh and logout *)

Section sessions.
Context (env : process_env) (sha256_hex : token → string).

Lemma ledger_key_apart t userId jti :
  blacklistKey sha256_hex t ≠ tokenKey userId jti
  ∧ blacklistKey sha256_hex t ≠ userTokensKey userId.
Proof.
  unfold blacklistKey, tokenKey, userTokensKey, BLACKLIST, REFRESH.
  split; intros H; rewrite !app_cons in H; discriminate.
Qed.

Lemma decoded_not_empty t p : Jwt.decode t = Some p → Jwt.is_empty t = false.
Proof. by destruct t. Qed.

(** [verifyRefreshToken] looks at the connection and at the token's own
    record only. *)
Lemma verifyRefreshToken_frame nowMs t r r' x :
  isReady r' = isReady r →
  db r' !! registry_key t = db r !! registry_key t →
  verifyRefreshToken env nowMs t r = (x, r) →
  verifyRefreshToken env nowMs t r' = (x, r').
Proof.
  intros Hready Hkey. destruct (classic_wf t) as [[decoded Hwf]|Hno].
  - rewrite !(verifyRefreshToken_well_formed _ _ _ _ _ Hwf).
    unfold live. rewrite Hready, Hkey.
    destruct (isReady r); [|by intros [= <-]].
    destruct (db r !! registry_key t) as [e|]; [|by intros [= <-]].
    destruct (expired nowMs e); [by intros [= <-]|].
    destruct e as [[[s|td|l]|h] ex]; try by intros [= <-].
    case_decide; [|by intros [= <-]].
    by destruct (Jwt.verify _ _ _); intros [= <-].
  - revert Hno. unfold well_formed, verifyRefreshToken, try_catch, throw.
    destruct (Jwt.decode t) as [decoded|]; [|by intros _ [= <-]].
    destruct (Js.truthy (p_jti decoded)) eqn:Hj; cbn [negb]; [|by intros _ [= <-]].
    destruct (Js.truthy (user_id_of _)) eqn:Hu; cbn [negb]; [|by intros _ [= <-]].
    intros Hno. destruct Hno. by exists decoded.
Qed.

(** X16. When [verifyRefreshToken] accepts the cookie, the refresh endpoint
    answers 200 with the access token [generateAccessToken] makes for the
    identity and the admin flag of the refresh token; that access token
    verifies throughout its lifetime; and the store is left as it was, so
    the same refresh token is accepted again: it is not rotated. *)
Theorem refresh_issues_access_token nowMs t r decoded u :
  verifyRefreshToken env nowMs t r = (Ok decoded, r) →
  p_user decoded = Some (UObj u) →
  Js.truthy (access_secret env (p_isAdmin decoded)) = true →
  ∃ access p,
    controller_handleRefreshToken env nowMs (Some t) r
    = (Response 200 (AccessToken access), r)
    ∧ generateAccessToken env
        (UObj (UserObj (Js.or (u_id u) (u__id u)) None (u_role u)
                       (u_avatarUrl u) (u_email u)))
        (p_isAdmin decoded) nowMs = Some access
    ∧ Jwt.decode access = Some p
    ∧ p_isAdmin p = p_isAdmin decoded
    ∧ p_role p = u_role u
    ∧ user_id_of (p_user p) = user_id_of (p_user decoded)
    ∧ ∀ laterMs,
        seconds laterMs < seconds nowMs + access_lifetime env (p_isAdmin decoded) →
        Jwt.verify access (access_secret env (p_isAdmin decoded)) (seconds laterMs)
        = inl p.
Proof.
  intros Hv Hu Hs.
  assert (Hwf : well_formed t decoded ∨ ∃ d, well_formed t d).
  { destruct (classic_wf t) as [Hwf|Hno]; [by right|].
    destruct (verifyRefreshToken_malformed env nowMs t r Hno) as (e & He & _).
    congruence. }
  assert (∃ d, well_formed t d) as [d Hd] by (destruct Hwf; eauto). clear Hwf.
  pose proof Hd as (Hdec & _ & Hid).
  assert (d = decoded) as ->.
  { rewrite (verifyRefreshToken_well_formed _ _ _ _ _ Hd) in Hv.
    destruct (isReady r); [|done].
    destruct (live _ _ _) as [[[[s|td|l]|h] ex]|]; try done.
    case_decide; [|done].
    destruct (Jwt.verify _ _ _) as [q|e] eqn:Hq; [|done].
    injection Hv as ->. symmetry. by eapply verify_inl. }
  unfold controller_handleRefreshToken, service_handleRefreshToken.
  rewrite (decoded_not_empty _ _ Hdec).
  unfold try_catch, mbind, M_bind. rewrite Hv, Hu.
  unfold generateAccessToken, Jwt.sign.
  fold (access_secret env (p_isAdmin decoded)).
  fold (access_lifetime env (p_isAdmin decoded)). rewrite Hs.
  eexists _, _. split; [done|]. split; [done|]. cbn [Jwt.decode].
  split; [done|]. cbn [p_isAdmin p_role p_user role_of u_role user_id_of u_id u__id].
  split; [done|]. split; [done|]. split.
  - rewrite Hu in Hid. cbn [user_id_of] in Hid.
    unfold Js.or at 1. by rewrite Hid.
  - intros laterMs Hlt. cbn [Jwt.verify p_exp p_iat option_map]. rewrite Hs.
    cbn [negb]. rewrite String.eqb_refl. cbn [negb].
    by destruct (Z.leb_spec (seconds nowMs + access_lifetime env (p_isAdmin decoded))
                   (seconds laterMs)); [lia|].
Qed.

Lemma revokeRefreshToken_returns nowMs t r :
  ∃ b r',
    revokeRefreshToken nowMs t r = (Ok b, r')
    ∧ isReady r' = isReady r
    ∧ (isReady r = false → r' = r).
Proof.
  unfold revokeRefreshToken.
  destruct (Jwt.decode t) as [decoded|]; [|by eexists _, _].
  destruct (negb (Js.truthy (p_jti decoded))); [by eexists _, _|].
  destruct (negb (Js.truthy (Js.or _ _))); [by eexists _, _|].
  destruct r as [[] d]; unfold_store; cbn -[live]; [|by eexists _, _].
  destruct (live _ _ _) as [[[s|h] ex]|]; cbn -[live]; [by eexists _, _| |by eexists _, _].
  case_decide; cbn -[live]; by eexists _, _.
Qed.

Lemma revokeAll_returns nowMs userId r :
  ∃ b r',
    revokeAllUserRefreshTokens nowMs userId r = (Ok b, r')
    ∧ isReady r' = isReady r
    ∧ (isReady r = false → r' = r).
Proof.
  unfold revokeAllUserRefreshTokens, Redis.hGetAll.
  destruct r as [[] d]; unfold try_catch; unfold mbind at 1, M_bind at 1;
    unfold_store; cbn -[live del_each]; [|by eexists _, _].
  destruct (live _ _ _) as [[[s|h] ex]|]; cbn -[live del_each]; [by eexists _, _|..].
  - destruct (del_each_ready nowMs userId (map_to_list h).*1 d) as [d' ->].
    cbn -[live]. by eexists _, _.
  - rewrite map_to_list_empty. cbn -[live]. by eexists _, _.
Qed.

Lemma blacklistAccessToken_returns nowMs t r :
  ∃ b r',
    blacklistAccessToken env sha256_hex nowMs t r = (Ok b, r')
    ∧ isReady r' = isReady r
    ∧ (isReady r = false → r' = r)
    ∧ (∀ k, k ≠ blacklistKey sha256_hex t → db r' !! k = db r !! k).
Proof.
  rewrite blacklistAccessToken_run.
  destruct (match Jwt.verify t (ACCESS_TOKEN_SECRET env) _ with
            | inl i => inl i | inr _ => _ end); [|by eexists _, _].
  destruct (isReady r) eqn:Hr; eexists _, _; (split; [reflexivity|]);
    (split; [first [done | exact Hr]|]); (split; [done|]);
    intros k Hk; cbn [db]; by rewrite ?lookup_insert_ne.
Qed.

Lemma service_handleLogout_returns nowMs userId accessToken refreshToken r :
  ∃ r',
    service_handleLogout env sha256_hex nowMs userId accessToken refreshToken r
    = (Ok (), r')
    ∧ isReady r' = isReady r
    ∧ (isReady r = false → r' = r).
Proof.
  unfold service_handleLogout, try_catch. unfold mbind at 1, M_bind at 1.
  assert (H1 : ∃ r1,
            (if present accessToken
             then _ ← blacklistAccessToken env sha256_hex nowMs
                        (default (Malformed "") accessToken); mret ()
             else mret ()) r = (Ok (), r1)
            ∧ isReady r1 = isReady r ∧ (isReady r = false → r1 = r)).
  { destruct (present accessToken); [|by eexists].
    destruct (blacklistAccessToken_returns nowMs (default (Malformed "") accessToken) r)
      as (b & r1 & Hb & ? & ? & _).
    unfold mbind, M_bind. rewrite Hb. by eexists. }
  destruct H1 as (r1 & -> & Hr1 & Hdown1).
  destruct (present refreshToken).
  - destruct (revokeRefreshToken_returns nowMs (default (Malformed "") refreshToken) r1)
      as (b & r2 & Hb & Hr2 & Hdown2).
    unfold mbind, M_bind. rewrite Hb. eexists. split; [done|].
    split; [congruence|]. intros Hr. rewrite Hdown2, Hdown1; [done..|congruence].
  - destruct (Js.truthy userId).
    + destruct (revokeAll_returns nowMs (Js.template userId) r1)
        as (b & r2 & Hb & Hr2 & Hdown2).
      unfold mbind, M_bind. rewrite Hb. eexists. split; [done|].
      split; [congruence|]. intros Hr. rewrite Hdown2, Hdown1; [done..|congruence].
    + eexists. split; [done|]. split; [done|]. done.
Qed.

(** X17. Logout always answers 200 "Đăng xuất thành công": none of the
    three revocation calls throws, so the 500 branch of the service is
    never taken.  In particular it answers 200 while the store is
    unreachable, when nothing has been revoked. *)
Theorem logout_always_answers_200
    nowMs user token refreshCookie adminRefreshCookie r :
  ∃ r',
    controller_handleLogout env sha256_hex nowMs user token refreshCookie
      adminRefreshCookie r
    = (Response 200 (Message "Đăng xuất thành công"), r')
    ∧ (isReady r = false → r' = r).
Proof.
  unfold controller_handleLogout.
  destruct (service_handleLogout_returns nowMs (req_user_id user) token
              (if present refreshCookie then refreshCookie else adminRefreshCookie) r)
    as (r' & -> & _ & Hdown).
  by eexists.
Qed.

(** On a reachable store [revokeRefreshToken] removes the record of a
    well-formed token even when it goes on to report failure, and touches
    nothing but that record and the index of the token's subject. *)
Lemma revokeRefreshToken_ready_removes nowMs t decoded d :
  well_formed t decoded →
  ∃ b d',
    revokeRefreshToken nowMs t (RedisState true d) = (Ok b, RedisState true d')
    ∧ d' !! registry_key t = None
    ∧ (∀ k, k ≠ registry_key t → k ≠ userTokensKey (subject_of t) →
         d' !! k = d !! k).
Proof.
  intros (Hd & Hj & Hu).
  unfold registry_key, subject_of, jti_of, revokeRefreshToken. rewrite Hd, Hj.
  unfold Js.or. rewrite Hu. cbn [negb]. rewrite Hu. cbn [negb].
  generalize (tokenKey (Js.template (user_id_of (p_user decoded)))
                (Js.template (p_jti decoded))) as key.
  generalize (userTokensKey (Js.template (user_id_of (p_user decoded)))) as index.
  generalize (Js.template (p_jti decoded)) as jti.
  intros jti index key. unfold_store. cbn -[live].
  destruct (live nowMs (delete key d) index) as [[[s|h] ex]|] eqn:Hl; cbn -[live].
  - eexists _, _. split; [done|]. split; [apply lookup_delete_eq|].
    intros k Hk _. by rewrite lookup_delete_ne.
  - apply live_Some in Hl.
    assert (Hne : index ≠ key) by (intros ->; by rewrite lookup_delete_eq in Hl).
    case_decide; cbn -[live]; eexists _, _; (split; [done|]); split.
    + by rewrite lookup_delete_ne, lookup_delete_eq.
    + intros k Hk Hi. by rewrite !lookup_delete_ne.
    + by rewrite lookup_insert_ne, lookup_delete_eq.
    + intros k Hk Hi. by rewrite lookup_insert_ne, lookup_delete_ne.
  - eexists _, _. split; [done|]. split; [apply lookup_delete_eq|].
    intros k Hk _. by rewrite lookup_delete_ne.
Qed.

(** X18. A logout that presents the access token and the refresh cookie,
    on a reachable store, ends the session: afterwards [userMiddleware]
    never lets the access token through, and the refresh endpoint answers
    403 for the refresh token. *)
Theorem logout_ends_session
    nowMs user access p refresh decoded adminRefreshCookie r :
  isReady r = true →
  Jwt.verify access (ACCESS_TOKEN_SECRET env) (seconds nowMs) = inl p →
  well_formed refresh decoded →
  ∃ r',
    controller_handleLogout env sha256_hex nowMs user (Some access)
      (Some refresh) adminRefreshCookie r
    = (Response 200 (Message "Đăng xuất thành công"), r')
    ∧ (∀ laterMs authHeader,
         carries authHeader access →
         ∃ st message,
           userMiddleware env sha256_hex laterMs authHeader r'
           = (Ok (MwResult (Respond st message) DefaultUser None), r')
           ∧ (st = 401 ∨ st = 403))
    ∧ (∀ laterMs,
         controller_handleRefreshToken env laterMs (Some refresh) r'
         = (refresh_rejected, r')).
Proof.
  intros Hready Hv Hwf. destruct r as [ready d]. cbn in Hready. subst ready.
  pose proof Hwf as (Hdec & _ & _).
  apply verify_inl_iff in Hv as Hacc. destruct Hacc as (_ & Hacc & _).
  assert (Hdeca : Jwt.decode access = Some p) by (by rewrite Hacc).
  unfold controller_handleLogout, service_handleLogout, try_catch.
  cbn [present default id].
  rewrite (decoded_not_empty _ _ Hdeca), (decoded_not_empty _ _ Hdec).
  cbn [negb present default id]. rewrite (decoded_not_empty _ _ Hdec). cbn [negb].
  unfold mbind, M_bind, mret, M_ret.
  rewrite blacklistAccessToken_run, Hv. cbn [isReady db].
  set (d1 := <[blacklistKey sha256_hex access := _]> d).
  destruct (revokeRefreshToken_ready_removes nowMs refresh decoded d1 Hwf)
    as (b & d2 & Hrun & Hgone & Hframe).
  cbv beta iota. rewrite Hrun. cbv beta iota.
  eexists. split; [done|]. split.
  - intros laterMs authHeader Hcar.
    eapply (ledger_entry_rejects env sha256_hex nowMs laterMs authHeader access p);
      [done|done|..|done].
    cbn [db]. destruct (ledger_key_apart access (subject_of refresh) (jti_of refresh))
      as [Hk1 Hk2].
    rewrite Hframe by done. unfold d1. by rewrite lookup_insert_eq.
  - intros laterMs.
    unfold controller_handleRefreshToken, service_handleRefreshToken.
    rewrite (decoded_not_empty _ _ Hdec).
    assert (Hun : ¬ registered d2 (registry_key refresh) refresh).
    { intros (e & td & He & _). by rewrite Hgone in He. }
    destruct (unregistered_fails env refresh laterMs (RedisState true d2) Hun)
      as [e He].
    unfold try_catch, mbind, M_bind, throw. by rewrite He.
Qed.

Lemma access_token_has_no_id user isAdmin issuedMs access p :
  generateAccessToken env user isAdmin issuedMs = Some access →
  Jwt.decode access = Some p → p_id p = None.
Proof.
  unfold generateAccessToken, Jwt.sign. destruct (Js.truthy _); [|done].
  by intros [= <-] [= <-].
Qed.

(** X19. The payload of an access token has no top-level [id], so on the
    logout route [req.user.id] is undefined and the branch that revokes
    all refresh tokens of the user is never taken.  A logout without a
    refresh cookie writes at most the ledger entry of the access token,
    and every refresh token that was accepted before is accepted after. *)
Theorem logout_without_cookie_keeps_refresh_tokens
    user isAdmin issuedMs access p nowMs r :
  generateAccessToken env user isAdmin issuedMs = Some access →
  Jwt.decode access = Some p →
  ∃ r',
    controller_handleLogout env sha256_hex nowMs (Verified p) (Some access)
      None None r
    = (Response 200 (Message "Đăng xuất thành công"), r')
    ∧ (∀ k, k ≠ blacklistKey sha256_hex access → db r' !! k = db r !! k)
    ∧ (∀ laterMs t verified,
         verifyRefreshToken env laterMs t r = (Ok verified, r) →
         verifyRefreshToken env laterMs t r' = (Ok verified, r')).
Proof.
  intros Hgen Hdec.
  unfold controller_handleLogout, service_handleLogout, try_catch.
  cbn [req_user_id present]. rewrite (access_token_has_no_id _ _ _ _ _ Hgen Hdec).
  cbn [Js.truthy]. rewrite (decoded_not_empty _ _ Hdec). cbn [negb default id].
  destruct (blacklistAccessToken_returns nowMs access r)
    as (b & r' & Hb & Hready & _ & Hframe).
  unfold mbind, M_bind. rewrite Hb. cbn.
  eexists. split; [done|]. split; [done|].
  intros laterMs t verified Hv.
  apply (verifyRefreshToken_frame laterMs t r r'); [done| |done].
  apply Hframe, not_eq_sym, ledger_key_apart.
Qed.

End sessions.

(** ** One-time codes: issue, replacement and outage *)

Section otp_flow.

Lemma saveOTP_ready saveMs userId purpose code d :
  userId ≠ "" → purpose ≠ "" →
  saveOTP saveMs (Some userId) (Some purpose) code (RedisState true d)
  = (Ok (generateOTP code),
     RedisState true
       (<[getOTPRedisKey userId purpose :=
            Entry (RString (Plain (generateOTP code)))
                  (Some (saveMs + OTP_EXPIRY_SECONDS * 1000))]> d)).
Proof.
  intros Hu Hp. unfold saveOTP. apply truthy_Some in Hu, Hp. rewrite Hu, Hp.
  cbn [negb Js.template]. unfold Redis.set. unfold_store. done.
Qed.

Lemma generateOTP_inj code1 code2 : generateOTP code1 = generateOTP code2 → code1 = code2.
Proof.
  unfold generateOTP. intros H.
  pose proof (integer_of_number_to_string code1) as H1.
  rewrite H, integer_of_number_to_string in H1. congruence.
Qed.

(** X20. A code saved on a reachable store is accepted once at any
    instant within the next 600 seconds and refused from then on. *)
Theorem otp_round_trip saveMs nowMs userId purpose code r :
  isReady r = true → userId ≠ "" → purpose ≠ "" →
  ∃ r1,
    saveOTP saveMs (Some userId) (Some purpose) code r = (Ok (generateOTP code), r1)
    ∧ (nowMs < saveMs + OTP_EXPIRY_SECONDS * 1000 →
       (verifyOTP nowMs (Some userId) (Some (generateOTP code)) (Some purpose) r1).1
       = Ok true)
    ∧ (saveMs + OTP_EXPIRY_SECONDS * 1000 ≤ nowMs →
       verifyOTP nowMs (Some userId) (Some (generateOTP code)) (Some purpose) r1
       = (Ok false, r1)).
Proof.
  intros Hr Hu Hp. destruct r as [ready d]. cbn in Hr. subst ready.
  rewrite saveOTP_ready by done. eexists. split; [done|]. split.
  - intros Hlt. erewrite verifyOTP_match; try done.
    + cbn [db]. apply lookup_insert_eq.
    + unfold expired. cbn [e_expireAt].
      by destruct (Z.leb_spec (saveMs + OTP_EXPIRY_SECONDS * 1000) nowMs); [lia|].
    + apply number_to_string_nonempty.
  - intros Hle. unfold verifyOTP.
    apply truthy_Some in Hu, Hp. rewrite Hu, Hp.
    pose proof (number_to_string_nonempty code) as Hc. apply truthy_Some in Hc.
    fold (generateOTP code) in Hc. rewrite Hc. cbn [negb orb Js.template].
    unfold_store. cbn -[live Z.mul]. unfold live. rewrite lookup_insert_eq.
    unfold expired. cbn [e_expireAt].
    by destruct (Z.leb_spec (saveMs + OTP_EXPIRY_SECONDS * 1000) nowMs); [|lia].
Qed.

(** X21. Requesting a new code invalidates the one sent before: after two
    saves for the same user and purpose only the second code is accepted,
    and presenting the first one leaves the second in place. *)
Theorem newer_otp_replaces_older saveMs1 saveMs2 nowMs userId purpose code1 code2 r :
  isReady r = true → userId ≠ "" → purpose ≠ "" →
  code1 ≠ code2 →
  nowMs < saveMs2 + OTP_EXPIRY_SECONDS * 1000 →
  ∃ r1 r2,
    saveOTP saveMs1 (Some userId) (Some purpose) code1 r = (Ok (generateOTP code1), r1)
    ∧ saveOTP saveMs2 (Some userId) (Some purpose) code2 r1
      = (Ok (generateOTP code2), r2)
    ∧ verifyOTP nowMs (Some userId) (Some (generateOTP code1)) (Some purpose) r2
      = (Ok false, r2)
    ∧ (verifyOTP nowMs (Some userId) (Some (generateOTP code2)) (Some purpose) r2).1
      = Ok true.
Proof.
  intros Hr Hu Hp Hne Hlt. destruct r as [ready d]. cbn in Hr. subst ready.
  rewrite saveOTP_ready by done. eexists _, _. split; [done|].
  rewrite saveOTP_ready by done. split; [done|]. split.
  - eapply verifyOTP_mismatch; [cbn [db]; apply lookup_insert_eq|].
    intros [= H]. by apply generateOTP_inj in H.
  - erewrite verifyOTP_match; try done.
    + cbn [db]. apply lookup_insert_eq.
    + unfold expired. cbn [e_expireAt].
      by destruct (Z.leb_spec (saveMs2 + OTP_EXPIRY_SECONDS * 1000) nowMs); [lia|].
    + apply number_to_string_nonempty.
Qed.

Lemma checkRateLimit_returns nowMs identifier maxAttempts windowSeconds r :
  ∃ b r',
    checkRateLimit nowMs identifier maxAttempts windowSeconds r = (Ok b, r')
    ∧ isReady r' = isReady r
    ∧ (b = false → r' = r)
    ∧ (isReady r = false → b = true ∧ r' = r).
Proof.
  destruct (checkRateLimit nowMs identifier maxAttempts windowSeconds r)
    as [res r'] eqn:E.
  enough (∃ b, res = Ok b ∧ isReady r' = isReady r ∧ (b = false → r' = r)
               ∧ (isReady r = false → b = true ∧ r' = r))
    as (b & -> & ?) by (by exists b, r').
  revert E. unfold checkRateLimit.
  generalize (getRateLimitKey identifier) as key. intros key.
  destruct r as [[] d]; unfold Redis.get; unfold try_catch;
    unfold mbind at 1, M_bind at 1; unfold_store; simp_store;
    [|by intros [= <- <-]; eexists].
  destruct (live nowMs d key) as [[[s|h] ex]|] eqn:Hl; simp_store.
  2:{ by intros [= <- <-]; eexists. }
  - destruct (match parseInt_attempts (or_zero (Some s)) with
              | Some n => maxAttempts <=? n | None => false end);
      [by intros [= <- <-]; eexists|].
    destruct s as [s|td|l]; simp_store; rewrite Hl; simp_store;
      [|by intros [= <- <-]; eexists..].
    destruct (integer_of s); simp_store; [|by intros [= <- <-]; eexists].
    destruct (or_zero (Some (Plain s))); simp_store;
      [by intros [= <- <-]; eexists|].
    unfold live. rewrite lookup_insert_eq.
    destruct (expired nowMs _); simp_store; [by intros [= <- <-]; eexists|].
    destruct (windowSeconds <=? 0); by intros [= <- <-]; eexists.
  - change (or_zero None) with (@None rstring). simp_store.
    destruct (maxAttempts <=? 0); [by intros [= <- <-]; eexists|].
    simp_store. rewrite Hl. simp_store.
    unfold live. rewrite lookup_insert_eq. simp_store.
    destruct (windowSeconds <=? 0); by intros [= <- <-]; eexists.
Qed.

(** X22. [checkRateLimit] never throws; a request it refuses leaves the
    store exactly as it was, so refused requests do not prolong the
    window; and while the store is unreachable it lets every request
    through. *)
Theorem checkRateLimit_outcome nowMs identifier maxAttempts windowSeconds r :
  ∃ b r',
    checkRateLimit nowMs identifier maxAttempts windowSeconds r = (Ok b, r')
    ∧ (b = false → r' = r)
    ∧ (isReady r = false → b = true ∧ r' = r).
Proof.
  destruct (checkRateLimit_returns nowMs identifier maxAttempts windowSeconds r)
    as (b & r' & H & _ & ?). by exists b, r'.
Qed.

(** X23. While the store is unreachable no code can be issued or
    redeemed: [saveOTP] throws "Không thể lưu mã OTP" and [verifyOTP]
    answers [false] for every code, both leaving the store as it was. *)
Theorem otp_service_outage nowMs userId purpose otp code r :
  isReady r = false → userId ≠ "" → purpose ≠ "" →
  saveOTP nowMs (Some userId) (Some purpose) code r
  = (Throw (Error "Không thể lưu mã OTP"), r)
  ∧ verifyOTP nowMs (Some userId) otp (Some purpose) r = (Ok false, r).
Proof.
  intros Hr Hu Hp. destruct r as [ready d]. cbn in Hr. subst ready.
  apply truthy_Some in Hu, Hp. split.
  - unfold saveOTP. rewrite Hu, Hp. done.
  - unfold verifyOTP. rewrite Hu, Hp. cbn [negb orb].
    by destruct (negb (Js.truthy otp)).
Qed.

End otp_flow.

(** ** The token service while the store is unreachable *)

Section outage.
Context (env : process_env) (sha256_hex : token → string).

(** X24. While the store is unreachable nothing is saved, verified or
    revoked: [saveRefreshToken] and [verifyRefreshToken] throw, the two
    revocations and [blacklistAccessToken] report [false], and
    [isTokenBlacklisted] answers [false] for every token; the store is
    left as it was. *)
Theorem token_service_outage nowMs userId t flag r :
  isReady r = false →
  (∃ e, saveRefreshToken nowMs userId t flag r = (Throw e, r))
  ∧ (∃ e, verifyRefreshToken env nowMs t r = (Throw e, r))
  ∧ revokeRefreshToken nowMs t r = (Ok false, r)
  ∧ revokeAllUserRefreshTokens nowMs userId r = (Ok false, r)
  ∧ blacklistAccessToken env sha256_hex nowMs t r = (Ok false, r)
  ∧ isTokenBlacklisted sha256_hex nowMs t r = (Ok false, r).
Proof.
  intros Hr. destruct r as [ready d]. cbn in Hr. subst ready.
  split; [|split; [|split; [|split; [|split]]]].
  - unfold saveRefreshToken. destruct (Jwt.decode t) as [p|]; [|by eexists].
    destruct (match option_map _ _ with Some _ => _ | None => _ end); by eexists.
  - destruct (classic_wf t) as [[decoded Hwf]|Hno].
    + rewrite (verifyRefreshToken_well_formed _ _ _ _ _ Hwf). by eexists.
    + destruct (verifyRefreshToken_malformed env nowMs t (RedisState false d) Hno)
        as (e & He & _). by eexists.
  - unfold revokeRefreshToken. destruct (Jwt.decode t) as [p|]; [|done].
    destruct (negb (Js.truthy (p_jti p))); [done|].
    by destruct (negb (Js.truthy (Js.or _ _))).
  - done.
  - rewrite blacklistAccessToken_run. cbn [isReady].
    by destruct (match Jwt.verify t (ACCESS_TOKEN_SECRET env) _ with
                 | inl i => inl i | inr _ => _ end).
  - by rewrite isTokenBlacklisted_spec.
Qed.

End outage.

(** ** Sending one-time codes *)

Section delivery.
Context (parseEmail parsePhone : string → result string)
        (findByEmail : string → result (option user_doc))
        (findByEmailOrPhone : string → string → result (option user_doc))
        (sendOTPEmail : string → string → string → result unit).

Local Abbreviation sendLogin :=
  (service_sendLoginOTP parseEmail parsePhone findByEmailOrPhone sendOTPEmail).
Local Abbreviation sendReset :=
  (service_sendPasswordResetOTP parseEmail findByEmail sendOTPEmail).

(** Whatever goes wrong inside the two services, the caller sees one
    fixed error. *)
Lemma service_sendLoginOTP_throws nowMs email phoneNumber code r e r' :
  negb (Js.truthy email) && negb (Js.truthy phoneNumber) = false →
  sendLogin nowMs email phoneNumber code r = (Throw e, r') →
  e = Error "Không thể gửi mã OTP đăng nhập".
Proof.
  intros Hg. unfold service_sendLoginOTP. rewrite Hg. unfold try_catch, throw.
  match goal with
  | |- (let (_, _) := ?m in _) = _ → _ => destruct m as [[[]|e0] r0]
  end; [done|]. by intros [= <- _].
Qed.

Lemma service_sendPasswordResetOTP_throws nowMs email code r e r' :
  Js.truthy email = true →
  sendReset nowMs email code r = (Throw e, r') →
  e = Error "Không thể gửi mã OTP đặt lại mật khẩu".
Proof.
  intros Hg. unfold service_sendPasswordResetOTP. rewrite Hg. cbn [negb].
  unfold try_catch, throw.
  match goal with
  | |- (let (_, _) := ?m in _) = _ → _ => destruct m as [[[]|e0] r0]
  end; [done|]. by intros [= <- _].
Qed.

(** X25. The login-code endpoint never answers 404.  The service reports
    every failure, an unknown user included, as one fixed error, which the
    controller's test for "Không tìm thấy người dùng" does not match: the
    answers are 200, 400, 429 and 500, a request for an unknown user gets
    500 unless it is refused earlier, and a refused request (400, 429)
    leaves the store as it was. *)
Theorem sendLoginOTP_never_answers_404 nowMs email phoneNumber code r :
  ∃ answer r',
    controller_sendLoginOTP parseEmail parsePhone findByEmailOrPhone sendOTPEmail
      nowMs email phoneNumber code r = (answer, r')
    ∧ (status answer = 200 ∨ status answer = 400
       ∨ status answer = 429 ∨ status answer = 500)
    ∧ (status answer = 400 ∨ status answer = 429 → r' = r)
    ∧ ((∀ e p, findByEmailOrPhone e p = Ok None) →
       status answer = 400 ∨ status answer = 429
       ∨ answer = Response 500 (Message "Có lỗi xảy ra khi gửi mã OTP")).
Proof.
  destruct (controller_sendLoginOTP _ _ _ _ nowMs email phoneNumber code r)
    as [resp r'] eqn:E.
  exists resp, r'. split; [done|]. revert E. unfold controller_sendLoginOTP.
  destruct (negb (Js.truthy email) && negb (Js.truthy phoneNumber)) eqn:Hg.
  { intros [= <- <-]. cbn. split; [by right; left|]. split; [done|].
    intros _. by left. }
  unfold mbind at 1, M_bind at 1.
  destruct (checkRateLimit_returns nowMs (Js.template (Js.or email phoneNumber)) 3 600 r)
    as (b & r1 & -> & _ & Hsame & _).
  destruct b.
  2:{ rewrite (Hsame eq_refl). intros [= <- <-]. cbn.
      split; [by right; right; left|]. split; [done|]. intros _. by right; left. }
  unfold mbind, M_bind.
  destruct (service_sendLoginOTP _ _ _ _ nowMs email phoneNumber code r1)
    as [[[]|e] r2] eqn:Hs.
  - intros [= <- <-]. cbn. split; [by left|]. split; [by intros [|]|].
    intros Hnone. exfalso. revert Hs. unfold service_sendLoginOTP. rewrite Hg.
    unfold try_catch, throw, lift, mbind, M_bind, mret, M_ret.
    destruct (Js.truthy email).
    + destruct (parseEmail _) as [v|]; [|by intros [=]]. cbn [negb andb].
      destruct (negb (Js.truthy (Some v)) && _); [by intros [=]|]. rewrite Hnone. by intros [=].
    + cbn [negb]. destruct (parsePhone _) as [v|]; [|by intros [=]].
      destruct (negb (Js.truthy None) && _); [by intros [=]|]. rewrite Hnone.
      by intros [=].
  - rewrite (service_sendLoginOTP_throws _ _ _ _ _ _ _ Hg Hs).
    intros [= <- <-]. cbn.
    split; [by right; right; right|]. split; [by intros [|]|].
    intros _. by right; right.
Qed.

(** X26. The password-reset endpoint never gives its account-neutral
    answer "Nếu email tồn tại, mã OTP sẽ được gửi".  The service reports an
    unknown email as the same fixed error as every other failure, so the
    controller's test for it does not match: a request for an unknown
    email gets 500 unless it is refused earlier, and a refused request
    (400, 429) leaves the store as it was. *)
Theorem sendPasswordResetOTP_reveals_unknown_email nowMs email code r :
  ∃ answer r',
    controller_sendPasswordResetOTP parseEmail findByEmail sendOTPEmail
      nowMs email code r = (answer, r')
    ∧ json answer ≠ Message "Nếu email tồn tại, mã OTP sẽ được gửi"
    ∧ (status answer = 400 ∨ status answer = 429 → r' = r)
    ∧ ((∀ e, findByEmail e = Ok None) →
       status answer = 400 ∨ status answer = 429
       ∨ answer = Response 500 (Message "Có lỗi xảy ra khi gửi mã OTP")).
Proof.
  destruct (controller_sendPasswordResetOTP _ _ _ nowMs email code r)
    as [resp r'] eqn:E.
  exists resp, r'. split; [done|]. revert E. unfold controller_sendPasswordResetOTP.
  destruct (Js.truthy email) eqn:Hg; cbn [negb].
  2:{ intros [= <- <-]. cbn. split; [done|]. split; [done|]. intros _. by left. }
  unfold mbind at 1, M_bind at 1.
  destruct (checkRateLimit_returns nowMs (Js.template email) 2 1800 r)
    as (b & r1 & -> & _ & Hsame & _).
  destruct b.
  2:{ rewrite (Hsame eq_refl). intros [= <- <-]. cbn. split; [done|].
      split; [done|]. intros _. by right; left. }
  unfold mbind, M_bind.
  destruct (service_sendPasswordResetOTP _ _ _ nowMs email code r1)
    as [[[]|e] r2] eqn:Hs.
  - intros [= <- <-]. cbn. split; [done|]. split; [by intros [|]|].
    intros Hnone. exfalso. revert Hs. unfold service_sendPasswordResetOTP.
    rewrite Hg. cbn [negb].
    unfold try_catch, throw, lift, mbind, M_bind, mret, M_ret.
    destruct (parseEmail _) as [v|]; [|by intros [=]]. rewrite Hnone. by intros [=].
  - rewrite (service_sendPasswordResetOTP_throws _ _ _ _ _ _ Hg Hs).
    intros [= <- <-]. cbn.
    split; [done|]. split; [by intros [|]|]. intros _. by right; right.
Qed.

(** X27. When a login code is requested by email for a registered user,
    within the rate limit and on a reachable store, and the mail goes out,
    the endpoint answers 200 and the code that was mailed is accepted by
    [verifyOTP] for that user and the purpose [login] during the next 600
    seconds. *)
Theorem login_code_is_redeemable nowMs laterMs email code user r :
  isReady r = true →
  email ≠ "" →
  parseEmail email = Ok email →
  findByEmailOrPhone email "" = Ok (Some user) →
  doc__id user ≠ "" →
  Js.truthy (doc_email user) = true →
  sendOTPEmail (Js.template (doc_email user)) (generateOTP code) "login" = Ok () →
  (checkRateLimit nowMs email 3 600 r).1 = Ok true →
  laterMs < nowMs + OTP_EXPIRY_SECONDS * 1000 →
  ∃ r',
    controller_sendLoginOTP parseEmail parsePhone findByEmailOrPhone sendOTPEmail
      nowMs (Some email) None code r
    = (Response 200 (Message "Mã OTP đã được gửi thành công"), r')
    ∧ (verifyOTP laterMs (Some (doc__id user)) (Some (generateOTP code))
         (Some "login") r').1 = Ok true.
Proof.
  intros Hr He Hparse Hfind Hid Hmail Hsend Hlimit Hlater.
  apply truthy_Some in He as Het.
  destruct (checkRateLimit_returns nowMs email 3 600 r)
    as (b & r1 & Hc & Hready & _ & _).
  rewrite Hc in Hlimit. cbn in Hlimit. injection Hlimit as ->.
  destruct r1 as [ready d1]. rewrite Hr in Hready. cbn in Hready. subst ready.
  assert (Hrun :
    controller_sendLoginOTP parseEmail parsePhone findByEmailOrPhone sendOTPEmail
      nowMs (Some email) None code r
    = (Response 200 (Message "Mã OTP đã được gửi thành công"),
       RedisState true
         (<[getOTPRedisKey (doc__id user) "login" :=
              Entry (RString (Plain (generateOTP code)))
                    (Some (nowMs + OTP_EXPIRY_SECONDS * 1000))]> d1))).
  { unfold controller_sendLoginOTP. rewrite Het. cbn [negb andb].
    unfold Js.or. rewrite Het. cbn [Js.template].
    unfold mbind at 1, M_bind at 1. rewrite Hc.
    unfold service_sendLoginOTP. rewrite Het. cbn [negb andb Js.template].
    unfold try_catch, lift, mbind, M_bind, mret, M_ret. rewrite Hparse.
    rewrite Het. cbn [negb andb].
    unfold or_empty. rewrite Het. cbn [Js.truthy Js.template]. rewrite Hfind.
    rewrite saveOTP_ready by done. rewrite Hmail. cbn [andb].
    unfold sendOTPByEmail, try_catch, lift, mbind, M_bind, mret, M_ret.
    by rewrite Hsend. }
  rewrite Hrun. eexists. split; [done|].
  erewrite verifyOTP_match; try done.
  - cbn [db]. apply lookup_insert_eq.
  - unfold expired. cbn [e_expireAt].
    by destruct (Z.leb_spec (nowMs + OTP_EXPIRY_SECONDS * 1000) laterMs); [lia|].
  - apply number_to_string_nonempty.
Qed.

End delivery.

(** ** The further properties on concrete data *)

Section further_examples.
Import Sample Fixtures.

Lemma adminMiddleware_blocks_with_separate_secret_witness :
  ∃ res st message,
    adminMiddleware env sha256_hex (t0 + 10) (HBearer admin_access) empty
    = (Ok res, empty)
    ∧ mw_outcome res = Respond st message
    ∧ (st = 401 ∨ st = 403).
Proof.
  apply (adminMiddleware_blocks_with_separate_secret env sha256_hex (t0 + 10)
           (HBearer admin_access) empty "adm-access");
    [reflexivity|discriminate|discriminate].
Defined.

Lemma admin_token_is_refused_by_userMiddleware_witness :
  userMiddleware env sha256_hex (t0 + 10) (HBearer admin_access) empty
  = (Ok (MwResult (Respond 403 "Invalid token") DefaultUser None), empty).
Proof.
  apply (admin_token_is_refused_by_userMiddleware env sha256_hex root t0
           admin_access (t0 + 10) (HBearer admin_access) empty "adm-access");
    [reflexivity|discriminate|discriminate|reflexivity|].
  split; [by left|reflexivity].
Defined.

Lemma saved_refresh_token_verifies_witness :
  ∃ r' decoded,
    saveRefreshToken t0 (subject_of refresh1) refresh1 false empty = (Ok (), r')
    ∧ verifyRefreshToken env (t0 + 3600000) refresh1 r' = (Ok decoded, r')
    ∧ Jwt.decode refresh1 = Some decoded
    ∧ carries_identity decoded alice false.
Proof.
  apply (saved_refresh_token_verifies env alice false false t0 7 refresh1 t0
           (t0 + 3600000) empty);
    try reflexivity.
  intros s ex. vm_compute. discriminate.
Defined.

Lemma saved_refresh_token_lapses_witness :
  ∃ r',
    saveRefreshToken t0 (subject_of refresh1) refresh1 false empty = (Ok (), r')
    ∧ live (t0 + 8 * 86400000) (db r') (registry_key refresh1) = None
    ∧ verifyRefreshToken env (t0 + 8 * 86400000) refresh1 r'
      = (Throw not_found_error, r').
Proof.
  apply (saved_refresh_token_lapses env alice false false t0 7 refresh1 t0
           (t0 + 8 * 86400000) empty);
    try reflexivity.
  - intros s ex. vm_compute. discriminate.
  - vm_compute. discriminate.
Defined.

Lemma revokeAll_misses_long_lived_token_witness :
  ∃ r1 r2 decoded,
    saveRefreshToken t0 (subject_of long_refresh) long_refresh false empty
    = (Ok (), r1)
    ∧ revokeAllUserRefreshTokens (t0 + 15 * 86400000) (subject_of long_refresh) r1
      = (Ok true, r2)
    ∧ verifyRefreshToken env_long (t0 + 16 * 86400000) long_refresh r2
      = (Ok decoded, r2).
Proof.
  apply (revokeAll_misses_long_lived_token env_long alice false false t0 7
           long_refresh t0 (t0 + 15 * 86400000) (t0 + 16 * 86400000) empty);
    try reflexivity.
  - intros s ex. vm_compute. discriminate.
  - vm_compute. discriminate.
Defined.

Lemma revokeRefreshToken_idempotent_witness :
  revokeRefreshToken (t0 + 20) refresh1 after_revoke = (Ok true, after_revoke).
Proof.
  apply (revokeRefreshToken_idempotent (t0 + 10) (t0 + 20) refresh1 two_sessions
           after_revoke).
  - vm_compute. discriminate.
  - vm_compute. reflexivity.
Defined.

Lemma revokeAll_removes_listed_records_witness :
  ∃ r',
    revokeAllUserRefreshTokens (t0 + 10) "u1" two_sessions = (Ok true, r')
    ∧ isReady r' = true
    ∧ db r' !! userTokensKey "u1" = None
    ∧ (∀ jti,
         is_Some (hash_at (t0 + 10) (db two_sessions) (userTokensKey "u1") !! jti) →
         db r' !! tokenKey "u1" jti = None)
    ∧ (∀ k, k ≠ userTokensKey "u1" →
         (∀ jti,
            is_Some (hash_at (t0 + 10) (db two_sessions) (userTokensKey "u1") !! jti) →
            k ≠ tokenKey "u1" jti) →
         db r' !! k = db two_sessions !! k).
Proof.
  apply (revokeAll_removes_listed_records (t0 + 10) "u1" two_sessions);
    [reflexivity|].
  intros s ex. vm_compute. discriminate.
Defined.

Lemma bare_id_refresh_token_never_verifies_witness :
  verifyRefreshToken env (t0 + 10) bare_refresh two_sessions
  = (Throw (Error "Invalid refresh token format: missing user ID"), two_sessions).
Proof.
  apply (bare_id_refresh_token_never_verifies env "u1" false t0 7 bare_refresh
           (t0 + 10) two_sessions).
  reflexivity.
Defined.

Lemma blacklisted_token_is_rejected_witness :
  (∃ st message,
     userMiddleware env sha256_hex (t0 + 2 * 86400000) (HBearer access1) after_logout
     = (Ok (MwResult (Respond st message) DefaultUser None), after_logout)
     ∧ (st = 401 ∨ st = 403))
  ∧ (unexpired (t0 + 2 * 86400000) access1 →
     userMiddleware env sha256_hex (t0 + 2 * 86400000) (HBearer access1) after_logout
     = (Ok (MwResult (Respond 401 "Token has been revoked") DefaultUser None),
        after_logout)).
Proof.
  apply (blacklisted_token_is_rejected env sha256_hex (t0 + 5) (t0 + 2 * 86400000)
           (HBearer access1) access1 empty after_logout).
  - vm_compute. reflexivity.
  - split; [by left|reflexivity].
Defined.

Lemma userMiddleware_fails_open_witness :
  is_Some (db unreachable !! blacklistKey sha256_hex access1)
  ∧ userMiddleware env sha256_hex (t0 + 10) (HBearer access1) unreachable
    = (Ok (MwResult Next (Verified access_payload1) (Some access1)), unreachable).
Proof.
  split; [vm_compute; by eexists|].
  apply (userMiddleware_fails_open env sha256_hex (t0 + 10) (HBearer access1)
           access1 access_payload1 unreachable).
  - reflexivity.
  - split; [by left|reflexivity].
  - vm_compute. reflexivity.
Defined.

Lemma refresh_issues_access_token_witness :
  ∃ access p,
    controller_handleRefreshToken env (t0 + 2) (Some refresh1) two_sessions
    = (Response 200 (AccessToken access), two_sessions)
    ∧ Jwt.decode access = Some p
    ∧ p_isAdmin p = false
    ∧ user_id_of (p_user p) = Some "u1".
Proof.
  destruct (refresh_issues_access_token env (t0 + 2) refresh1 two_sessions payload1
              (UserObj (Some "u1") None (Some "customer") None (Some "a@x.com")))
    as (access & p & Hrun & _ & Hdec & Hadm & _ & Hid & _).
  - vm_compute. reflexivity.
  - reflexivity.
  - reflexivity.
  - exists access, p. split; [exact Hrun|]. split; [exact Hdec|].
    split; [exact Hadm|exact Hid].
Defined.

Lemma logout_ends_session_witness :
  ∃ r',
    controller_handleLogout env sha256_hex (t0 + 10) (Verified access_payload1)
      (Some access1) (Some refresh1) None two_sessions
    = (Response 200 (Message "Đăng xuất thành công"), r')
    ∧ (∀ laterMs authHeader,
         carries authHeader access1 →
         ∃ st message,
           userMiddleware env sha256_hex laterMs authHeader r'
           = (Ok (MwResult (Respond st message) DefaultUser None), r')
           ∧ (st = 401 ∨ st = 403))
    ∧ (∀ laterMs,
         controller_handleRefreshToken env laterMs (Some refresh1) r'
         = (refresh_rejected, r')).
Proof.
  apply (logout_ends_session env sha256_hex (t0 + 10) (Verified access_payload1)
           access1 access_payload1 refresh1 payload1 None two_sessions).
  - reflexivity.
  - vm_compute. reflexivity.
  - vm_compute. by repeat split.
Defined.

Lemma logout_without_cookie_keeps_refresh_tokens_witness :
  ∃ r',
    controller_handleLogout env sha256_hex (t0 + 10) (Verified access_payload1)
      (Some access1) None None two_sessions
    = (Response 200 (Message "Đăng xuất thành công"), r')
    ∧ verifyRefreshToken env (t0 + 20) refresh1 r' = (Ok payload1, r').
Proof.
  destruct (logout_without_cookie_keeps_refresh_tokens env sha256_hex alice false
              t0 access1 access_payload1 (t0 + 10) two_sessions eq_refl eq_refl)
    as (r' & Hrun & _ & Hkeep).
  exists r'. split; [exact Hrun|]. apply Hkeep. vm_compute. reflexivity.
Defined.

Lemma otp_round_trip_witness :
  ∃ r1,
    saveOTP t0 (Some "u1") (Some "login") 123456 empty = (Ok (generateOTP 123456), r1)
    ∧ (t0 + 599999 < t0 + OTP_EXPIRY_SECONDS * 1000 →
       (verifyOTP (t0 + 599999) (Some "u1") (Some (generateOTP 123456))
          (Some "login") r1).1 = Ok true)
    ∧ (t0 + OTP_EXPIRY_SECONDS * 1000 ≤ t0 + 599999 →
       verifyOTP (t0 + 599999) (Some "u1") (Some (generateOTP 123456))
         (Some "login") r1 = (Ok false, r1)).
Proof.
  apply (otp_round_trip t0 (t0 + 599999) "u1" "login" 123456 empty);
    [reflexivity|discriminate|discriminate].
Defined.

Lemma newer_otp_replaces_older_witness :
  ∃ r1 r2,
    saveOTP t0 (Some "u1") (Some "login") 123456 empty = (Ok (generateOTP 123456), r1)
    ∧ saveOTP (t0 + 1000) (Some "u1") (Some "login") 654321 r1
      = (Ok (generateOTP 654321), r2)
    ∧ verifyOTP (t0 + 2000) (Some "u1") (Some (generateOTP 123456)) (Some "login") r2
      = (Ok false, r2)
    ∧ (verifyOTP (t0 + 2000) (Some "u1") (Some (generateOTP 654321))
         (Some "login") r2).1 = Ok true.
Proof.
  apply (newer_otp_replaces_older t0 (t0 + 1000) (t0 + 2000) "u1" "login"
           123456 654321 empty);
    [reflexivity|discriminate|discriminate|discriminate|vm_compute; reflexivity].
Defined.

Lemma otp_service_outage_witness :
  saveOTP (t0 + 10) (Some "u1") (Some "login") 123456 unreachable
  = (Throw (Error "Không thể lưu mã OTP"), unreachable)
  ∧ verifyOTP (t0 + 10) (Some "u1") (Some "123456") (Some "login") unreachable
    = (Ok false, unreachable).
Proof.
  apply (otp_service_outage (t0 + 10) "u1" "login" (Some "123456") 123456
           unreachable);
    [reflexivity|discriminate|discriminate].
Defined.

Lemma token_service_outage_witness :
  (∃ e, saveRefreshToken (t0 + 10) "u1" refresh1 false unreachable
        = (Throw e, unreachable))
  ∧ (∃ e, verifyRefreshToken env (t0 + 10) refresh1 unreachable
          = (Throw e, unreachable))
  ∧ revokeRefreshToken (t0 + 10) refresh1 unreachable = (Ok false, unreachable)
  ∧ revokeAllUserRefreshTokens (t0 + 10) "u1" unreachable = (Ok false, unreachable)
  ∧ blacklistAccessToken env sha256_hex (t0 + 10) refresh1 unreachable
    = (Ok false, unreachable)
  ∧ isTokenBlacklisted sha256_hex (t0 + 10) refresh1 unreachable
    = (Ok false, unreachable).
Proof.
  apply (token_service_outage env sha256_hex (t0 + 10) "u1" refresh1 false
           unreachable).
  reflexivity.
Defined.

Lemma login_code_is_redeemable_witness :
  ∃ r',
    controller_sendLoginOTP parse_any parse_any find_alice mail_ok
      t0 (Some "a@x.com") None 123456 empty
    = (Response 200 (Message "Mã OTP đã được gửi thành công"), r')
    ∧ (verifyOTP (t0 + 1000) (Some "u1") (Some (generateOTP 123456))
         (Some "login") r').1 = Ok true.
Proof.
  apply (login_code_is_redeemable parse_any parse_any find_alice mail_ok
           t0 (t0 + 1000) "a@x.com" 123456 alice_doc empty);
    try reflexivity; discriminate.
Defined.

Lemma resetPassword_policy_check_is_inverted_witness :
  validatePassword good_password = true
  ∧ ∃ message,
      controller_resetPassword reset_ok (Some "a@x.com") (Some "123456")
        (Some good_password) empty
      = (Response 400 (Message message), empty).
Proof.
  split; [reflexivity|].
  apply (proj1 (resetPassword_policy_check_is_inverted reset_ok (Some "a@x.com")
                  (Some "123456") empty)).
  reflexivity.
Defined.

End further_examples.
